(** * Icon / animation asset compiler ([scripts/assets.py])

    A shallow embedding of [Main._icon2header], [Main._iconIsSupported] and
    [Main.icons], together with the Python string and path primitives they
    call, and the properties of the generated [assets_icons.c] /
    [assets_icons.h] artifacts.

    Conventions.
    - A Python [str] is a Rocq [string]; a character is its code point, so the
      model covers texts whose code points are below 256.
    - A Python [bytes] / [bytearray] is a [list byte].
    - A Python [int] is a [Z].
    - The two external tools ([convert] and [heatshrink]) are functions fixed
      for the whole run; [None] stands for a non-zero exit status, which
      [subprocess.check_output] turns into [CalledProcessError]. *)

From Stdlib Require Import ZArith NArith List String Ascii Bool Lia.
From Stdlib.Strings Require Import Byte.
From Stdlib Require Import Permutation Sorted DecimalString.
Import ListNotations.

Set Warnings "-register-all".

Local Open Scope list_scope.
Local Open Scope string_scope.

(** ** Exceptions *)

Inductive exn : Type :=
| AssertionError
| ValueError
| IndexError
| CalledProcessError.

Inductive result (A : Type) : Type :=
| Ok (a : A)
| Raise (e : exn).

Arguments Ok {A} a.
Arguments Raise {A} e.

Definition bind {A B : Type} (r : result A) (k : A -> result B) : result B :=
  match r with
  | Ok a => k a
  | Raise e => Raise e
  end.

Definition of_option {A : Type} (e : exn) (o : option A) : result A :=
  match o with
  | Some a => Ok a
  | None => Raise e
  end.

Notation "x <- r ;; k" := (bind r (fun x => k))
  (at level 61, r at next level, right associativity).

(** ** Python built-ins used by the script *)

Module Py.

Definition LF : ascii := "010"%char.

(** [str.isspace] on one character (code points below 256). *)
Definition isspace (c : ascii) : bool :=
  let n := N_of_ascii c in
  ((9 <=? n) && (n <=? 13) || (28 <=? n) && (n <=? 32) || (n =? 133) || (n =? 160))%N.

Fixpoint lstrip (s : string) : string :=
  match s with
  | String c r => if isspace c then lstrip r else s
  | EmptyString => EmptyString
  end.

Fixpoint rstrip (s : string) : string :=
  match s with
  | EmptyString => EmptyString
  | String c r =>
      match rstrip r with
      | EmptyString => if isspace c then EmptyString else String c EmptyString
      | r' => String c r'
      end
  end.

(** [s.strip()] *)
Definition strip (s : string) : string := rstrip (lstrip s).

(** [str.lower] on one character (code points below 256). *)
Definition lower_char (c : ascii) : ascii :=
  let n := N_of_ascii c in
  if ((65 <=? n) && (n <=? 90) || (192 <=? n) && (n <=? 222) && negb (n =? 215))%N
  then ascii_of_N (n + 32)
  else c.

(** [s.lower()] *)
Fixpoint lower (s : string) : string :=
  match s with
  | EmptyString => EmptyString
  | String c r => String (lower_char c) (lower r)
  end.

(** [s.split(sep)] for a one-character separator: every occurrence of [sep]
    ends a field, so the result is never empty and may hold empty fields. *)
Fixpoint split (sep : ascii) (s : string) : list string :=
  match s with
  | EmptyString => [EmptyString]
  | String c r =>
      if Ascii.eqb c sep then EmptyString :: split sep r
      else match split sep r with
           | h :: t => String c h :: t
           | [] => [String c EmptyString]
           end
  end.

(** [sep.join(l)] *)
Fixpoint join (sep : string) (l : list string) : string :=
  match l with
  | [] => EmptyString
  | [x] => x
  | x :: r => x ++ sep ++ join sep r
  end.

(** [s.replace(old, new)] for a one-character [old]. *)
Fixpoint replace (old : ascii) (new : string) (s : string) : string :=
  match s with
  | EmptyString => EmptyString
  | String c r =>
      if Ascii.eqb c old then new ++ replace old new r
      else String c (replace old new r)
  end.

(** [s.replace(old, new)] for the two-character [old] made of [a] then [b]:
    occurrences are taken left to right and do not overlap. *)
Fixpoint replace2 (a b : ascii) (new : string) (s : string) : string :=
  match s with
  | EmptyString => EmptyString
  | String c r =>
      match r with
      | String d r' =>
          if Ascii.eqb c a && Ascii.eqb d b then new ++ replace2 a b new r'
          else String c (replace2 a b new r)
      | EmptyString => String c EmptyString
      end
  end.

(** [s[1:]] *)
Definition drop_first (s : string) : string :=
  match s with
  | EmptyString => EmptyString
  | String _ r => r
  end.

(** [s[:-1]] *)
Fixpoint drop_last (s : string) : string :=
  match s with
  | EmptyString => EmptyString
  | String c r =>
      match r with
      | EmptyString => EmptyString
      | String _ _ => String c (drop_last r)
      end
  end.

(** [s[1:-1]] *)
Definition slice_1_m1 (s : string) : string := drop_first (drop_last s).

(** [l[i]] for a non-negative index. *)
Definition index {A : Type} (l : list A) (i : nat) : result A :=
  of_option IndexError (nth_error l i).

(** [l[-1]] for a list of [str] that is not empty (the result of [split]
    never is). *)
Definition last_field (l : list string) : string := last l EmptyString.

(** [s.endswith(c)] for a one-character [c]. *)
Fixpoint endswith (c : ascii) (s : string) : bool :=
  match s with
  | EmptyString => false
  | String d EmptyString => Ascii.eqb d c
  | String _ r => endswith c r
  end.

(** [io.StringIO.readline]: the next line with its terminating line feed,
    and what is left of the stream. *)
Fixpoint readline (s : string) : string * string :=
  match s with
  | EmptyString => (EmptyString, EmptyString)
  | String c r =>
      if Ascii.eqb c LF then (String c EmptyString, r)
      else let (l, r') := readline r in (String c l, r')
  end.

Definition digit_val (c : ascii) : option Z :=
  let n := N_of_ascii c in
  if ((48 <=? n) && (n <=? 57))%N then Some (Z.of_N n - 48)%Z else None.

(** The digits of a decimal literal: at least one digit, and single
    underscores allowed between two digits. [prev] tells whether the
    previous character was a digit. *)
Fixpoint int_digits (acc : Z) (prev : bool) (s : string) : option Z :=
  match s with
  | EmptyString => if prev then Some acc else None
  | String c r =>
      if Ascii.eqb c "_"
      then (if prev then int_digits acc false r else None)
      else match digit_val c with
           | Some d => int_digits (acc * 10 + d)%Z true r
           | None => None
           end
  end.

(** The white space [int] skips before and after a literal: the ASCII
    white space and, above 127, the characters [str.isspace] accepts (NEL
    and NBSP, for code points below 256). The separators U+001C..U+001F,
    which [str.isspace] accepts too, are not skipped: [int] refuses them. *)
Definition int_space (c : ascii) : bool :=
  let n := N_of_ascii c in
  ((9 <=? n) && (n <=? 13) || (n =? 32) || (n =? 133) || (n =? 160))%N.

Fixpoint int_lstrip (s : string) : string :=
  match s with
  | String c r => if int_space c then int_lstrip r else s
  | EmptyString => EmptyString
  end.

Fixpoint int_rstrip (s : string) : string :=
  match s with
  | EmptyString => EmptyString
  | String c r =>
      match int_rstrip r with
      | EmptyString => if int_space c then EmptyString else String c EmptyString
      | r' => String c r'
      end
  end.

(** [int(s)] in base 10; [None] is [ValueError]. The limit that recent
    interpreters put on the number of digits ([sys.int_max_str_digits]) is
    not part of the model. *)
Definition int_opt (s : string) : option Z :=
  match int_rstrip (int_lstrip s) with
  | String "+" r => int_digits 0 false r
  | String "-" r => option_map Z.opp (int_digits 0 false r)
  | t => int_digits 0 false t
  end.

Definition int (s : string) : result Z := of_option ValueError (int_opt s).

Definition hex_val (c : ascii) : option N :=
  let n := N_of_ascii c in
  if ((48 <=? n) && (n <=? 57))%N then Some (n - 48)%N
  else if ((97 <=? n) && (n <=? 102))%N then Some (n - 87)%N
  else if ((65 <=? n) && (n <=? 70))%N then Some (n - 55)%N
  else None.

(** The white space [bytearray.fromhex] skips between two bytes. *)
Definition is_ascii_space (c : ascii) : bool :=
  let n := N_of_ascii c in
  ((9 <=? n) && (n <=? 13) || (n =? 32))%N.

Fixpoint fromhex_opt (s : string) : option (list byte) :=
  match s with
  | EmptyString => Some []
  | String c r =>
      if is_ascii_space c then fromhex_opt r
      else match hex_val c, r with
           | Some hi, String d r' =>
               match hex_val d with
               | Some lo =>
                   match Byte.of_N (16 * hi + lo), fromhex_opt r' with
                   | Some b, Some bs => Some (b :: bs)
                   | _, _ => None
                   end
               | None => None
               end
           | _, _ => None
           end
  end.

(** [bytearray.fromhex(s)] *)
Definition fromhex (s : string) : result (list byte) :=
  of_option ValueError (fromhex_opt s).

(** [bytearray(ints)]: every item must be in [range(256)]. *)
Fixpoint bytearray (ints : list Z) : result (list byte) :=
  match ints with
  | [] => Ok []
  | z :: r =>
      if (z <? 0)%Z then Raise ValueError
      else match Byte.of_N (Z.to_N z) with
           | Some b => bs <- bytearray r ;; Ok (b :: bs)
           | None => Raise ValueError
           end
  end.

Definition hex_digit (n : N) : ascii :=
  if (n <? 10)%N then ascii_of_N (48 + n) else ascii_of_N (87 + n).

(** ["{:02x}".format(b)] for an item of a [bytearray]. *)
Definition format_02x (b : byte) : string :=
  let n := Byte.to_N b in
  String (hex_digit (n / 16)) (String (hex_digit (n mod 16)) EmptyString).

(** [str(z)], as an f-string or [format] renders an [int]. *)
Definition str_int (z : Z) : string := NilZero.string_of_int (Z.to_int z).

(** How [format] renders a value that is an [int] or [None]. *)
Definition str_opt_int (v : option Z) : string :=
  match v with
  | Some z => str_int z
  | None => "None"
  end.

(** [len(b)] *)
Definition len {A : Type} (l : list A) : Z := Z.of_nat (List.length l).

(** [x < y] on [str]: lexicographic on code points. *)
Fixpoint str_ltb (x y : string) : bool :=
  match x, y with
  | EmptyString, EmptyString => false
  | EmptyString, String _ _ => true
  | String _ _, EmptyString => false
  | String a x', String b y' =>
      if (N_of_ascii a <? N_of_ascii b)%N then true
      else if (N_of_ascii b <? N_of_ascii a)%N then false
      else str_ltb x' y'
  end.

(** [x in l] for a list of [str]. *)
Fixpoint contains (x : string) (l : list string) : bool :=
  match l with
  | [] => false
  | y :: r => String.eqb x y || contains x r
  end.

End Py.

(** ** [os.path] (POSIX flavour) *)

Module OsPath.

(** [os.path.join(a, b)] for a [b] that does not start with a slash (a
    directory entry name never does). *)
Definition join (a b : string) : string :=
  match a with
  | EmptyString => b
  | _ => if Py.endswith "/" a then a ++ b else a ++ "/" ++ b
  end.

(** [os.path.split(p)[1]]: what follows the last slash of [p], that is the
    last of the slash-separated fields of [p]. *)
Definition basename (p : string) : string :=
  Py.last_field (Py.split "/" p).

End OsPath.

(** ** The source tree

    A directory lists its plain files (name and content) and its
    sub-directories, in the order the file system enumerates them. *)

Inductive dir : Type :=
| Dir (files : list (string * string)) (subdirs : list (string * dir)).

(** [list.sort()] on directory entries, which are compared by name; the
    sort is stable. *)
Fixpoint insert_by_name {A : Type} (x : string * A) (l : list (string * A))
  : list (string * A) :=
  match l with
  | [] => [x]
  | y :: r =>
      if Py.str_ltb (fst y) (fst x) then y :: insert_by_name x r
      else x :: l
  end.

Fixpoint sort_by_name {A : Type} (l : list (string * A)) : list (string * A) :=
  match l with
  | [] => []
  | x :: r => insert_by_name x (sort_by_name r)
  end.

(** One item of [os.walk]: [(dirpath, dirnames, filenames)]; every file name
    comes with the content of the file it names. *)
Definition walk_item : Type := string * list string * list (string * string).

(** [os.walk(top)] (top-down, links not followed) as the loop of [icons]
    drives it: the loop body sorts [dirnames] in place before the walk
    descends, so the sub-directories are visited in sorted order. The item
    itself holds the names as enumerated; the loop body sorts them. *)
Fixpoint os_walk (top : string) (d : dir) : list walk_item :=
  match d with
  | Dir files subdirs =>
      (top, map fst subdirs, files)
        :: List.concat (map snd (sort_by_name
             (map (fun e : string * dir =>
                     let (name, sub) := e in
                     (name, os_walk (OsPath.join top name) sub))
                  subdirs)))
  end.

(** ** Templates *)

Definition DQ : string := String "034"%char EmptyString.
Definition NL : string := String Py.LF EmptyString.

Definition ICONS_SUPPORTED_FORMATS : list string := ["png"].

Definition ICONS_TEMPLATE_H_HEADER : string :=
  "#pragma once" ++ NL ++ "#include <gui/icon.h>" ++ NL ++ NL.

Definition ICONS_TEMPLATE_H_ICON_NAME (name : string) : string :=
  "extern const Icon " ++ name ++ ";" ++ NL.

Definition ICONS_TEMPLATE_C_HEADER : string :=
  "#include " ++ DQ ++ "assets_icons.h" ++ DQ ++ NL ++ NL
  ++ "#include <gui/icon_i.h>" ++ NL ++ NL.

Definition ICONS_TEMPLATE_C_FRAME (name data : string) : string :=
  "const uint8_t " ++ name ++ "[] = " ++ data ++ ";" ++ NL.

Definition ICONS_TEMPLATE_C_DATA (name data : string) : string :=
  "const uint8_t* const " ++ name ++ "[] = " ++ data ++ ";" ++ NL.

Definition ICONS_TEMPLATE_C_ICONS
  (name : string) (width height : option Z) (frame_count frame_rate : Z) : string :=
  "const Icon " ++ name ++ " = {.width=" ++ Py.str_opt_int width
  ++ ",.height=" ++ Py.str_opt_int height
  ++ ",.frame_count=" ++ Py.str_int frame_count
  ++ ",.frame_rate=" ++ Py.str_int frame_rate
  ++ ",.frames=_" ++ name ++ "};" ++ NL.

(** ** The compiler *)

(** An entry of the [icons] list:
    [(icon_name, width, height, frame_rate, frame_count)]. *)
Record icon : Type := mk_icon {
  icon_name : string;
  icon_width : option Z;
  icon_height : option Z;
  icon_frame_rate : Z;
  icon_frame_count : Z
}.

(** What [icons] has built so far: the strings written to [assets_icons.c],
    in the order of the [write] calls, and the [icons] list. *)
Record state : Type := mk_state {
  icons_c : list string;
  icons_list : list icon
}.

Definition write (st : state) (s : string) : state :=
  mk_state (icons_c st ++ [s])%list (icons_list st).

Definition append_icon (st : state) (i : icon) : state :=
  mk_state (icons_c st) (icons_list st ++ [i])%list.

(** The local variables of the animation branch. *)
Record anim : Type := mk_anim {
  width : option Z;
  height : option Z;
  frame_count : Z;
  frame_rate : Z;
  frame_names : list string
}.

(** The two files as they stand when [icons] returns or aborts;
    [assets_icons.h] is [None] when it was never opened. *)
Record artifacts : Type := mk_artifacts {
  assets_icons_c : list string;
  assets_icons_h : option (list string)
}.

Definition opt_Z_eqb (a b : option Z) : bool :=
  match a, b with
  | Some x, Some y => (x =? y)%Z
  | None, None => true
  | _, _ => false
  end.

(** [_iconIsSupported] *)
Definition iconIsSupported (filename : string) : bool :=
  let extension := Py.last_field (Py.split "." (Py.lower filename)) in
  Py.contains extension ICONS_SUPPORTED_FORMATS.

(** The text of a frame initialiser when the encoded data is kept. *)
Definition encoded_data (data_enc : list byte) : string :=
  "{0x01,0x00,"
  ++ String.concat "" (map (fun b => "0x" ++ Py.format_02x b ++ ",") data_enc)
  ++ "}".

Section Compiler.

(** [convert file content]: the standard output of [convert <file> xbm:-],
    decoded, for the file at path [file] holding [content]. *)
Variable convert : string -> string -> option string.

(** [heatshrink data]: the standard output of [heatshrink -e -w8 -l4] fed
    with [data]. *)
Variable heatshrink : list byte -> option (list byte).

(** [_icon2header], the parsing of the text [convert] printed: the two
    header lines and the body. Gives [width], [height], the text [data] of
    the initialiser and the bytes [data_bin] it was decoded into. *)
Definition parse_xbm (output : string) : result (Z * Z * string * list byte) :=
  let f := Py.strip output in
  let (line1, f1) := Py.readline f in
  field1 <- Py.index (Py.split " " (Py.strip line1)) 2 ;;
  width <- Py.int field1 ;;
  let (line2, f2) := Py.readline f1 in
  field2 <- Py.index (Py.split " " (Py.strip line2)) 2 ;;
  height <- Py.int field2 ;;
  rhs <- Py.index
           (Py.split "="
              (Py.replace " " "" (Py.replace Py.LF "" (Py.strip f2)))) 1 ;;
  let data := Py.drop_last rhs in
  let data_bin_str :=
    Py.replace2 "0" "x" "" (Py.replace "," " " (Py.slice_1_m1 data)) in
  data_bin <- Py.fromhex data_bin_str ;;
  Ok (width, height, data, data_bin).

(** The two bytes put in front of the encoded data:
    [bytearray([len(data_enc) & 0xFF, len(data_enc) >> 8])]. *)
Definition length_header (n : Z) : result (list byte) :=
  Py.bytearray [Z.land n 255; Z.shiftr n 8].

(** [_icon2header], the encoding of the frame: the text of the frame
    initialiser, from the text [data] and the bytes [data_bin]. *)
Definition encode_frame (data : string) (data_bin : list byte) : result string :=
  data_encoded_str <- of_option CalledProcessError (heatshrink data_bin) ;;
  match data_encoded_str with
  | [] => Raise AssertionError
  | _ =>
      header <- length_header (Py.len data_encoded_str) ;;
      let data_enc := (header ++ data_encoded_str)%list in
      if (Py.len data_enc <? Py.len data_bin + 1)%Z
      then Ok (encoded_data data_enc)
      else Ok ("{0x00," ++ Py.drop_first data)
  end.

(** [_icon2header] *)
Definition icon2header (file content : string) : result (Z * Z * string) :=
  output <- of_option CalledProcessError (convert file content) ;;
  if String.eqb output "" then Raise AssertionError else
  parsed <- parse_xbm output ;;
  let '(width, height, data, data_bin) := parsed in
  data <- encode_frame data data_bin ;;
  Ok (width, height, data).

(** The body of [for filename in sorted(filenames)] in the animation
    branch, run over the remaining [files]. *)
Fixpoint anim_loop (dirpath name : string) (files : list (string * string))
  (a : anim) (st : state) : result anim * state :=
  match files with
  | [] => (Ok a, st)
  | (filename, content) :: rest =>
      let fullfilename := OsPath.join dirpath filename in
      if String.eqb filename "frame_rate" then
        match Py.int (Py.strip content) with
        | Raise e => (Raise e, st)
        | Ok r =>
            anim_loop dirpath name rest
              (mk_anim (width a) (height a) (frame_count a) r (frame_names a)) st
        end
      else if negb (iconIsSupported filename) then
        anim_loop dirpath name rest a st
      else
        match icon2header fullfilename content with
        | Raise e => (Raise e, st)
        | Ok (temp_width, temp_height, data) =>
            let w := match width a with None => Some temp_width | w => w end in
            let h := match height a with None => Some temp_height | h => h end in
            if negb (opt_Z_eqb w (Some temp_width)) then (Raise AssertionError, st)
            else if negb (opt_Z_eqb h (Some temp_height)) then (Raise AssertionError, st)
            else
              let frame_name := "_" ++ name ++ "_" ++ Py.str_int (frame_count a) in
              anim_loop dirpath name rest
                (mk_anim w h (frame_count a + 1)%Z (frame_rate a)
                   (frame_names a ++ [frame_name])%list)
                (write st (ICONS_TEMPLATE_C_FRAME frame_name data))
        end
  end.

(** The name of an animation, from the path of its directory. *)
Definition anim_icon_name (dirpath : string) : string :=
  "A_" ++ Py.replace "-" "_" (OsPath.basename dirpath).

(** The name of a static icon, from its file name. *)
Definition static_icon_name (filename : string) : string :=
  "I_" ++ Py.replace "-" "_" (Py.join "_" (removelast (Py.split "." filename))).

(** The animation branch of the loop body. *)
Definition process_animation (dirpath : string) (filenames : list (string * string))
  (st : state) : result unit * state :=
  let name := anim_icon_name dirpath in
  match anim_loop dirpath name (sort_by_name filenames)
          (mk_anim None None 0 0 []) st with
  | (Raise e, st1) => (Raise e, st1)
  | (Ok a, st1) =>
      if negb (frame_rate a >? 0)%Z then (Raise AssertionError, st1)
      else if negb (frame_count a >? 0)%Z then (Raise AssertionError, st1)
      else
        let st2 :=
          write st1 (ICONS_TEMPLATE_C_DATA ("_" ++ name)
                       ("{" ++ Py.join "," (frame_names a) ++ "}")) in
        let st3 := write st2 NL in
        (Ok tt,
         append_icon st3
           (mk_icon name (width a) (height a) (frame_rate a) (frame_count a)))
  end.

(** The static branch of the loop body: [for filename in filenames]. *)
Fixpoint process_static (dirpath : string) (filenames : list (string * string))
  (st : state) : result unit * state :=
  match filenames with
  | [] => (Ok tt, st)
  | (filename, content) :: rest =>
      if negb (iconIsSupported filename) then process_static dirpath rest st
      else
        let name := static_icon_name filename in
        let fullfilename := OsPath.join dirpath filename in
        match icon2header fullfilename content with
        | Raise e => (Raise e, st)
        | Ok (w, h, data) =>
            let frame_name := "_" ++ name ++ "_0" in
            let st1 := write st (ICONS_TEMPLATE_C_FRAME frame_name data) in
            let st2 :=
              write st1 (ICONS_TEMPLATE_C_DATA ("_" ++ name)
                           ("{" ++ frame_name ++ "}")) in
            let st3 := write st2 NL in
            process_static dirpath rest
              (append_icon st3 (mk_icon name (Some w) (Some h) 0 1))
        end
  end.

(** The body of [for dirpath, dirnames, filenames in os.walk(...)]. *)
Definition process_dir (item : walk_item) (st : state) : result unit * state :=
  let '(dirpath, _, listed) := item in
  let filenames := sort_by_name listed in
  match filenames with
  | [] => (Ok tt, st)
  | _ =>
      if Py.contains "frame_rate" (map fst filenames)
      then process_animation dirpath filenames st
      else process_static dirpath filenames st
  end.

Fixpoint walk_loop (items : list walk_item) (st : state) : result unit * state :=
  match items with
  | [] => (Ok tt, st)
  | item :: rest =>
      match process_dir item st with
      | (Raise e, st1) => (Raise e, st1)
      | (Ok _, st1) => walk_loop rest st1
      end
  end.

Definition icon_line (i : icon) : string :=
  ICONS_TEMPLATE_C_ICONS (icon_name i) (icon_width i) (icon_height i)
    (icon_frame_count i) (icon_frame_rate i).

Definition decl_line (i : icon) : string :=
  ICONS_TEMPLATE_H_ICON_NAME (icon_name i).

(** [icons]: the return value (or the exception) and the two files. The
    tree [root] is what lies at [input_directory]. The output directory is
    taken to be writable: the two [open] calls and the [write] calls
    succeed, so that the only exceptions are those of the walk. *)
Definition icons (input_directory : string) (root : dir) : result Z * artifacts :=
  let st0 := mk_state [ICONS_TEMPLATE_C_HEADER] [] in
  match walk_loop (os_walk input_directory root) st0 with
  | (Raise e, st) => (Raise e, mk_artifacts (icons_c st) None)
  | (Ok _, st) =>
      let c := (icons_c st ++ map icon_line (icons_list st) ++ [NL])%list in
      let h := ICONS_TEMPLATE_H_HEADER :: map decl_line (icons_list st) in
      (Ok 0%Z, mk_artifacts c (Some h))
  end.

End Compiler.

(** ** Vocabulary of the specification *)

(** The two representations of a frame. *)
Inductive representation : Type := RAW | COMPRESSED.

(** The representation a frame initialiser announces: its first item. *)
Definition frame_flag (data : string) : option representation :=
  if String.prefix "{0x01," data then Some COMPRESSED
  else if String.prefix "{0x00," data then Some RAW
  else None.

(** The items of an initialiser after its opening brace: hexadecimal
    literals of two digits separated by commas, up to the closing brace; a
    comma may follow the last item. *)
Fixpoint read_items (s : string) : option (list byte) :=
  match s with
  | String c0 (String c1 (String a (String b (String c4 r)))) =>
      if Ascii.eqb c0 "0" && Ascii.eqb c1 "x"
      then match Py.hex_val a, Py.hex_val b with
           | Some hi, Some lo =>
               match Byte.of_N (16 * hi + lo) with
               | Some x =>
                   if Ascii.eqb c4 ","
                   then match read_items r with
                        | Some xs => Some (x :: xs)
                        | None => None
                        end
                   else if Ascii.eqb c4 "}"
                   then match r with
                        | EmptyString => Some [x]
                        | String _ _ => None
                        end
                   else None
               | None => None
               end
           | _, _ => None
           end
      else None
  | String c EmptyString => if Ascii.eqb c "}" then Some [] else None
  | _ => None
  end.

(** The byte array a frame initialiser denotes. *)
Definition frame_bytes (data : string) : option (list byte) :=
  match data with
  | String c r => if Ascii.eqb c "{" then read_items r else None
  | EmptyString => None
  end.

(** The white-space-separated tokens of a line ([line.split()]). *)
Fixpoint tokens (s : string) : list string :=
  match s with
  | EmptyString => []
  | String c r =>
      if Py.isspace c then tokens r
      else match r with
           | EmptyString => [String c EmptyString]
           | String d _ =>
               if Py.isspace d then String c EmptyString :: tokens r
               else match tokens r with
                    | h :: t => String c h :: t
                    | [] => [String c EmptyString]
                    end
           end
  end.

(** The last white-space-separated token of a line. *)
Definition last_token (line : string) : string := Py.last_field (tokens line).

(** Words that hold no white space, separated by single spaces. *)
Fixpoint single_spaced (s : string) : bool :=
  match s with
  | EmptyString => false
  | String c r =>
      negb (Py.isspace c)
      && match r with
         | EmptyString => true
         | String d r' => if Ascii.eqb d " " then single_spaced r' else single_spaced r
         end
  end.


(** The three kinds of lines of [assets_icons.c]. *)
Definition is_frame_block (s : string) : bool := String.prefix "const uint8_t " s.
Definition is_pointer_array (s : string) : bool :=
  String.prefix "const uint8_t* const " s.
Definition is_descriptor (s : string) : bool := String.prefix "const Icon " s.

(** "All frame blocks, then all frame-pointer arrays": no frame block is
    written after a frame-pointer array. *)
Fixpoint frames_then_arrays (seen_array : bool) (l : list string) : bool :=
  match l with
  | [] => true
  | s :: r =>
      if is_frame_block s then negb seen_array && frames_then_arrays seen_array r
      else frames_then_arrays (seen_array || is_pointer_array s) r
  end.

(** A qualifying frame of an animation: a supported image that is not the
    [frame_rate] file. *)
Definition qualifying (filename : string) : bool :=
  negb (String.eqb filename "frame_rate") && iconIsSupported filename.

(** What [icons] builds for one icon: its entry of the [icons] list, its
    frame blocks and its frame-pointer array. *)
Record group : Type := mk_group {
  group_icon : icon;
  group_frames : list string;
  group_array : string
}.

(** What [icons] writes for one icon: its frame blocks, its frame-pointer
    array and an empty line. *)
Definition group_blocks (g : group) : list string :=
  (group_frames g ++ [group_array g; NL])%list.

Definition group_ok (g : group) : Prop :=
  Forall (fun s => is_frame_block s = true) (group_frames g)
  /\ is_pointer_array (group_array g) = true
  /\ icon_frame_count (group_icon g) = Z.of_nat (List.length (group_frames g)).

(** [x <= y] on names, and on directory entries. *)
Definition name_le (x y : string) : Prop := Py.str_ltb y x = false.

Definition entry_le {A : Type} (x y : string * A) : Prop :=
  name_le (fst x) (fst y).

Fixpoint names_distinct (l : list string) : bool :=
  match l with
  | [] => true
  | x :: r => negb (Py.contains x r) && names_distinct r
  end.

(** A directory of a file system holds no two files and no two
    sub-directories of the same name. *)
Fixpoint wf_dir (d : dir) : bool :=
  match d with
  | Dir files subdirs =>
      names_distinct (map fst files)
      && names_distinct (map fst subdirs)
      && forallb (fun e : string * dir => wf_dir (snd e)) subdirs
  end.

(** The same tree, enumerated in another order: at every level the files
    are the same up to their order, and so are the sub-directories. *)
Inductive same_tree : dir -> dir -> Prop :=
| same_tree_dir (fs fs' : list (string * string)) (ds ds' ds'' : list (string * dir)) :
    Permutation fs fs' ->
    Forall2 (fun a b => fst a = fst b /\ same_tree (snd a) (snd b)) ds ds'' ->
    Permutation ds'' ds' ->
    same_tree (Dir fs ds) (Dir fs' ds').

(** Two items of the walk that differ only by the order of enumeration;
    the file names of the first are distinct. *)
Definition item_equiv (i1 i2 : walk_item) : Prop :=
  fst (fst i1) = fst (fst i2)
  /\ Permutation (snd i1) (snd i2)
  /\ NoDup (map fst (snd i1)).

(** Two visited sub-directories of the same name whose walks differ only
    by the order of enumeration. *)
Definition visit_equiv (v1 v2 : string * list walk_item) : Prop :=
  fst v1 = fst v2 /\ Forall2 item_equiv (snd v1) (snd v2).

(** The symbols of [n] successive frames of the icon [name], numbered from
    [start]: [_<name>_<start>], [_<name>_<start+1>], ... *)
Fixpoint frame_symbols (name : string) (start : Z) (n : nat) : list string :=
  match n with
  | O => []
  | S k =>
      ("_" ++ name ++ "_" ++ Py.str_int start)
        :: frame_symbols name (start + 1)%Z k
  end.

(** The frame blocks of the frames named [symbols], whose initialisers are
    [datas]. *)
Definition frame_blocks (symbols datas : list string) : list string :=
  map (fun p => ICONS_TEMPLATE_C_FRAME (fst p) (snd p)) (combine symbols datas).

(** The entry of the [icons] list of the static icon made from the file
    [filename], for which [_icon2header] returned [r]. *)
Definition static_icon (filename : string) (r : Z * Z * string) : icon :=
  mk_icon (static_icon_name filename) (Some (fst (fst r))) (Some (snd (fst r))) 0 1.

(** What is written for that static icon. *)
Definition static_blocks (filename : string) (r : Z * Z * string) : list string :=
  let name := static_icon_name filename in
  [ICONS_TEMPLATE_C_FRAME ("_" ++ name ++ "_0") (snd r);
   ICONS_TEMPLATE_C_DATA ("_" ++ name) ("{" ++ ("_" ++ name ++ "_0") ++ "}");
   NL].

(** The supported images of a listing. *)
Definition supported_files (l : list (string * string)) : list (string * string) :=
  filter (fun e => iconIsSupported (fst e)) l.

(** The qualifying frames of a listing. *)
Definition qualifying_files (l : list (string * string)) : list (string * string) :=
  filter (fun e => qualifying (fst e)) l.

(** The blocks of an icon hang together: its frame blocks define the
    symbols [symbols], its frame-pointer array is named [_<icon>] and lists
    exactly these symbols, and its frame count is their number. *)
Definition group_linked (g : group) : Prop :=
  exists symbols datas,
    List.length symbols = List.length datas
    /\ group_frames g = frame_blocks symbols datas
    /\ group_array g
       = ICONS_TEMPLATE_C_DATA ("_" ++ icon_name (group_icon g))
           ("{" ++ Py.join "," symbols ++ "}")
    /\ icon_frame_count (group_icon g) = Z.of_nat (List.length symbols).

(** A header line as [convert] prints it, [#define <name> <value>]: once
    stripped, three words that hold no white space, separated by single
    spaces. *)
Definition define_line (line : string) : bool :=
  single_spaced (Py.strip line)
  && Nat.eqb (List.length (Py.split " " (Py.strip line))) 3.

(** What [icons] builds for the static icon made from the file [filename],
    for which [_icon2header] returned [r]. *)
Definition static_group (filename : string) (r : Z * Z * string) : group :=
  let name := static_icon_name filename in
  mk_group (static_icon filename r)
    [ICONS_TEMPLATE_C_FRAME ("_" ++ name ++ "_0") (snd r)]
    (ICONS_TEMPLATE_C_DATA ("_" ++ name) ("{" ++ ("_" ++ name ++ "_0") ++ "}")).

(** What [icons] builds for the animation of the directory [dirpath], of
    width [w], height [h] and frame rate [r], whose frames have the
    initialisers [datas]. *)
Definition animation_group (dirpath : string) (w h r : Z) (datas : list string)
  : group :=
  let name := anim_icon_name dirpath in
  let symbols := frame_symbols name 0 (List.length datas) in
  mk_group
    (mk_icon name (Some w) (Some h) r (Z.of_nat (List.length datas)))
    (frame_blocks symbols datas)
    (ICONS_TEMPLATE_C_DATA ("_" ++ name) ("{" ++ Py.join "," symbols ++ "}")).

(** The groups [gs] are what the item [item] of the walk gives rise to, in
    the order of discovery. In a directory with a [frame_rate] file: the
    one animation made of its qualifying frames, taken in the order of the
    sorted file names, all of one width and height, with the frame rate read
    from the [frame_rate] file. In another directory: one static icon per
    supported file, in the order of the sorted file names. *)
Definition item_groups
  (convert : string -> string -> option string)
  (heatshrink : list byte -> option (list byte))
  (item : walk_item) (gs : list group) : Prop :=
  let dirpath := fst (fst item) in
  let filenames := sort_by_name (snd item) in
  if Py.contains "frame_rate" (map fst filenames)
  then exists w h r datas content,
         Forall2 (fun e d =>
                    icon2header convert heatshrink
                      (OsPath.join dirpath (fst e)) (snd e) = Ok (w, h, d))
           (qualifying_files filenames) datas
         /\ datas <> []
         /\ In ("frame_rate", content) filenames
         /\ Py.int (Py.strip content) = Ok r
         /\ (0 < r)%Z
         /\ gs = [animation_group dirpath w h r datas]
  else exists results,
         Forall2 (fun e r =>
                    icon2header convert heatshrink
                      (OsPath.join dirpath (fst e)) (snd e) = Ok r)
           (supported_files filenames) results
         /\ gs = map (fun p => static_group (fst (fst p)) (snd p))
                   (combine (supported_files filenames) results).

(** [c in s] for a character [c]. *)
Definition has_char (c : ascii) (s : string) : bool :=
  existsb (Ascii.eqb c) (list_ascii_of_string s).

(** An item of the walk that holds no [frame_rate] file and no supported
    image. *)
Definition quiet_item (i : walk_item) : bool :=
  negb (Py.contains "frame_rate" (map fst (snd i)))
  && forallb (fun e : string * string => negb (iconIsSupported (fst e))) (snd i).

(** What the loops of [icons] write: frame blocks, frame-pointer arrays and
    empty lines. *)
Definition loop_output (s : string) : bool :=
  is_frame_block s || is_pointer_array s || String.eqb s NL.

(** ** Sample inputs *)

Module Sample.

(** What [convert] prints for a 10x8 image. *)
Definition xbm_10x8 : string :=
  "#define -_width 10" ++ NL ++ "#define -_height 8" ++ NL
  ++ "static char -_bits[] = {" ++ NL
  ++ "  0xFF, 0x03, 0x01, 0x02, 0x01, 0x02, 0x01, 0x02, 0x01, 0x02, 0x01, 0x02, " ++ NL
  ++ "  0x01, 0x02, 0xFF, 0x03, };" ++ NL.

(** The same for a 16x8 image. *)
Definition xbm_16x8 : string :=
  "#define -_width 16" ++ NL ++ "#define -_height 8" ++ NL
  ++ "static char -_bits[] = {" ++ NL
  ++ "  0xFF, 0xFF, 0x01, 0x80, 0x01, 0x80, 0x01, 0x80, 0x01, 0x80, 0x01, 0x80, " ++ NL
  ++ "  0x01, 0x80, 0xFF, 0xFF, };" ++ NL.

(** A text whose first header line has a fourth field. *)
Definition xbm_extra_field : string :=
  "#define -_width 10 7" ++ NL ++ "#define -_height 8" ++ NL
  ++ "static char -_bits[] = {" ++ NL
  ++ "  0xFF, 0x03, 0x01, 0x02, 0x01, 0x02, 0x01, 0x02, 0x01, 0x02, 0x01, 0x02, " ++ NL
  ++ "  0x01, 0x02, 0xFF, 0x03, };" ++ NL.

(** A stand-in for [convert]: the content of a sample image file is the
    text [convert] prints for it. *)
Definition convert (file content : string) : option string := Some content.

(** A compressor that answers three bytes, whatever it is fed. *)
Definition heatshrink_short (data : list byte) : option (list byte) :=
  Some [xaa; xbb; x0c].

(** A compressor whose output is twice as long as its input. *)
Definition heatshrink_long (data : list byte) : option (list byte) :=
  Some (data ++ data)%list.

(** A compressor that answers [n] zero bytes. *)
Definition heatshrink_zeros (n : Z) (data : list byte) : option (list byte) :=
  Some (repeat x00 (Z.to_nat n)).

(** Two static icons in one directory. *)
Definition two_icons : dir :=
  Dir [("b.png", xbm_10x8); ("a.png", xbm_10x8)] [].

(** An animation and a static directory, enumerated in two orders. *)
Definition tree1 : dir :=
  Dir [] [("b", Dir [("z.png", xbm_10x8); ("a.png", xbm_10x8)] []);
          ("a-1", Dir [("frame_rate", "4" ++ NL); ("f2.png", xbm_16x8);
                       ("f1.png", xbm_16x8)] [])].

Definition tree2 : dir :=
  Dir [] [("a-1", Dir [("f1.png", xbm_16x8); ("frame_rate", "4" ++ NL);
                       ("f2.png", xbm_16x8)] []);
          ("b", Dir [("a.png", xbm_10x8); ("z.png", xbm_10x8)] [])].

(** An animation whose two frames differ in width. *)
Definition mixed_frames : list (string * string) :=
  [("frame_rate", "4" ++ NL); ("f2.png", xbm_16x8); ("f1.png", xbm_10x8)].

(** An animation whose frame rate is zero. *)
Definition zero_rate : list (string * string) :=
  [("f1.png", xbm_10x8); ("frame_rate", "0" ++ NL)].

(** The state of [icons] before the walk. *)
Definition st0 : state := mk_state [ICONS_TEMPLATE_C_HEADER] [].

(** What [_icon2header] returns for the two sample images with
    [heatshrink_short]. *)
Definition frame_10x8 : Z * Z * string :=
  (10%Z, 8%Z, "{0x01,0x00,0x03,0x00,0xaa,0xbb,0x0c,}").

Definition frame_data : string := "{0x01,0x00,0x03,0x00,0xaa,0xbb,0x0c,}".

(** A text that is not a bitmap: [_icon2header] raises on it. *)
Definition not_xbm : string := "convert: no decode delegate".

(** A static directory whose second image cannot be converted. *)
Definition broken_second : list (string * string) :=
  [("c.png", xbm_10x8); ("b.png", not_xbm); ("a.png", xbm_10x8);
   ("notes.txt", "hello")].

(** An animation of three frames of 16x8. *)
Definition three_frames : list (string * string) :=
  [("frame_rate", "4" ++ NL); ("c.png", xbm_16x8); ("a.png", xbm_16x8);
   ("readme.md", "x"); ("b.png", xbm_16x8)].

(** A tree that holds no image at all. *)
Definition no_images : dir :=
  Dir [("README", "x")] [("docs", Dir [("a.txt", "y")] []); ("empty", Dir [] [])].

End Sample.

(** * Properties *)

(** ** The length header *)

Lemma byte_of_small (n : Z) :
  (0 <= n < 256)%Z ->
  exists b, Byte.of_N (Z.to_N n) = Some b /\ Z.of_N (Byte.to_N b) = n.
Proof.
  intros Hn.
  destruct (Byte.of_N (Z.to_N n)) as [b|] eqn:E.
  - exists b. split; [reflexivity|].
    apply Byte.to_of_N in E. rewrite E. lia.
  - apply Byte.of_N_None_iff in E. lia.
Qed.

Lemma land_255 (n : Z) : (0 <= n)%Z -> Z.land n 255 = (n mod 256)%Z.
Proof.
  intros _. change 255%Z with (Z.ones 8). rewrite Z.land_ones by lia. reflexivity.
Qed.

Lemma shiftr_8 (n : Z) : Z.shiftr n 8 = (n / 256)%Z.
Proof. rewrite Z.shiftr_div_pow2 by lia. reflexivity. Qed.

Lemma length_header_small (n : Z) :
  (0 <= n < 65536)%Z ->
  exists lo hi,
    length_header n = Ok [lo; hi]
    /\ Z.of_N (Byte.to_N lo) = (n mod 256)%Z
    /\ Z.of_N (Byte.to_N hi) = (n / 256)%Z.
Proof.
  intros Hn. unfold length_header.
  rewrite land_255, shiftr_8 by lia.
  assert (Hlo : (0 <= n mod 256 < 256)%Z) by (apply Z.mod_pos_bound; lia).
  assert (Hhi : (0 <= n / 256 < 256)%Z).
  { split; [apply Z.div_pos; lia | apply Z.div_lt_upper_bound; lia]. }
  destruct (byte_of_small _ Hlo) as (lo & Elo & Vlo).
  destruct (byte_of_small _ Hhi) as (hi & Ehi & Vhi).
  exists lo, hi. simpl.
  destruct (Z.ltb_spec (n mod 256) 0); [lia|].
  rewrite Elo.
  destruct (Z.ltb_spec (n / 256) 0); [lia|].
  rewrite Ehi. simpl. auto.
Qed.

Lemma length_header_large (n : Z) :
  (65536 <= n)%Z -> length_header n = Raise ValueError.
Proof.
  intros Hn. unfold length_header.
  rewrite land_255, shiftr_8 by lia.
  assert (Hlo : (0 <= n mod 256 < 256)%Z) by (apply Z.mod_pos_bound; lia).
  assert (Hhi : (256 <= n / 256)%Z) by (apply Z.div_le_lower_bound; lia).
  destruct (byte_of_small _ Hlo) as (lo & Elo & _).
  simpl.
  destruct (Z.ltb_spec (n mod 256) 0); [lia|].
  rewrite Elo.
  destruct (Z.ltb_spec (n / 256) 0); [lia|].
  destruct (Byte.of_N (Z.to_N (n / 256))) as [b|] eqn:E; [|reflexivity].
  apply Byte.to_of_N in E. pose proof (Byte.to_N_bounded b). lia.
Qed.

Lemma len_nonneg {A : Type} (l : list A) : (0 <= Py.len l)%Z.
Proof. unfold Py.len. lia. Qed.


(** ** Reading back a frame initialiser *)

Lemma concat_empty_cons (x : string) (l : list string) :
  String.concat "" (x :: l) = x ++ String.concat "" l.
Proof.
  destruct l as [|y l]; simpl; [|reflexivity].
  induction x as [|c x IH]; simpl; [reflexivity | now rewrite <- IH].
Qed.

Lemma append_assoc (a b c : string) : (a ++ b) ++ c = a ++ (b ++ c).
Proof. induction a as [|x a IH]; simpl; [reflexivity | now rewrite IH]. Qed.

Lemma read_items_format (b : byte) (r : string) :
  read_items ("0x" ++ Py.format_02x b ++ "," ++ r)
  = match read_items r with
    | Some xs => Some (b :: xs)
    | None => None
    end.
Proof. destruct b; reflexivity. Qed.

Lemma read_items_encoded (l : list byte) :
  read_items
    (String.concat "" (map (fun b => "0x" ++ Py.format_02x b ++ ",") l) ++ "}")
  = Some l.
Proof.
  induction l as [|b l IH]; [reflexivity|].
  cbn [map]. rewrite concat_empty_cons.
  rewrite !append_assoc. rewrite read_items_format.
  now rewrite IH.
Qed.

Lemma frame_bytes_encoded (l : list byte) :
  frame_bytes (encoded_data l) = Some (x01 :: x00 :: l).
Proof.
  pose proof (read_items_encoded (x01 :: x00 :: l)) as H.
  cbn [map] in H. rewrite !concat_empty_cons in H.
  rewrite !append_assoc in H.
  unfold encoded_data. exact H.
Qed.

Lemma hex_val_not_special (a : ascii) (h : N) :
  Py.hex_val a = Some h ->
  Ascii.eqb a "," = false /\ Ascii.eqb a "x" = false
  /\ Py.is_ascii_space a = false /\ Ascii.eqb a " " = false.
Proof.
  destruct a as [[] [] [] [] [] [] [] []]; vm_compute; intros H;
    try discriminate H; repeat split.
Qed.

Lemma read_items_nonempty (s : string) (raw : list byte) :
  read_items s = Some raw -> s <> "".
Proof. destruct s; [discriminate | discriminate]. Qed.

Lemma drop_last_cons (c : ascii) (s : string) :
  s <> "" -> Py.drop_last (String c s) = String c (Py.drop_last s).
Proof. destruct s; [congruence | reflexivity]. Qed.

Lemma fromhex_of_items (n : nat) :
  forall s raw,
    String.length s <= n ->
    read_items s = Some raw ->
    Py.fromhex_opt
      (Py.replace2 "0" "x" "" (Py.replace "," " " (Py.drop_last s))) = Some raw.
Proof.
  induction n as [|n IH]; intros s raw Hlen Hread.
  - destruct s; [discriminate | simpl in Hlen; lia].
  - destruct s as [|c0 [|c1 [|a [|b [|c4 r]]]]]; try discriminate.
    + simpl in Hread. destruct (Ascii.eqb c0 "}"); [|discriminate].
      injection Hread as <-. reflexivity.
    + cbn [read_items] in Hread.
      destruct (Ascii.eqb_spec c0 "0"); [subst c0|discriminate].
      destruct (Ascii.eqb_spec c1 "x"); [subst c1|discriminate].
      cbn [andb] in Hread.
      destruct (Py.hex_val a) as [hi|] eqn:Ea; [|discriminate].
      destruct (Py.hex_val b) as [lo|] eqn:Eb; [|discriminate].
      destruct (Byte.of_N (16 * hi + lo)) as [x|] eqn:Ex; [|discriminate].
      destruct (hex_val_not_special _ _ Ea) as (Ha1 & Ha2 & Ha3 & Ha4).
      destruct (hex_val_not_special _ _ Eb) as (Hb1 & Hb2 & Hb3 & Hb4).
      destruct (Ascii.eqb_spec c4 ","); [subst c4|].
      * destruct (read_items r) as [xs|] eqn:Er; [|discriminate].
        injection Hread as <-.
        pose proof (read_items_nonempty _ _ Er) as Hr.
        rewrite !drop_last_cons by (try discriminate; assumption).
        cbn [Py.replace]. rewrite Ha1, Hb1. cbn [Ascii.eqb Bool.eqb append].
        cbn [Py.replace2]. cbn [Ascii.eqb Bool.eqb andb append].
        rewrite ?Hb2, ?andb_false_r.
        set (X := Py.replace "," " " (Py.drop_last r)).
        assert (EX : match X with
                     | "" => " "
                     | String _ _ => String " " (Py.replace2 "0" "x" "" X)
                     end = String " " (Py.replace2 "0" "x" "" X))
          by (destruct X; reflexivity).
        rewrite EX. subst X.
        cbn [Py.fromhex_opt]. rewrite Ha3, Ea, Eb, Ex.
        change (Py.is_ascii_space " ") with true. cbn iota.
        rewrite (IH r xs); [reflexivity | simpl in Hlen; lia | assumption].
      * destruct (Ascii.eqb c4 "}"); [|discriminate].
        destruct r; [|discriminate]. injection Hread as <-.
        cbn [Py.drop_last Py.replace]. rewrite Ha1, Hb1.
        cbn [Ascii.eqb Bool.eqb append].
        cbn [Py.replace2]. cbn [Ascii.eqb Bool.eqb andb append].
        rewrite ?Hb2, ?andb_false_r.
        cbn [Py.fromhex_opt]. now rewrite Ha3, Ea, Eb, Ex.
Qed.

Lemma frame_bytes_raw (data : string) (raw : list byte) :
  frame_bytes data = Some raw ->
  frame_bytes ("{0x00," ++ Py.drop_first data) = Some (x00 :: raw).
Proof.
  destruct data as [|c r]; [discriminate|].
  cbn [frame_bytes Py.drop_first].
  destruct (Ascii.eqb c "{"); [|discriminate].
  intros H. cbn. now rewrite H.
Qed.

(** What a successful [parse_xbm] has read. *)
Lemma parse_xbm_inv (output : string) (w h : Z) (data : string)
  (data_bin : list byte) :
  parse_xbm output = Ok (w, h, data, data_bin) ->
  let line1 := fst (Py.readline (Py.strip output)) in
  let f1 := snd (Py.readline (Py.strip output)) in
  let line2 := fst (Py.readline f1) in
  let f2 := snd (Py.readline f1) in
  (exists field1,
      Py.index (Py.split " " (Py.strip line1)) 2 = Ok field1
      /\ Py.int field1 = Ok w)
  /\ (exists field2,
         Py.index (Py.split " " (Py.strip line2)) 2 = Ok field2
         /\ Py.int field2 = Ok h)
  /\ (exists rhs,
         Py.index
           (Py.split "="
              (Py.replace " " "" (Py.replace Py.LF "" (Py.strip f2)))) 1 = Ok rhs
         /\ data = Py.drop_last rhs)
  /\ Py.fromhex
        (Py.replace2 "0" "x" "" (Py.replace "," " " (Py.slice_1_m1 data)))
      = Ok data_bin.
Proof.
  unfold parse_xbm, bind. intros H. cbv zeta.
  destruct (Py.readline (Py.strip output)) as [line1 f1]. cbn [fst snd].
  destruct (Py.index (Py.split " " (Py.strip line1)) 2) as [field1|] eqn:E1;
    [|discriminate].
  destruct (Py.int field1) as [w'|] eqn:E2; [|discriminate].
  destruct (Py.readline f1) as [line2 f2]. cbn [fst snd].
  destruct (Py.index (Py.split " " (Py.strip line2)) 2) as [field2|] eqn:E3;
    [|discriminate].
  destruct (Py.int field2) as [h'|] eqn:E4; [|discriminate].
  destruct (Py.index _ 1) as [rhs|] eqn:E5; [|discriminate].
  destruct (Py.fromhex _) as [bin|] eqn:E6; [|discriminate].
  injection H as <- <- <- <-.
  repeat split; eauto.
Qed.

Lemma parse_xbm_bytes (output : string) (w h : Z) (data : string)
  (data_bin raw : list byte) :
  parse_xbm output = Ok (w, h, data, data_bin) ->
  frame_bytes data = Some raw ->
  data_bin = raw.
Proof.
  intros H Hraw.
  destruct (parse_xbm_inv _ _ _ _ _ H) as (_ & _ & _ & Hbin).
  destruct data as [|c r]; [discriminate|].
  cbn [frame_bytes] in Hraw.
  destruct (Ascii.eqb c "{"); [|discriminate].
  pose proof (read_items_nonempty _ _ Hraw) as Hr.
  unfold Py.slice_1_m1, Py.fromhex in Hbin.
  rewrite drop_last_cons in Hbin by assumption.
  cbn [Py.drop_first] in Hbin.
  rewrite (fromhex_of_items _ r raw (le_n _) Hraw) in Hbin.
  cbn in Hbin. congruence.
Qed.

(** ** The frame encoder *)

Section Encoder.

Variable heatshrink : list byte -> option (list byte).

Lemma frame_flag_encoded (l : list byte) :
  frame_flag (encoded_data l) = Some COMPRESSED.
Proof. reflexivity. Qed.

Lemma frame_flag_raw (s : string) : frame_flag ("{0x00," ++ s) = Some RAW.
Proof. destruct s; reflexivity. Qed.

(** [encode_frame], once the compressor has answered [enc]. *)
Lemma encode_frame_eq (data : string) (data_bin enc : list byte) :
  heatshrink data_bin = Some enc ->
  enc <> [] ->
  encode_frame heatshrink data data_bin
  = (header <- length_header (Py.len enc) ;;
     if (Py.len (header ++ enc)%list <? Py.len data_bin + 1)%Z
     then Ok (encoded_data (header ++ enc)%list)
     else Ok ("{0x00," ++ Py.drop_first data)).
Proof.
  intros Hs Hne. unfold encode_frame. rewrite Hs. cbn [of_option bind].
  destruct enc; [congruence | reflexivity].
Qed.

Lemma length_header_ok (n : Z) (header : list byte) :
  (0 <= n)%Z -> length_header n = Ok header -> (n < 65536)%Z.
Proof.
  intros Hn H. destruct (Z.lt_ge_cases n 65536) as [|Hge]; [assumption|].
  rewrite (length_header_large n Hge) in H. discriminate.
Qed.

(** What a successful [encode_frame] has done. *)
Lemma encode_frame_inv (data : string) (data_bin : list byte) (text : string) :
  encode_frame heatshrink data data_bin = Ok text ->
  exists enc lo hi,
    heatshrink data_bin = Some enc
    /\ enc <> []
    /\ length_header (Py.len enc) = Ok [lo; hi]
    /\ Z.of_N (Byte.to_N lo) = (Py.len enc mod 256)%Z
    /\ Z.of_N (Byte.to_N hi) = (Py.len enc / 256)%Z
    /\ text = (if (Py.len (lo :: hi :: enc) <? Py.len data_bin + 1)%Z
               then encoded_data (lo :: hi :: enc)
               else "{0x00," ++ Py.drop_first data).
Proof.
  intros H.
  destruct (heatshrink data_bin) as [enc|] eqn:Hs;
    [|unfold encode_frame in H; rewrite Hs in H; discriminate H].
  assert (Hne : enc <> []).
  { intros ->. unfold encode_frame in H. rewrite Hs in H. discriminate H. }
  rewrite (encode_frame_eq _ _ _ Hs Hne) in H.
  destruct (length_header (Py.len enc)) as [header|] eqn:Hh; [|discriminate H].
  pose proof (length_header_ok _ _ (len_nonneg enc) Hh) as Hlt.
  destruct (length_header_small (Py.len enc)) as (lo & hi & Hh' & Hlo & Hhi).
  { split; [apply len_nonneg | assumption]. }
  rewrite Hh' in Hh. injection Hh as <-.
  cbn [bind app] in H.
  exists enc, lo, hi. repeat split; try assumption.
  destruct (Py.len (lo :: hi :: enc) <? Py.len data_bin + 1)%Z;
    injection H as <-; reflexivity.
Qed.

(** C2. The encoder keeps the compressed representation if and only if the
    compressed blob with its two-byte length prefix is strictly shorter than
    the raw bytes plus one; when the two lengths are equal it keeps the raw
    representation. *)
Theorem encoder_choice (data : string) (data_bin enc : list byte) :
  heatshrink data_bin = Some enc ->
  enc <> [] ->
  (Py.len enc < 65536)%Z ->
  exists compressed_with_header text,
    (header <- length_header (Py.len enc) ;; Ok (header ++ enc)%list)
    = Ok compressed_with_header
    /\ Py.len compressed_with_header = (2 + Py.len enc)%Z
    /\ encode_frame heatshrink data data_bin = Ok text
    /\ (frame_flag text = Some COMPRESSED
        <-> (Py.len compressed_with_header < Py.len data_bin + 1)%Z)
    /\ (frame_flag text = Some RAW
        <-> ~ (Py.len compressed_with_header < Py.len data_bin + 1)%Z)
    /\ (Py.len compressed_with_header = (Py.len data_bin + 1)%Z
        -> frame_flag text = Some RAW).
Proof.
  intros Hs Hne Hlt.
  destruct (length_header_small (Py.len enc)) as (lo & hi & Hh & _ & _).
  { split; [apply len_nonneg | assumption]. }
  rewrite (encode_frame_eq _ _ _ Hs Hne). rewrite Hh. cbn [bind app].
  exists (lo :: hi :: enc).
  assert (Hlen : Py.len (lo :: hi :: enc) = (2 + Py.len enc)%Z).
  { unfold Py.len. cbn [List.length]. lia. }
  destruct (Z.ltb_spec (Py.len (lo :: hi :: enc)) (Py.len data_bin + 1)) as [Hc|Hc].
  - exists (encoded_data (lo :: hi :: enc)).
    rewrite frame_flag_encoded.
    repeat split; auto; try discriminate; try lia; intros; exfalso; auto.
  - exists ("{0x00," ++ Py.drop_first data).
    rewrite frame_flag_raw.
    repeat split; auto; try discriminate; try lia; intros; exfalso; lia.
Qed.

(** C9. For a compressed blob shorter than 65536 bytes the two-byte prefix
    is the little-endian encoding of its length (low byte: length mod 256,
    high byte: length div 256); the high item is the unmasked [len >> 8],
    which is a byte exactly when the length is below 2^16, and for a longer
    blob the encoding aborts with [ValueError] instead of wrapping. *)
Theorem length_prefix_little_endian (data : string) (data_bin enc : list byte) :
  heatshrink data_bin = Some enc ->
  enc <> [] ->
  ((Py.len enc < 65536)%Z ->
     exists lo hi,
       length_header (Py.len enc) = Ok [lo; hi]
       /\ Z.of_N (Byte.to_N lo) = (Py.len enc mod 256)%Z
       /\ Z.of_N (Byte.to_N hi) = (Py.len enc / 256)%Z
       /\ ((Py.len (lo :: hi :: enc) < Py.len data_bin + 1)%Z ->
           encode_frame heatshrink data data_bin
           = Ok (encoded_data (lo :: hi :: enc))))
  /\ ((0 <= Z.shiftr (Py.len enc) 8 < 256)%Z <-> (Py.len enc < 65536)%Z)
  /\ ((65536 <= Py.len enc)%Z ->
      length_header (Py.len enc) = Raise ValueError
      /\ encode_frame heatshrink data data_bin = Raise ValueError).
Proof.
  intros Hs Hne. pose proof (len_nonneg enc) as Hpos.
  split; [|split].
  - intros Hlt.
    destruct (length_header_small (Py.len enc)) as (lo & hi & Hh & Hlo & Hhi);
      [lia|].
    exists lo, hi. repeat split; try assumption.
    intros Hc. rewrite (encode_frame_eq _ _ _ Hs Hne), Hh. cbn [bind app].
    apply Z.ltb_lt in Hc. now rewrite Hc.
  - rewrite shiftr_8. split.
    + intros [_ H]. apply Z.lt_le_trans with (256 * (Py.len enc / 256) + 255 + 1)%Z.
      * pose proof (Z.div_mod (Py.len enc) 256 ltac:(lia)).
        pose proof (Z.mod_pos_bound (Py.len enc) 256 ltac:(lia)). lia.
      * lia.
    + intros H. split; [apply Z.div_pos; lia | apply Z.div_lt_upper_bound; lia].
  - intros Hge. rewrite (encode_frame_eq _ _ _ Hs Hne).
    rewrite (length_header_large _ Hge). split; reflexivity.
Qed.

End Encoder.

(** ** Fields and tokens of a header line *)

Lemma tokens_lstrip (s : string) : tokens (Py.lstrip s) = tokens s.
Proof.
  induction s as [|c r IH]; [reflexivity|].
  cbn [Py.lstrip]. destruct (Py.isspace c) eqn:E; [|reflexivity].
  rewrite IH. cbn [tokens]. now rewrite E.
Qed.

Lemma rstrip_head (s : string) (d : ascii) (r : string) :
  Py.rstrip s = String d r -> exists r0, s = String d r0.
Proof.
  destruct s as [|c s]; cbn [Py.rstrip]; [discriminate|].
  destruct (Py.rstrip s).
  - destruct (Py.isspace c); [discriminate|]. intros [= <- <-]. eauto.
  - intros [= <- <-]. eauto.
Qed.

Lemma tokens_cons (c : ascii) (r : string) :
  tokens (String c r)
  = if Py.isspace c then tokens r
    else match r with
         | EmptyString => [String c EmptyString]
         | String d _ =>
             if Py.isspace d then String c EmptyString :: tokens r
             else match tokens r with
                  | h :: t => String c h :: t
                  | [] => [String c EmptyString]
                  end
         end.
Proof. reflexivity. Qed.

Lemma tokens_rstrip (s : string) : tokens (Py.rstrip s) = tokens s.
Proof.
  induction s as [|c r IH]; [reflexivity|].
  cbn [Py.rstrip].
  destruct (Py.rstrip r) as [|d r''] eqn:E.
  - change (tokens "") with (@nil string) in IH.
    rewrite (tokens_cons c r).
    destruct (Py.isspace c) eqn:Ec.
    + now rewrite <- IH.
    + rewrite tokens_cons, Ec. rewrite <- IH.
      destruct r as [|d r0]; [reflexivity|]. now destruct (Py.isspace d).
  - destruct (rstrip_head _ _ _ E) as (r0 & ->).
    rewrite (tokens_cons c (String d r'')), (tokens_cons c (String d r0)).
    now rewrite IH.
Qed.

Lemma tokens_strip (s : string) : tokens (Py.strip s) = tokens s.
Proof. unfold Py.strip. now rewrite tokens_rstrip, tokens_lstrip. Qed.

Lemma isspace_space : Py.isspace " " = true.
Proof. reflexivity. Qed.

Lemma tokens_single_spaced_upto (n : nat) :
  forall s,
    String.length s <= n -> single_spaced s = true -> tokens s = Py.split " " s.
Proof.
  induction n as [|n IH]; intros [|c r] Hlen; try discriminate;
    [cbn in Hlen; lia|].
  cbn [single_spaced]. rewrite andb_true_iff, negb_true_iff. intros [Hc Hr].
  assert (Hcs : Ascii.eqb c " " = false).
  { destruct (Ascii.eqb_spec c " ") as [->|]; [discriminate Hc | reflexivity]. }
  rewrite tokens_cons. cbn [Py.split]. rewrite Hc, Hcs.
  destruct r as [|d r']; [reflexivity|].
  destruct (Ascii.eqb_spec d " ") as [->|Hd].
  - rewrite isspace_space. rewrite tokens_cons, isspace_space.
    cbn [Py.split Ascii.eqb Bool.eqb]. f_equal.
    apply IH; [cbn in Hlen; lia | exact Hr].
  - assert (Hds : Py.isspace d = false).
    { cbn [single_spaced] in Hr. apply andb_true_iff in Hr.
      destruct Hr as [Hr _]. now apply negb_true_iff in Hr. }
    rewrite Hds. rewrite (IH (String d r')); [reflexivity | cbn in Hlen |- *; lia | exact Hr].
Qed.

Lemma tokens_single_spaced (s : string) :
  single_spaced s = true -> tokens s = Py.split " " s.
Proof. apply (tokens_single_spaced_upto (String.length s)), le_n. Qed.

Lemma index_2_last (l : list string) :
  List.length l = 3 -> Py.index l 2 = Ok (Py.last_field l).
Proof.
  destruct l as [|a [|b [|c [|d l]]]]; try discriminate. reflexivity.
Qed.

(** On a line of exactly three single-spaced words the third field is the
    last token. *)
Lemma third_field_is_last_token (line : string) :
  single_spaced (Py.strip line) = true ->
  List.length (Py.split " " (Py.strip line)) = 3 ->
  Py.index (Py.split " " (Py.strip line)) 2 = Ok (last_token line).
Proof.
  intros Hs Hl. rewrite (index_2_last _ Hl). unfold last_token.
  now rewrite <- tokens_strip, (tokens_single_spaced _ Hs).
Qed.

(** ** The bitmap extractor *)

Section Extractor.

Variable convert : string -> string -> option string.
Variable heatshrink : list byte -> option (list byte).

(** What a successful [icon2header] has done. *)
Lemma icon2header_inv (file content : string) (w h : Z) (text : string) :
  icon2header convert heatshrink file content = Ok (w, h, text) ->
  exists output data data_bin,
    convert file content = Some output
    /\ output <> ""
    /\ parse_xbm output = Ok (w, h, data, data_bin)
    /\ encode_frame heatshrink data data_bin = Ok text.
Proof.
  unfold icon2header. intros H.
  destruct (convert file content) as [output|]; [|discriminate H].
  cbn [of_option bind] in H.
  destruct (String.eqb_spec output ""); [discriminate H|].
  destruct (parse_xbm output) as [[[[w' h'] data] data_bin]|] eqn:Hp;
    [|discriminate H].
  cbn [bind] in H.
  destruct (encode_frame heatshrink data data_bin) as [text'|] eqn:He;
    [|discriminate H].
  injection H as <- <- <-.
  exists output, data, data_bin. auto.
Qed.

(** C1, amended. In a frame kept COMPRESSED the initialiser lists the flag
    byte 0x01, then a 0x00 byte, then the two-byte little-endian compressed
    length, then the compressed bytes. In a frame kept RAW the initialiser
    is the flag byte 0x00 followed by the text of the items [convert]
    printed, so it lists 0x00 immediately followed by the raw bitmap
    bytes. *)
Theorem frame_initialiser_layout (file content : string) (w h : Z) (text : string) :
  icon2header convert heatshrink file content = Ok (w, h, text) ->
  exists output data data_bin enc,
    convert file content = Some output
    /\ parse_xbm output = Ok (w, h, data, data_bin)
    /\ heatshrink data_bin = Some enc
    /\ ((frame_flag text = Some COMPRESSED
         /\ exists lo hi,
              Z.of_N (Byte.to_N lo) = (Py.len enc mod 256)%Z
              /\ Z.of_N (Byte.to_N hi) = (Py.len enc / 256)%Z
              /\ frame_bytes text = Some (x01 :: x00 :: lo :: hi :: enc))
        \/ (frame_flag text = Some RAW
            /\ text = "{0x00," ++ Py.drop_first data
            /\ forall raw,
                 frame_bytes data = Some raw ->
                 data_bin = raw /\ frame_bytes text = Some (x00 :: raw))).
Proof.
  intros H.
  destruct (icon2header_inv _ _ _ _ _ H) as (output & data & data_bin & Hc & _ & Hp & He).
  destruct (encode_frame_inv _ _ _ _ He) as (enc & lo & hi & Hs & _ & _ & Hlo & Hhi & Ht).
  exists output, data, data_bin, enc. repeat split; try assumption.
  destruct (Py.len (lo :: hi :: enc) <? Py.len data_bin + 1)%Z; subst text.
  - left. split; [apply frame_flag_encoded|].
    exists lo, hi. repeat split; try assumption. apply frame_bytes_encoded.
  - right. split; [apply frame_flag_raw|]. split; [reflexivity|].
    intros raw Hraw. split.
    + eapply parse_xbm_bytes; eassumption.
    + now apply frame_bytes_raw.
Qed.

(** Whatever [convert] prints, the width is the integer value of the
    third field (index 2) of the stripped first header line split at every
    single space, and the height is the integer value of the third such
    field of the second header line. When the stripped line is made of
    exactly three words separated by single spaces, that field is the last
    token of the line. *)
Lemma header_fields (file content : string) (w h : Z) (text : string) :
  icon2header convert heatshrink file content = Ok (w, h, text) ->
  exists output,
    convert file content = Some output
    /\ let line1 := fst (Py.readline (Py.strip output)) in
       let line2 := fst (Py.readline (snd (Py.readline (Py.strip output)))) in
       (field <- Py.index (Py.split " " (Py.strip line1)) 2 ;; Py.int field) = Ok w
       /\ (field <- Py.index (Py.split " " (Py.strip line2)) 2 ;; Py.int field) = Ok h
       /\ (single_spaced (Py.strip line1) = true ->
           List.length (Py.split " " (Py.strip line1)) = 3 ->
           Py.int (last_token line1) = Ok w)
       /\ (single_spaced (Py.strip line2) = true ->
           List.length (Py.split " " (Py.strip line2)) = 3 ->
           Py.int (last_token line2) = Ok h).
Proof.
  intros H.
  destruct (icon2header_inv _ _ _ _ _ H) as (output & data & data_bin & Hc & _ & Hp & _).
  exists output. split; [assumption|].
  destruct (parse_xbm_inv _ _ _ _ _ Hp) as ((f1 & E1 & I1) & (f2 & E2 & I2) & _).
  cbv zeta. rewrite E1, E2. cbn [bind]. repeat split; try assumption.
  - intros Hs Hl. rewrite (third_field_is_last_token _ Hs Hl) in E1.
    injection E1 as <-. exact I1.
  - intros Hs Hl. rewrite (third_field_is_last_token _ Hs Hl) in E2.
    injection E2 as <-. exact I2.
Qed.

(** C3. On the text [convert] prints, whose two header lines are of the
    form [#define <name> <value>], the extractor parses the width as the
    integer value of the last white-space-separated token of the first
    header line, and the height as the integer value of the last
    white-space-separated token of the second header line. *)
Theorem header_last_tokens (file content output : string) (w h : Z)
  (text : string) :
  icon2header convert heatshrink file content = Ok (w, h, text) ->
  convert file content = Some output ->
  define_line (fst (Py.readline (Py.strip output))) = true ->
  define_line (fst (Py.readline (snd (Py.readline (Py.strip output))))) = true ->
  Py.int (last_token (fst (Py.readline (Py.strip output)))) = Ok w
  /\ Py.int (last_token (fst (Py.readline (snd (Py.readline (Py.strip output))))))
     = Ok h.
Proof.
  intros H Hc Hl1 Hl2.
  destruct (icon2header_inv _ _ _ _ _ H) as (output' & data & data_bin & Hc' & _ & Hp & _).
  rewrite Hc in Hc'. injection Hc' as <-.
  destruct (parse_xbm_inv _ _ _ _ _ Hp) as ((f1 & E1 & I1) & (f2 & E2 & I2) & _).
  unfold define_line in Hl1, Hl2.
  apply andb_true_iff in Hl1, Hl2.
  destruct Hl1 as [S1 L1], Hl2 as [S2 L2]. apply Nat.eqb_eq in L1, L2.
  rewrite (third_field_is_last_token _ S1 L1) in E1.
  rewrite (third_field_is_last_token _ S2 L2) in E2.
  injection E1 as <-. injection E2 as <-. split; assumption.
Qed.

End Extractor.

(** ** The order on names and the sort *)

Lemma N_of_ascii_inj (a b : ascii) : N_of_ascii a = N_of_ascii b -> a = b.
Proof.
  intros H. rewrite <- (ascii_N_embedding a), <- (ascii_N_embedding b).
  now rewrite H.
Qed.

Lemma str_ltb_asym (x y : string) :
  Py.str_ltb x y = true -> Py.str_ltb y x = false.
Proof.
  revert y. induction x as [|a x IH]; intros [|b y]; cbn [Py.str_ltb];
    try discriminate; try reflexivity.
  destruct (N.ltb_spec (N_of_ascii a) (N_of_ascii b));
    destruct (N.ltb_spec (N_of_ascii b) (N_of_ascii a));
    try lia; try discriminate; auto.
Qed.

Lemma str_ltb_antisym (x y : string) :
  Py.str_ltb x y = false -> Py.str_ltb y x = false -> x = y.
Proof.
  revert y. induction x as [|a x IH]; intros [|b y]; cbn [Py.str_ltb];
    try discriminate; try reflexivity.
  destruct (N.ltb_spec (N_of_ascii a) (N_of_ascii b));
    destruct (N.ltb_spec (N_of_ascii b) (N_of_ascii a));
    try lia; try discriminate.
  intros H1 H2. f_equal; [apply N_of_ascii_inj; lia | now apply IH].
Qed.

Lemma name_le_trans (x y z : string) : name_le x y -> name_le y z -> name_le x z.
Proof.
  unfold name_le. revert y z.
  induction x as [|a x IH]; intros [|b y] [|c z]; cbn [Py.str_ltb];
    try discriminate; try reflexivity.
  destruct (N.ltb_spec (N_of_ascii b) (N_of_ascii a));
    destruct (N.ltb_spec (N_of_ascii a) (N_of_ascii b));
    destruct (N.ltb_spec (N_of_ascii c) (N_of_ascii b));
    destruct (N.ltb_spec (N_of_ascii b) (N_of_ascii c));
    destruct (N.ltb_spec (N_of_ascii c) (N_of_ascii a));
    destruct (N.ltb_spec (N_of_ascii a) (N_of_ascii c));
    try lia; try discriminate; try reflexivity.
  apply IH.
Qed.

Section Sorting.

Context {A : Type}.

Lemma insert_by_name_perm (x : string * A) (l : list (string * A)) :
  Permutation (insert_by_name x l) (x :: l).
Proof.
  induction l as [|y l IH]; cbn [insert_by_name]; [reflexivity|].
  destruct (Py.str_ltb (fst y) (fst x)); [|reflexivity].
  rewrite IH. apply perm_swap.
Qed.

Lemma sort_by_name_perm (l : list (string * A)) :
  Permutation (sort_by_name l) l.
Proof.
  induction l as [|x l IH]; cbn [sort_by_name]; [reflexivity|].
  rewrite insert_by_name_perm. now constructor.
Qed.

Lemma sort_by_name_in (x : string * A) (l : list (string * A)) :
  In x (sort_by_name l) <-> In x l.
Proof.
  split; apply Permutation_in;
    [apply sort_by_name_perm | symmetry; apply sort_by_name_perm].
Qed.

Lemma insert_by_name_hdrel (a x : string * A) (l : list (string * A)) :
  entry_le a x -> HdRel entry_le a l -> HdRel entry_le a (insert_by_name x l).
Proof.
  intros Hax Hal. destruct l as [|y l]; cbn [insert_by_name].
  - now constructor.
  - destruct (Py.str_ltb (fst y) (fst x)); constructor;
      [now inversion Hal | assumption].
Qed.

Lemma insert_by_name_sorted (x : string * A) (l : list (string * A)) :
  Sorted entry_le l -> Sorted entry_le (insert_by_name x l).
Proof.
  induction 1 as [|y l Hs IH Hd]; cbn [insert_by_name].
  - repeat constructor.
  - destruct (Py.str_ltb (fst y) (fst x)) eqn:E.
    + constructor; [assumption|].
      apply insert_by_name_hdrel; [|assumption].
      unfold entry_le, name_le. now apply str_ltb_asym.
    + constructor; [now constructor|]. constructor. exact E.
Qed.

Lemma sort_by_name_sorted (l : list (string * A)) :
  Sorted entry_le (sort_by_name l).
Proof.
  induction l as [|x l IH]; cbn [sort_by_name];
    [constructor | now apply insert_by_name_sorted].
Qed.

(** Sorting a sorted list changes nothing. *)
Lemma sort_by_name_sorted_id (l : list (string * A)) :
  Sorted entry_le l -> sort_by_name l = l.
Proof.
  induction 1 as [|x l Hs IH Hd]; [reflexivity|].
  cbn [sort_by_name]. rewrite IH.
  destruct Hd as [|y l Hxy]; [reflexivity|].
  cbn [insert_by_name]. unfold entry_le, name_le in Hxy. now rewrite Hxy.
Qed.

Lemma sort_by_name_idem (l : list (string * A)) :
  sort_by_name (sort_by_name l) = sort_by_name l.
Proof. apply sort_by_name_sorted_id, sort_by_name_sorted. Qed.

Lemma entry_le_trans : Relations_1.Transitive (@entry_le A).
Proof. intros x y z. apply name_le_trans. Qed.

Lemma in_same_name (l : list (string * A)) (x y : string * A) :
  NoDup (map fst l) -> In x l -> In y l -> fst x = fst y -> x = y.
Proof.
  induction l as [|z l IH]; intros Hnd Hx Hy E; [contradiction|].
  cbn [map] in Hnd. inversion Hnd as [|? ? Hnotin Hnd']; subst.
  destruct Hx as [->|Hx], Hy as [->|Hy]; auto.
  - exfalso. apply Hnotin. rewrite E. now apply in_map.
  - exfalso. apply Hnotin. rewrite <- E. now apply in_map.
Qed.

(** Two sorted enumerations of the same entries, no two of which share a
    name, are equal. *)
Lemma sorted_perm_eq (l1 l2 : list (string * A)) :
  StronglySorted entry_le l1 -> StronglySorted entry_le l2 ->
  Permutation l1 l2 -> NoDup (map fst l1) -> l1 = l2.
Proof.
  revert l2. induction l1 as [|a l1 IH]; intros l2 S1 S2 P Hnd.
  - apply Permutation_nil in P. now subst.
  - destruct l2 as [|b l2]; [symmetry in P; now apply Permutation_nil in P|].
    inversion S1 as [|? ? S1' F1]; inversion S2 as [|? ? S2' F2]; subst.
    assert (Ha : In a (b :: l2)) by (eapply Permutation_in; [exact P | now left]).
    assert (Hb : In b (a :: l1))
      by (eapply Permutation_in; [symmetry; exact P | now left]).
    assert (E : a = b).
    { destruct Ha as [->|Ha]; [reflexivity|].
      destruct Hb as [->|Hb]; [reflexivity|].
      rewrite Forall_forall in F1, F2.
      apply (in_same_name (a :: l1)); auto; [now left | now right|].
      apply str_ltb_antisym; [apply (F2 _ Ha) | apply (F1 _ Hb)]. }
    subst b. f_equal. apply IH; auto.
    + now apply Permutation_cons_inv in P.
    + cbn [map] in Hnd. now inversion Hnd.
Qed.

(** The sort does not depend on the order of enumeration. *)
Lemma sort_by_name_unique (l1 l2 : list (string * A)) :
  Permutation l1 l2 -> NoDup (map fst l1) ->
  sort_by_name l1 = sort_by_name l2.
Proof.
  intros P Hnd. apply sorted_perm_eq.
  - apply Sorted_StronglySorted; [apply entry_le_trans | apply sort_by_name_sorted].
  - apply Sorted_StronglySorted; [apply entry_le_trans | apply sort_by_name_sorted].
  - rewrite !sort_by_name_perm. exact P.
  - eapply Permutation_NoDup; [|exact Hnd].
    apply Permutation_map. symmetry. apply sort_by_name_perm.
Qed.

End Sorting.

Lemma contains_In (x : string) (l : list string) :
  Py.contains x l = true <-> In x l.
Proof.
  induction l as [|y l IH]; cbn [Py.contains In]; [split; [discriminate|tauto]|].
  rewrite orb_true_iff, IH, String.eqb_eq. split; intros [H|H]; auto.
Qed.

Lemma names_distinct_NoDup (l : list string) :
  names_distinct l = true -> NoDup l.
Proof.
  induction l as [|x l IH]; cbn [names_distinct]; [constructor|].
  rewrite andb_true_iff, negb_true_iff. intros [Hx Hl].
  constructor; [|auto].
  rewrite <- contains_In. congruence.
Qed.

(** ** The loops of [icons] *)

Lemma prefix_empty (s : string) : String.prefix "" s = true.
Proof. destruct s; reflexivity. Qed.

Lemma frame_template_is_frame_block (name data : string) :
  is_frame_block (ICONS_TEMPLATE_C_FRAME name data) = true.
Proof. cbn. apply prefix_empty. Qed.

Lemma data_template_is_pointer_array (name data : string) :
  is_pointer_array (ICONS_TEMPLATE_C_DATA name data) = true.
Proof. cbn. apply prefix_empty. Qed.

Lemma data_template_not_frame_block (name data : string) :
  is_frame_block (ICONS_TEMPLATE_C_DATA name data) = false.
Proof. reflexivity. Qed.

Section Loops.

Variable convert : string -> string -> option string.
Variable heatshrink : list byte -> option (list byte).

(** One turn of the animation loop, by cases. *)
Ltac anim_turn filename content H :=
  cbn [anim_loop] in H;
  destruct (String.eqb_spec filename "frame_rate") as [?|?];
  [ destruct (Py.int (Py.strip content)) as [?r|?e] eqn:?Hint
  | destruct (iconIsSupported filename) eqn:?Hsup; cbn [negb] in H;
    [ destruct (icon2header convert heatshrink (OsPath.join _ filename) content)
        as [[[?tw ?th] ?data]|?e] eqn:?Hconv;
      [ destruct (negb (opt_Z_eqb _ (Some tw))) eqn:?Hw;
        [ | destruct (negb (opt_Z_eqb _ (Some th))) eqn:?Hh ]
      | ]
    | ]
  ].

(** The animation loop leaves the [icons] list alone and only appends
    frame blocks to the file, one per frame counted. *)
Lemma anim_loop_writes (dirpath name : string) (files : list (string * string)) :
  forall a st r st',
    anim_loop convert heatshrink dirpath name files a st = (r, st') ->
    icons_list st' = icons_list st
    /\ exists blocks,
         icons_c st' = (icons_c st ++ blocks)%list
         /\ Forall (fun s => is_frame_block s = true) blocks
         /\ forall a', r = Ok a' ->
              frame_count a' = (frame_count a + Z.of_nat (List.length blocks))%Z.
Proof.
  induction files as [|[filename content] files IH]; intros a st r st' H.
  - cbn in H. injection H as <- <-. split; [reflexivity|].
    exists []. rewrite app_nil_r. repeat split; [constructor|].
    intros a' [= ->]. cbn. lia.
  - anim_turn filename content H;
      try (injection H as <- <-; split; [reflexivity|];
           exists []; rewrite app_nil_r; repeat split; [constructor | discriminate]).
    + apply IH in H. exact H.
    + apply IH in H. destruct H as (Hl & blocks & Hc & Hf & Hn).
      split; [exact Hl|].
      eexists (_ :: blocks). cbn [write icons_c] in Hc.
      rewrite <- app_assoc in Hc. cbn [app] in Hc.
      split; [exact Hc|]. split.
      * constructor; [apply frame_template_is_frame_block | exact Hf].
      * intros a' Ha. rewrite (Hn a' Ha). cbn [frame_count List.length]. lia.
    + apply IH in H. exact H.
Qed.

Lemma opt_Z_eqb_eq (a b : option Z) : opt_Z_eqb a b = true -> a = b.
Proof.
  destruct a, b; cbn; try discriminate; try reflexivity.
  intros H. apply Z.eqb_eq in H. now subst.
Qed.

(** When the animation loop ends normally, every qualifying frame was
    extracted with the width and height the loop ends with. *)
Lemma anim_loop_sizes (dirpath name : string) (files : list (string * string)) :
  forall a st a' st',
    anim_loop convert heatshrink dirpath name files a st = (Ok a', st') ->
    (forall w, width a = Some w -> width a' = Some w)
    /\ (forall h, height a = Some h -> height a' = Some h)
    /\ forall f c,
         In (f, c) files -> qualifying f = true ->
         exists w h d,
           icon2header convert heatshrink (OsPath.join dirpath f) c = Ok (w, h, d)
           /\ width a' = Some w /\ height a' = Some h.
Proof.
  induction files as [|[filename content] files IH]; intros a st a' st' H.
  - cbn in H. injection H as <- <-. repeat split; auto. intros ? ? [].
  - anim_turn filename content H; try discriminate H.
    + apply IH in H. destruct H as (Hw & Hh & Hf). cbn [width height] in Hw, Hh.
      repeat split; auto.
      intros f c [[= <- <-]|Hin] Hq; [|now apply Hf].
      unfold qualifying in Hq. subst filename. discriminate Hq.
    + apply IH in H. destruct H as (Hw' & Hh' & Hf).
      cbn [width height] in Hw', Hh'.
      apply negb_false_iff, opt_Z_eqb_eq in Hw, Hh.
      rewrite Hw in Hw'. rewrite Hh in Hh'.
      repeat split.
      * intros w E. rewrite E in Hw. cbn in Hw. apply Hw'. now symmetry.
      * intros h E. rewrite E in Hh. cbn in Hh. apply Hh'. now symmetry.
      * intros f c [[= <- <-]|Hin] Hq; [|now apply Hf].
        exists tw, th, data. auto.
    + apply IH in H. destruct H as (Hw & Hh & Hf). repeat split; auto.
      intros f c [[= <- <-]|Hin] Hq; [|now apply Hf].
      unfold qualifying in Hq. rewrite Hsup, andb_false_r in Hq. discriminate Hq.
Qed.

(** When the animation loop ends normally, it has counted the qualifying
    frames. *)
Lemma anim_loop_count (dirpath name : string) (files : list (string * string)) :
  forall a st a' st',
    anim_loop convert heatshrink dirpath name files a st = (Ok a', st') ->
    frame_count a'
    = (frame_count a
       + Z.of_nat (List.length (filter (fun e => qualifying (fst e)) files)))%Z.
Proof.
  induction files as [|[filename content] files IH]; intros a st a' st' H.
  - cbn in H. injection H as <- <-. cbn. lia.
  - cbn [filter fst]. unfold qualifying at 1.
    anim_turn filename content H; try discriminate H.
    + apply IH in H. cbn [negb andb]. exact H.
    + apply IH in H. cbn [negb andb List.length]. rewrite H. cbn [frame_count]. lia.
    + apply IH in H. cbn [negb andb]. exact H.
Qed.

(** When the animation loop ends normally and every [frame_rate] file it
    met holds a number that is not positive, so is the frame rate it ends
    with. *)
Lemma anim_loop_rate (dirpath name : string) (files : list (string * string)) :
  forall a st a' st',
    anim_loop convert heatshrink dirpath name files a st = (Ok a', st') ->
    (forall c, In ("frame_rate", c) files ->
       exists r, Py.int (Py.strip c) = Ok r /\ (r <= 0)%Z) ->
    (frame_rate a <= 0)%Z ->
    (frame_rate a' <= 0)%Z.
Proof.
  induction files as [|[filename content] files IH]; intros a st a' st' H Hall Ha.
  - cbn in H. injection H as <- <-. exact Ha.
  - assert (Hall' : forall c, In ("frame_rate", c) files ->
              exists r, Py.int (Py.strip c) = Ok r /\ (r <= 0)%Z)
      by (intros c Hc; apply Hall; now right).
    anim_turn filename content H; try discriminate H.
    + subst filename. destruct (Hall content (or_introl eq_refl)) as (r' & Hr & Hle).
      rewrite Hr in Hint. injection Hint as <-.
      eapply IH; [exact H | exact Hall' | exact Hle].
    + eapply IH; [exact H | exact Hall' | exact Ha].
    + eapply IH; [exact H | exact Hall' | exact Ha].
Qed.

(** The animation branch: when it raises the [icons] list is as it was;
    when it ends normally it has written the blocks of one icon and
    appended that icon, whose frame rate and frame count are positive. *)
Lemma process_animation_spec (dirpath : string) (filenames : list (string * string))
  (st : state) (r : result unit) (st' : state) :
  process_animation convert heatshrink dirpath filenames st = (r, st') ->
  match r with
  | Raise _ => icons_list st' = icons_list st
  | Ok _ =>
      exists g,
        group_ok g
        /\ icon_name (group_icon g) = anim_icon_name dirpath
        /\ (0 < icon_frame_rate (group_icon g))%Z
        /\ (0 < icon_frame_count (group_icon g))%Z
        /\ icons_list st' = (icons_list st ++ [group_icon g])%list
        /\ icons_c st' = (icons_c st ++ group_blocks g)%list
  end.
Proof.
  unfold process_animation. intros H.
  destruct (anim_loop convert heatshrink dirpath (anim_icon_name dirpath)
              (sort_by_name filenames) (mk_anim None None 0 0 []) st)
    as [[a|e] st1] eqn:Hloop.
  - destruct (anim_loop_writes _ _ _ _ _ _ _ Hloop) as (Hl & blocks & Hc & Hf & Hn).
    specialize (Hn a eq_refl). cbn [frame_count] in Hn.
    destruct (Z.gtb_spec (frame_rate a) 0) as [Hr|Hr]; cbn [negb] in H;
      [|injection H as <- <-; exact Hl].
    destruct (Z.gtb_spec (frame_count a) 0) as [Hcnt|Hcnt]; cbn [negb] in H;
      [|injection H as <- <-; exact Hl].
    injection H as <- <-.
    exists (mk_group
              (mk_icon (anim_icon_name dirpath) (width a) (height a)
                 (frame_rate a) (frame_count a))
              blocks
              (ICONS_TEMPLATE_C_DATA ("_" ++ anim_icon_name dirpath)
                 ("{" ++ Py.join "," (frame_names a) ++ "}"))).
    unfold group_ok, group_blocks.
    cbn [group_icon group_frames group_array icon_name icon_frame_rate
         icon_frame_count append_icon write icons_c icons_list].
    repeat split; try assumption; try lia;
      try apply data_template_is_pointer_array;
      try (now rewrite Hl);
      try (rewrite Hc, <- !app_assoc; reflexivity).
  - injection H as <- <-.
    now destruct (anim_loop_writes _ _ _ _ _ _ _ Hloop) as (Hl & _).
Qed.

(** The static branch writes the blocks of one icon per supported file, in
    the order of the files, and appends these icons. *)
Lemma process_static_spec (dirpath : string) (files : list (string * string)) :
  forall st r st',
    process_static convert heatshrink dirpath files st = (r, st') ->
    exists groups,
      Forall group_ok groups
      /\ icons_list st' = (icons_list st ++ map group_icon groups)%list
      /\ icons_c st' = (icons_c st ++ flat_map group_blocks groups)%list
      /\ (r = Ok tt ->
          map (fun g => icon_name (group_icon g)) groups
          = map (fun e => static_icon_name (fst e))
              (filter (fun e => iconIsSupported (fst e)) files)).
Proof.
  induction files as [|[filename content] files IH]; intros st r st' H.
  - cbn in H. injection H as <- <-. exists [].
    cbn. rewrite !app_nil_r. auto.
  - cbn [process_static] in H. cbn [filter fst].
    destruct (iconIsSupported filename) eqn:Hsup; cbn [negb] in H;
      [|now apply IH in H].
    destruct (icon2header convert heatshrink (OsPath.join dirpath filename) content)
      as [[[w h] data]|e] eqn:Hconv.
    + apply IH in H. destruct H as (groups & Hok & Hl & Hc & Hn).
      set (name := static_icon_name filename) in *.
      exists (mk_group (mk_icon name (Some w) (Some h) 0 1)
                [ICONS_TEMPLATE_C_FRAME ("_" ++ name ++ "_0") data]
                (ICONS_TEMPLATE_C_DATA ("_" ++ name)
                   ("{" ++ ("_" ++ name ++ "_0") ++ "}"))
              :: groups).
      split; [|split; [|split]].
      * constructor; [|exact Hok]. unfold group_ok.
        cbn [group_frames group_array group_icon icon_frame_count List.length].
        repeat split; try apply data_template_is_pointer_array;
          try (constructor; [apply frame_template_is_frame_block | constructor]).
      * rewrite Hl. cbn [append_icon icons_list write map group_icon].
        rewrite <- app_assoc. reflexivity.
      * rewrite Hc. cbn [append_icon icons_c write flat_map group_blocks
                           group_frames group_array].
        rewrite <- !app_assoc. reflexivity.
      * intros Hr. cbn [map group_icon icon_name fst]. now rewrite (Hn Hr).
    + injection H as <- <-. exists []. cbn. rewrite !app_nil_r.
      repeat split; [constructor | discriminate].
Qed.

Lemma contains_sorted (x : string) (l : list (string * string)) :
  Py.contains x (map fst (sort_by_name l)) = Py.contains x (map fst l).
Proof.
  apply eq_true_iff_eq. rewrite !contains_In.
  split; apply Permutation_in, Permutation_map;
    [apply sort_by_name_perm | symmetry; apply sort_by_name_perm].
Qed.

(** The loop body on a directory that holds a [frame_rate] file. *)
Lemma process_dir_animation (dirpath : string) (dirnames : list string)
  (listed : list (string * string)) (st : state) :
  Py.contains "frame_rate" (map fst listed) = true ->
  process_dir convert heatshrink (dirpath, dirnames, listed) st
  = process_animation convert heatshrink dirpath (sort_by_name listed) st.
Proof.
  intros H. unfold process_dir. rewrite <- contains_sorted in H.
  destruct (sort_by_name listed) as [|e l]; [discriminate H|].
  now rewrite H.
Qed.

(** The loop body on a directory that holds no [frame_rate] file. *)
Lemma process_dir_static (dirpath : string) (dirnames : list string)
  (listed : list (string * string)) (st : state) :
  Py.contains "frame_rate" (map fst listed) = false ->
  process_dir convert heatshrink (dirpath, dirnames, listed) st
  = process_static convert heatshrink dirpath (sort_by_name listed) st.
Proof.
  intros H. unfold process_dir. rewrite <- contains_sorted in H.
  destruct (sort_by_name listed) as [|e l]; [reflexivity|].
  now rewrite H.
Qed.

(** What the animation branch has gone through when it ends normally. *)
Lemma process_animation_ok (dirpath : string) (filenames : list (string * string))
  (st st' : state) (u : unit) :
  process_animation convert heatshrink dirpath filenames st = (Ok u, st') ->
  exists a st1,
    anim_loop convert heatshrink dirpath (anim_icon_name dirpath)
      (sort_by_name filenames) (mk_anim None None 0 0 []) st = (Ok a, st1)
    /\ (0 < frame_rate a)%Z /\ (0 < frame_count a)%Z.
Proof.
  unfold process_animation. intros H.
  destruct (anim_loop _ _ _ _ _ _ _) as [[a|e] st1]; [|discriminate H].
  destruct (Z.gtb_spec (frame_rate a) 0); [|discriminate H].
  destruct (Z.gtb_spec (frame_count a) 0); [|discriminate H].
  exists a, st1. auto.
Qed.


(** C6. In an animation group every frame must have the width and height
    of the first frame: a frame whose extracted width or height differs
    makes the run abort, and no icon is appended for the group. *)
Theorem animation_frames_same_size (dirpath : string) (dirnames : list string)
  (listed : list (string * string)) (st : state)
  (first c0 : string) (rest : list (string * string)) (w0 h0 : Z) (d0 : string)
  (f c : string) (w h : Z) (d : string) :
  Py.contains "frame_rate" (map fst listed) = true ->
  filter (fun e => qualifying (fst e)) (sort_by_name listed) = (first, c0) :: rest ->
  icon2header convert heatshrink (OsPath.join dirpath first) c0 = Ok (w0, h0, d0) ->
  In (f, c) rest ->
  icon2header convert heatshrink (OsPath.join dirpath f) c = Ok (w, h, d) ->
  w <> w0 \/ h <> h0 ->
  exists e st',
    process_dir convert heatshrink (dirpath, dirnames, listed) st = (Raise e, st')
    /\ icons_list st' = icons_list st.
Proof.
  intros Hfr Hframes H0 Hin Hf Hneq.
  rewrite process_dir_animation by assumption.
  destruct (process_animation convert heatshrink dirpath (sort_by_name listed) st)
    as [[u|e] st'] eqn:Hp.
  - exfalso.
    destruct (process_animation_ok _ _ _ _ _ Hp) as (a & st1 & Hloop & _ & _).
    rewrite sort_by_name_idem in Hloop.
    destruct (anim_loop_sizes _ _ _ _ _ _ _ Hloop) as (_ & _ & Hall).
    assert (Hq0 : In (first, c0) (filter (fun e => qualifying (fst e)) (sort_by_name listed)))
      by (rewrite Hframes; now left).
    assert (Hq : In (f, c) (filter (fun e => qualifying (fst e)) (sort_by_name listed)))
      by (rewrite Hframes; now right).
    apply filter_In in Hq0, Hq. cbn [fst] in Hq0, Hq.
    destruct (Hall _ _ (proj1 Hq0) (proj2 Hq0)) as (w1 & h1 & d1 & E1 & Hw1 & Hh1).
    destruct (Hall _ _ (proj1 Hq) (proj2 Hq)) as (w2 & h2 & d2 & E2 & Hw2 & Hh2).
    rewrite H0 in E1. rewrite Hf in E2.
    injection E1 as <- <- <-. injection E2 as <- <- <-.
    destruct Hneq; congruence.
  - exists e, st'. split; [reflexivity|].
    now apply process_animation_spec in Hp.
Qed.

Lemma filter_nil_perm {A : Type} (p : A -> bool) (l l' : list A) :
  Permutation l l' -> filter p l = [] -> filter p l' = [].
Proof.
  intros P H. destruct (filter p l') as [|x r] eqn:E; [reflexivity|].
  assert (Hx : In x (filter p l)).
  { apply filter_In. assert (Hx' : In x (filter p l')) by (rewrite E; now left).
    apply filter_In in Hx'. split; [|tauto].
    eapply Permutation_in; [symmetry; exact P | tauto]. }
  rewrite H in Hx. contradiction.
Qed.

(** C7. In an animation group (a directory holding a [frame_rate] file) the
    run aborts, and the group is never appended to the [icons] list, when
    the group has no qualifying image frame or when the frame rate parsed
    is less than or equal to 0. *)
Theorem animation_needs_frames_and_rate (dirpath : string) (dirnames : list string)
  (listed : list (string * string)) (st : state) :
  Py.contains "frame_rate" (map fst listed) = true ->
  filter (fun e => qualifying (fst e)) listed = []
  \/ (forall content, In ("frame_rate", content) listed ->
        exists r, Py.int (Py.strip content) = Ok r /\ (r <= 0)%Z) ->
  exists e st',
    process_dir convert heatshrink (dirpath, dirnames, listed) st = (Raise e, st')
    /\ icons_list st' = icons_list st.
Proof.
  intros Hfr Hbad.
  rewrite process_dir_animation by assumption.
  destruct (process_animation convert heatshrink dirpath (sort_by_name listed) st)
    as [[u|e] st'] eqn:Hp.
  - exfalso.
    destruct (process_animation_ok _ _ _ _ _ Hp) as (a & st1 & Hloop & Hrate & Hcount).
    rewrite sort_by_name_idem in Hloop.
    destruct Hbad as [Hnone|Hrate0].
    + apply anim_loop_count in Hloop.
      rewrite (filter_nil_perm _ listed (sort_by_name listed)) in Hloop;
        [|symmetry; apply sort_by_name_perm | exact Hnone].
      cbn in Hloop. lia.
    + assert (Hle : (frame_rate a <= 0)%Z); [|lia].
      eapply anim_loop_rate; [exact Hloop | | cbn; lia].
      intros content Hin. apply Hrate0.
      apply (proj1 (sort_by_name_in _ _)). exact Hin.
  - exists e, st'. split; [reflexivity|].
    now apply process_animation_spec in Hp.
Qed.

End Loops.

(** ** Supported images *)

Lemma split_not_nil (sep : ascii) (s : string) : Py.split sep s <> [].
Proof.
  destruct s as [|c r]; cbn [Py.split]; [discriminate|].
  destruct (Ascii.eqb c sep); [discriminate|].
  destruct (Py.split sep r); discriminate.
Qed.

Lemma split_singleton (sep : ascii) (s h : string) :
  Py.split sep s = [h] -> s = h.
Proof.
  revert h. induction s as [|c r IH]; intros h; cbn [Py.split].
  - now intros [= <-].
  - destruct (Ascii.eqb c sep).
    + intros [= <- H]. now apply split_not_nil in H.
    + destruct (Py.split sep r) as [|h' t] eqn:E; [now apply split_not_nil in E|].
      intros [= <- ->]. now rewrite (IH h' eq_refl).
Qed.

Lemma last_field_cons (x : string) (l : list string) :
  l <> [] -> Py.last_field (x :: l) = Py.last_field l.
Proof. destruct l; [congruence | reflexivity]. Qed.

Lemma length_append (a b : string) :
  String.length (a ++ b) = String.length a + String.length b.
Proof. induction a as [|c a IH]; cbn; [reflexivity | now rewrite IH]. Qed.

(** The last dot-separated component of a name is [png] exactly when the
    name is [png] or ends with [.png]. *)
Lemma last_component_png (s : string) :
  Py.last_field (Py.split "." s) = "png"
  <-> s = "png" \/ exists stem, s = stem ++ ".png".
Proof.
  split.
  - induction s as [|c r IH]; cbn [Py.split]; [discriminate|].
    destruct (Ascii.eqb_spec c ".") as [->|Hc].
    + rewrite last_field_cons by apply split_not_nil.
      intros H. right. destruct (IH H) as [->|(stem & ->)].
      * now exists "".
      * now exists (String "." stem).
    + destruct (Py.split "." r) as [|h t] eqn:E; [now apply split_not_nil in E|].
      destruct t as [|h2 t].
      * apply split_singleton in E. subst h. cbn. intros ->. now left.
      * rewrite last_field_cons by discriminate.
        rewrite <- (last_field_cons h) by discriminate.
        intros H. right. destruct (IH H) as [->|(stem & ->)].
        -- discriminate E.
        -- now exists (String c stem).
  - intros [->|(stem & ->)]; [reflexivity|].
    induction stem as [|c stem IH]; [reflexivity|].
    cbn [append Py.split].
    destruct (Ascii.eqb c ".").
    + rewrite last_field_cons by apply split_not_nil. exact IH.
    + destruct (Py.split "." (stem ++ ".png")) as [|h t] eqn:E;
        [now apply split_not_nil in E|].
      destruct t as [|h2 t].
      * exfalso. pose proof (split_singleton _ _ _ E) as Hs.
        cbn in IH. subst h.
        apply (f_equal String.length) in Hs.
        rewrite length_append in Hs. cbn in Hs. lia.
      * rewrite last_field_cons by discriminate.
        rewrite <- (last_field_cons h) by discriminate. exact IH.
Qed.

Section Supported.

Variable convert : string -> string -> option string.
Variable heatshrink : list byte -> option (list byte).

(** C10. A file name is a supported image if and only if the last
    dot-separated component of its lower-cased name is a supported
    extension; so a file whose whole name is [png] or [PNG], with no dot, is
    supported and is compiled as an icon. *)
Theorem supported_by_last_component :
  (forall filename,
     iconIsSupported filename = true
     <-> In (Py.last_field (Py.split "." (Py.lower filename)))
            ICONS_SUPPORTED_FORMATS)
  /\ (forall filename,
        iconIsSupported filename = true
        <-> Py.lower filename = "png"
            \/ exists stem, Py.lower filename = stem ++ ".png")
  /\ iconIsSupported "png" = true
  /\ iconIsSupported "PNG" = true
  /\ (forall dirpath dirnames content st w h data,
        icon2header convert heatshrink (OsPath.join dirpath "png") content
        = Ok (w, h, data) ->
        exists st',
          process_dir convert heatshrink (dirpath, dirnames, [("png", content)]) st
          = (Ok tt, st')
          /\ icons_list st'
             = (icons_list st ++ [mk_icon "I_" (Some w) (Some h) 0 1])%list).
Proof.
  assert (H1 : forall filename,
             iconIsSupported filename = true
             <-> In (Py.last_field (Py.split "." (Py.lower filename)))
                    ICONS_SUPPORTED_FORMATS)
    by (intros filename; unfold iconIsSupported; apply contains_In).
  split; [exact H1|]. split; [|split; [reflexivity|split; [reflexivity|]]].
  - intros filename. rewrite H1, <- last_component_png.
    cbn [In ICONS_SUPPORTED_FORMATS]. intuition congruence.
  - intros dirpath dirnames content st w h data Hc.
    eexists. split.
    + cbn. rewrite Hc. reflexivity.
    + reflexivity.
Qed.

End Supported.

(** ** The walk *)

Lemma insert_by_name_map {A B : Type} (g : string * A -> string * B)
  (x : string * A) (l : list (string * A)) :
  (forall e, fst (g e) = fst e) ->
  insert_by_name (g x) (map g l) = map g (insert_by_name x l).
Proof.
  intros Hg. induction l as [|y l IH]; cbn [map insert_by_name]; [reflexivity|].
  rewrite !Hg. destruct (Py.str_ltb (fst y) (fst x)); cbn [map]; [|reflexivity].
  now rewrite IH.
Qed.

Lemma sort_by_name_map {A B : Type} (g : string * A -> string * B)
  (l : list (string * A)) :
  (forall e, fst (g e) = fst e) ->
  sort_by_name (map g l) = map g (sort_by_name l).
Proof.
  intros Hg. induction l as [|x l IH]; cbn [map sort_by_name]; [reflexivity|].
  now rewrite IH, insert_by_name_map.
Qed.

(** The walk yields the directory itself, then what the walk of each
    sub-directory yields, the sub-directories taken in sorted order. *)
Lemma os_walk_eq (top : string) (files : list (string * string))
  (subdirs : list (string * dir)) :
  os_walk top (Dir files subdirs)
  = (top, map fst subdirs, files)
      :: flat_map (fun e => os_walk (OsPath.join top (fst e)) (snd e))
           (sort_by_name subdirs).
Proof.
  cbn [os_walk]. f_equal.
  rewrite sort_by_name_map by (now intros [name sub]).
  rewrite map_map, flat_map_concat_map. f_equal.
  apply map_ext. now intros [name sub].
Qed.

(** ** Independence of the order of enumeration *)

Lemma dir_induction (P : dir -> Prop) :
  (forall fs ds, Forall (fun e => P (snd e)) ds -> P (Dir fs ds)) ->
  forall d, P d.
Proof.
  intros H. fix IH 1. intros [fs ds]. apply H.
  induction ds as [|[name sub] ds IHds]; constructor.
  - apply IH.
  - exact IHds.
Qed.

Lemma insert_by_name_equiv (x x' : string * list walk_item)
  (l l' : list (string * list walk_item)) :
  visit_equiv x x' -> Forall2 visit_equiv l l' ->
  Forall2 visit_equiv (insert_by_name x l) (insert_by_name x' l').
Proof.
  intros Hx Hl. induction Hl as [|y y' l l' Hy Hl IH]; cbn [insert_by_name].
  - constructor; [exact Hx | constructor].
  - destruct Hx as [Ex Hx], Hy as [Ey Hy]. rewrite <- Ex, <- Ey.
    destruct (Py.str_ltb (fst y) (fst x)).
    + constructor; [now split | exact IH].
    + constructor; [now split|]. constructor; [now split | exact Hl].
Qed.

Lemma sort_by_name_equiv (l l' : list (string * list walk_item)) :
  Forall2 visit_equiv l l' ->
  Forall2 visit_equiv (sort_by_name l) (sort_by_name l').
Proof.
  induction 1 as [|x x' l l' Hx Hl IH]; cbn [sort_by_name]; [constructor|].
  now apply insert_by_name_equiv.
Qed.

Lemma concat_equiv (l l' : list (string * list walk_item)) :
  Forall2 visit_equiv l l' ->
  Forall2 item_equiv (List.concat (map snd l)) (List.concat (map snd l')).
Proof.
  induction 1 as [|x x' l l' [_ Hx] Hl IH]; cbn [map List.concat]; [constructor|].
  now apply Forall2_app.
Qed.

Lemma wf_dir_inv (fs : list (string * string)) (ds : list (string * dir)) :
  wf_dir (Dir fs ds) = true ->
  NoDup (map fst fs) /\ NoDup (map fst ds)
  /\ Forall (fun e => wf_dir (snd e) = true) ds.
Proof.
  cbn [wf_dir]. rewrite !andb_true_iff, forallb_forall, Forall_forall.
  intros [[H1 H2] H3]. auto using names_distinct_NoDup.
Qed.

(** The walks of two enumerations of the same tree visit the same
    directories in the same order, and list the same files in each. *)
Lemma os_walk_same_tree (t1 : dir) :
  forall t2 top,
    same_tree t1 t2 -> wf_dir t1 = true ->
    Forall2 item_equiv (os_walk top t1) (os_walk top t2).
Proof.
  induction t1 as [fs ds IH] using dir_induction. intros t2 top Hsame Hwf.
  inversion Hsame as [? fs' ? ds' ds'' Pfs Hds Pds]; subst.
  destruct (wf_dir_inv _ _ Hwf) as (Nfs & Nds & Wds).
  cbn [os_walk]. constructor.
  - repeat split; assumption.
  - set (g := fun e : string * dir =>
                let (name, sub) := e in (name, os_walk (OsPath.join top name) sub)).
    assert (Hfst : forall l, map fst (map g l) = map fst l).
    { intros l. rewrite map_map. apply map_ext. now intros [name sub]. }
    assert (Hnames : map fst ds'' = map fst ds).
    { clear - Hds. induction Hds as [|a b l l' [E _] _ IHl]; [reflexivity|].
      cbn [map]. now rewrite IHl, E. }
    rewrite <- (sort_by_name_unique (map g ds'') (map g ds')).
    + apply concat_equiv, sort_by_name_equiv.
      clear - IH Hds Wds. induction Hds as [|a b l l' [E Hab] Hl IHl]; [constructor|].
      inversion IH; inversion Wds; subst. cbn [map]. constructor; [|now apply IHl].
      destruct a as [n1 s1], b as [n2 s2]. cbn [fst snd] in *. subst n2.
      split; [reflexivity|]. cbn [g snd]. auto.
    + now apply Permutation_map.
    + now rewrite Hfst, Hnames.
Qed.

Section Determinism.

Variable convert : string -> string -> option string.
Variable heatshrink : list byte -> option (list byte).

Lemma process_dir_equiv (i1 i2 : walk_item) (st : state) :
  item_equiv i1 i2 ->
  process_dir convert heatshrink i1 st = process_dir convert heatshrink i2 st.
Proof.
  destruct i1 as [[p1 d1] f1], i2 as [[p2 d2] f2].
  intros (E & P & N). cbn [fst snd] in *. subst p2.
  unfold process_dir. now rewrite (sort_by_name_unique f1 f2 P N).
Qed.

Lemma walk_loop_equiv (l1 l2 : list walk_item) :
  Forall2 item_equiv l1 l2 ->
  forall st,
    walk_loop convert heatshrink l1 st = walk_loop convert heatshrink l2 st.
Proof.
  induction 1 as [|i1 i2 l1 l2 Hi Hl IH]; intros st; [reflexivity|].
  cbn [walk_loop]. rewrite (process_dir_equiv _ _ _ Hi).
  destruct (process_dir convert heatshrink i2 st) as [[u|e] st1]; [apply IH | reflexivity].
Qed.

(** C8. The output is determined by the source tree, whatever the order in
    which the file system enumerates each directory: the names are sorted
    at every level before they are visited, so two enumerations of the same
    tree give the same two artifacts (and the same outcome). *)
Theorem icons_deterministic (input_directory : string) (t1 t2 : dir) :
  same_tree t1 t2 ->
  wf_dir t1 = true ->
  icons convert heatshrink input_directory t1
  = icons convert heatshrink input_directory t2.
Proof.
  intros Hsame Hwf. unfold icons.
  now rewrite (walk_loop_equiv _ _ (os_walk_same_tree _ _ input_directory Hsame Hwf)).
Qed.

End Determinism.

(** * Further properties *)

Lemma filter_permutation {A : Type} (p : A -> bool) (l l' : list A) :
  Permutation l l' -> Permutation (filter p l) (filter p l').
Proof.
  induction 1 as [|x l l' P IH|x y l|l l' l'' P1 IH1 P2 IH2]; cbn [filter].
  - constructor.
  - destruct (p x); [now constructor | exact IH].
  - destruct (p x), (p y); try reflexivity. apply perm_swap.
  - eapply perm_trans; eassumption.
Qed.

(** ** The static branch, file by file *)

Section Static.

Variable convert : string -> string -> option string.
Variable heatshrink : list byte -> option (list byte).

(** The static branch when every supported file is converted. *)
Lemma process_static_run (dirpath : string) (files : list (string * string)) :
  forall results st,
    Forall2 (fun e r =>
               icon2header convert heatshrink (OsPath.join dirpath (fst e)) (snd e)
               = Ok r)
      (supported_files files) results ->
    process_static convert heatshrink dirpath files st
    = (Ok tt,
       mk_state
         (icons_c st
          ++ flat_map (fun p => static_blocks (fst (fst p)) (snd p))
               (combine (supported_files files) results))%list
         (icons_list st
          ++ map (fun p => static_icon (fst (fst p)) (snd p))
               (combine (supported_files files) results))%list).
Proof.
  induction files as [|[filename content] files IH]; intros results st H.
  - cbn. rewrite !app_nil_r. now destruct st.
  - unfold supported_files in *. cbn [process_static filter fst] in *.
    destruct (iconIsSupported filename) eqn:Hsup; cbn [negb]; [|now apply IH].
    inversion H as [|e r l l' Hr Hrest]; subst. cbn [fst snd] in Hr.
    rewrite Hr. destruct r as [[w h] data].
    rewrite (IH _ _ Hrest).
    cbn [combine flat_map map fst snd write append_icon icons_c icons_list
         static_blocks static_icon].
    f_equal. f_equal.
    + rewrite <- !app_assoc. reflexivity.
    + rewrite <- !app_assoc. reflexivity.
Qed.

(** The static branch over two listings, one after the other. *)
Lemma process_static_app (dirpath : string) (l1 l2 : list (string * string)) :
  forall st,
    process_static convert heatshrink dirpath (l1 ++ l2) st
    = match process_static convert heatshrink dirpath l1 st with
      | (Ok _, st1) => process_static convert heatshrink dirpath l2 st1
      | (Raise e, st1) => (Raise e, st1)
      end.
Proof.
  induction l1 as [|[filename content] l1 IH]; intros st; [reflexivity|].
  cbn [app process_static].
  destruct (negb (iconIsSupported filename)); [apply IH|].
  destruct (icon2header convert heatshrink (OsPath.join dirpath filename) content)
    as [[[w h] data]|e]; [apply IH | reflexivity].
Qed.

(** X1. In a directory without a [frame_rate] file, when every supported
    file is converted, the loop body ends normally, writes three lines per
    supported file and appends one icon per supported file, of frame rate 0
    and frame count 1, in the order of the sorted file names; files that are
    not supported are skipped, and nothing is removed when two names give
    the same icon name. *)
Theorem static_directory_icons (dirpath : string) (dirnames : list string)
  (listed : list (string * string)) (results : list (Z * Z * string)) (st : state) :
  Py.contains "frame_rate" (map fst listed) = false ->
  Forall2 (fun e r =>
             icon2header convert heatshrink (OsPath.join dirpath (fst e)) (snd e)
             = Ok r)
    (supported_files (sort_by_name listed)) results ->
  exists st',
    process_dir convert heatshrink (dirpath, dirnames, listed) st = (Ok tt, st')
    /\ icons_list st'
       = (icons_list st
          ++ map (fun p => static_icon (fst (fst p)) (snd p))
               (combine (supported_files (sort_by_name listed)) results))%list
    /\ icons_c st'
       = (icons_c st
          ++ flat_map (fun p => static_blocks (fst (fst p)) (snd p))
               (combine (supported_files (sort_by_name listed)) results))%list
    /\ List.length (icons_list st')
       = List.length (icons_list st)
         + List.length (supported_files listed).
Proof.
  intros Hfr H. rewrite process_dir_static by assumption.
  rewrite (process_static_run _ _ _ _ H).
  eexists. split; [reflexivity|]. cbn [icons_list icons_c].
  repeat split.
  rewrite length_app, length_map, length_combine.
  rewrite <- (Forall2_length H), Nat.min_id. f_equal.
  apply Permutation_length, filter_permutation, sort_by_name_perm.
Qed.

(** X2. In a directory without a [frame_rate] file the loop body aborts on
    the first supported file, in the order of the sorted names, that
    [_icon2header] fails on, with the exception [_icon2header] raised; the
    icons of the files before it have been written and appended, and no
    file after it is looked at. *)
Theorem static_first_failure (dirpath : string) (dirnames : list string)
  (listed l1 l2 : list (string * string)) (f c : string) (e : exn)
  (results : list (Z * Z * string)) (st : state) :
  Py.contains "frame_rate" (map fst listed) = false ->
  sort_by_name listed = (l1 ++ (f, c) :: l2)%list ->
  Forall2 (fun e r =>
             icon2header convert heatshrink (OsPath.join dirpath (fst e)) (snd e)
             = Ok r)
    (supported_files l1) results ->
  iconIsSupported f = true ->
  icon2header convert heatshrink (OsPath.join dirpath f) c = Raise e ->
  exists st',
    process_dir convert heatshrink (dirpath, dirnames, listed) st = (Raise e, st')
    /\ icons_list st'
       = (icons_list st
          ++ map (fun p => static_icon (fst (fst p)) (snd p))
               (combine (supported_files l1) results))%list
    /\ icons_c st'
       = (icons_c st
          ++ flat_map (fun p => static_blocks (fst (fst p)) (snd p))
               (combine (supported_files l1) results))%list.
Proof.
  intros Hfr Hs H1 Hsup Hf. rewrite process_dir_static by assumption.
  rewrite Hs, process_static_app, (process_static_run _ _ _ _ H1).
  cbn [process_static]. rewrite Hsup, Hf. cbn [negb].
  eexists. split; [reflexivity|]. split; reflexivity.
Qed.

End Static.

(** ** The animation branch, frame by frame *)

Lemma length_frame_symbols (name : string) (n : nat) :
  forall start, List.length (frame_symbols name start n) = n.
Proof. induction n as [|n IH]; intros start; cbn; [reflexivity | now rewrite IH]. Qed.

Section Animation.

Variable convert : string -> string -> option string.
Variable heatshrink : list byte -> option (list byte).

(** The animation loop when every qualifying frame is converted with the
    width [w] and the height [h], and the [frame_rate] files hold [r]. *)
Lemma anim_loop_run (dirpath name : string) (w h r : Z)
  (files : list (string * string)) :
  forall datas a st,
    Forall2 (fun e d =>
               icon2header convert heatshrink (OsPath.join dirpath (fst e)) (snd e)
               = Ok (w, h, d))
      (qualifying_files files) datas ->
    (forall c, In ("frame_rate", c) files -> Py.int (Py.strip c) = Ok r) ->
    width a = None \/ width a = Some w ->
    height a = None \/ height a = Some h ->
    anim_loop convert heatshrink dirpath name files a st
    = (Ok (mk_anim
             (match datas with [] => width a | _ => Some w end)
             (match datas with [] => height a | _ => Some h end)
             (frame_count a + Z.of_nat (List.length datas))%Z
             (if Py.contains "frame_rate" (map fst files) then r else frame_rate a)
             (frame_names a
              ++ frame_symbols name (frame_count a) (List.length datas))%list),
       mk_state
         (icons_c st
          ++ frame_blocks (frame_symbols name (frame_count a) (List.length datas))
               datas)%list
         (icons_list st)).
Proof.
  induction files as [|[filename content] files IH]; intros datas a st H Hr Hw Hh.
  - inversion H; subst. cbn. rewrite Z.add_0_r, !app_nil_r.
    now destruct a, st.
  - assert (Hr' : forall c, In ("frame_rate", c) files -> Py.int (Py.strip c) = Ok r)
      by (intros c Hc; apply Hr; now right).
    unfold qualifying_files in *. cbn [anim_loop filter fst map Py.contains] in *.
    unfold qualifying at 1 in H. rewrite (String.eqb_sym "frame_rate").
    destruct (String.eqb_spec filename "frame_rate") as [->|Hne].
    + cbn [negb andb orb] in *.
      rewrite (Hr content (or_introl eq_refl)).
      rewrite (IH datas _ st H Hr'); cbn [width height frame_count frame_rate frame_names];
        try assumption.
      destruct (Py.contains "frame_rate" (map fst files)); reflexivity.
    + cbn [negb andb orb] in *.
      destruct (iconIsSupported filename) eqn:Hsup; cbn [negb].
      * inversion H as [|e d l l' Hd Hrest]; subst. cbn [fst snd] in Hd.
        rewrite Hd.
        assert (Ew : opt_Z_eqb (match width a with None => Some w | Some x => Some x end)
                       (Some w) = true)
          by (destruct Hw as [->| ->]; cbn; apply Z.eqb_refl).
        assert (Eh : opt_Z_eqb (match height a with None => Some h | Some x => Some x end)
                       (Some h) = true)
          by (destruct Hh as [->| ->]; cbn; apply Z.eqb_refl).
        rewrite Ew, Eh. cbn [negb].
        assert (Ew' : match width a with None => Some w | Some x => Some x end = Some w)
          by (destruct Hw as [->| ->]; reflexivity).
        assert (Eh' : match height a with None => Some h | Some x => Some x end = Some h)
          by (destruct Hh as [->| ->]; reflexivity).
        rewrite Ew', Eh'.
        rewrite (IH l' _ _ Hrest Hr');
          cbn [width height frame_count frame_rate frame_names]; auto.
        cbn [List.length frame_symbols frame_blocks combine map fst snd write
             icons_c icons_list].
        f_equal; [f_equal|f_equal].
        -- f_equal; try (now destruct l'); try lia.
           rewrite <- app_assoc. reflexivity.
        -- unfold frame_blocks. rewrite <- app_assoc. reflexivity.
      * apply IH; assumption.
Qed.

(** The animation branch on a well-formed group. *)
Lemma process_animation_run (dirpath : string) (w h r : Z)
  (filenames : list (string * string)) (datas : list string) (st : state) :
  Py.contains "frame_rate" (map fst filenames) = true ->
  (forall c, In ("frame_rate", c) filenames -> Py.int (Py.strip c) = Ok r) ->
  (0 < r)%Z ->
  Forall2 (fun e d =>
             icon2header convert heatshrink (OsPath.join dirpath (fst e)) (snd e)
             = Ok (w, h, d))
    (qualifying_files (sort_by_name filenames)) datas ->
  datas <> [] ->
  let name := anim_icon_name dirpath in
  let symbols := frame_symbols name 0 (List.length datas) in
  process_animation convert heatshrink dirpath filenames st
  = (Ok tt,
     mk_state
       (icons_c st
        ++ frame_blocks symbols datas
        ++ [ICONS_TEMPLATE_C_DATA ("_" ++ name)
              ("{" ++ Py.join "," symbols ++ "}");
            NL])%list
       (icons_list st
        ++ [mk_icon name (Some w) (Some h) r (Z.of_nat (List.length datas))])%list).
Proof.
  intros Hfr Hr Hpos H Hne name symbols. unfold process_animation.
  rewrite (anim_loop_run dirpath name w h r (sort_by_name filenames) datas);
    cbn [width height frame_count frame_rate frame_names]; auto.
  - rewrite contains_sorted, Hfr.
    destruct datas as [|d datas]; [congruence|].
    destruct (Z.gtb_spec r 0) as [_|]; [|lia]. cbn [negb].
    destruct (Z.gtb_spec (0 + Z.of_nat (List.length (d :: datas))) 0) as [_|Hc];
      [|cbn [List.length] in Hc; lia].
    cbn [negb]. unfold append_icon, write. cbn [icons_c icons_list app].
    rewrite Z.add_0_l, <- !app_assoc. reflexivity.
  - intros c Hc. apply Hr. apply (proj1 (sort_by_name_in _ _)). exact Hc.
Qed.

(** X3. An animation group whose [frame_rate] file holds a positive number
    [r] and whose qualifying frames, at least one, are all converted with
    the same width [w] and height [h] never fails: the loop body appends
    exactly one icon, named after the directory, with that width and
    height, the frame rate [r] and as many frames as the directory holds
    qualifying images. *)
Theorem animation_icon (dirpath : string) (dirnames : list string)
  (listed : list (string * string)) (w h r : Z) (datas : list string) (st : state) :
  Py.contains "frame_rate" (map fst listed) = true ->
  (forall c, In ("frame_rate", c) listed -> Py.int (Py.strip c) = Ok r) ->
  (0 < r)%Z ->
  Forall2 (fun e d =>
             icon2header convert heatshrink (OsPath.join dirpath (fst e)) (snd e)
             = Ok (w, h, d))
    (qualifying_files (sort_by_name listed)) datas ->
  datas <> [] ->
  exists st',
    process_dir convert heatshrink (dirpath, dirnames, listed) st = (Ok tt, st')
    /\ icons_list st'
       = (icons_list st
          ++ [mk_icon (anim_icon_name dirpath) (Some w) (Some h) r
                (Z.of_nat (List.length (qualifying_files listed)))])%list.
Proof.
  intros Hfr Hr Hpos H Hne.
  rewrite process_dir_animation by assumption.
  rewrite (process_animation_run dirpath w h r (sort_by_name listed) datas).
  - eexists. split; [reflexivity|]. cbn [icons_list]. do 4 f_equal.
    rewrite <- (Forall2_length H). apply Permutation_length.
    apply filter_permutation, sort_by_name_perm.
  - now rewrite contains_sorted.
  - intros c Hc. apply Hr. apply (proj1 (sort_by_name_in _ _)). exact Hc.
  - exact Hpos.
  - now rewrite sort_by_name_idem.
  - exact Hne.
Qed.

(** X4. For such a group the loop body writes one frame block per
    qualifying image, in the order of the sorted file names, under the
    symbols [_<icon>_0], [_<icon>_1], ...; then the frame-pointer array
    [_<icon>], which lists exactly these symbols in that order; then an
    empty line. *)
Theorem animation_symbols (dirpath : string) (dirnames : list string)
  (listed : list (string * string)) (w h r : Z) (datas : list string) (st : state) :
  Py.contains "frame_rate" (map fst listed) = true ->
  (forall c, In ("frame_rate", c) listed -> Py.int (Py.strip c) = Ok r) ->
  (0 < r)%Z ->
  Forall2 (fun e d =>
             icon2header convert heatshrink (OsPath.join dirpath (fst e)) (snd e)
             = Ok (w, h, d))
    (qualifying_files (sort_by_name listed)) datas ->
  datas <> [] ->
  let name := anim_icon_name dirpath in
  let symbols := frame_symbols name 0 (List.length datas) in
  exists st',
    process_dir convert heatshrink (dirpath, dirnames, listed) st = (Ok tt, st')
    /\ icons_c st'
       = (icons_c st
          ++ frame_blocks symbols datas
          ++ [ICONS_TEMPLATE_C_DATA ("_" ++ name)
                ("{" ++ Py.join "," symbols ++ "}");
              NL])%list
    /\ List.length (frame_blocks symbols datas)
       = List.length (qualifying_files listed).
Proof.
  intros Hfr Hr Hpos H Hne name symbols.
  rewrite process_dir_animation by assumption.
  rewrite (process_animation_run dirpath w h r (sort_by_name listed) datas).
  - eexists. split; [reflexivity|]. split; [reflexivity|].
    unfold frame_blocks, symbols.
    rewrite length_map, length_combine, length_frame_symbols, Nat.min_id.
    rewrite <- (Forall2_length H). apply Permutation_length.
    apply filter_permutation, sort_by_name_perm.
  - now rewrite contains_sorted.
  - intros c Hc. apply Hr. apply (proj1 (sort_by_name_in _ _)). exact Hc.
  - exact Hpos.
  - now rewrite sort_by_name_idem.
  - exact Hne.
Qed.

End Animation.

(** ** The walk as a whole *)

Lemma frame_block_not_descriptor (s : string) :
  is_frame_block s = true -> is_descriptor s = false.
Proof.
  unfold is_frame_block, is_descriptor.
  destruct s as [|c0 [|c1 [|c2 [|c3 [|c4 [|c5 [|c6 s]]]]]]]; try reflexivity;
    cbn [String.prefix];
    repeat match goal with
           | |- context [ascii_dec ?a ?b] => destruct (ascii_dec a b); subst
           end;
    try discriminate; try reflexivity.
Qed.

Lemma pointer_array_not_descriptor (s : string) :
  is_pointer_array s = true -> is_descriptor s = false.
Proof.
  unfold is_pointer_array, is_descriptor.
  destruct s as [|c0 [|c1 [|c2 [|c3 [|c4 [|c5 [|c6 s]]]]]]]; try reflexivity;
    cbn [String.prefix];
    repeat match goal with
           | |- context [ascii_dec ?a ?b] => destruct (ascii_dec a b); subst
           end;
    try discriminate; try reflexivity.
Qed.

Lemma loop_output_not_descriptor (s : string) :
  loop_output s = true -> is_descriptor s = false.
Proof.
  unfold loop_output. rewrite !orb_true_iff, String.eqb_eq.
  intros [[H|H]| ->];
    [now apply frame_block_not_descriptor
    | now apply pointer_array_not_descriptor
    | reflexivity].
Qed.

Lemma group_blocks_loop_output (g : group) :
  group_ok g -> Forall (fun s => loop_output s = true) (group_blocks g).
Proof.
  intros (Hf & Ha & _). unfold group_blocks. apply Forall_app. split.
  - eapply Forall_impl; [|exact Hf]. intros s Hs. unfold loop_output. now rewrite Hs.
  - constructor; [unfold loop_output; now rewrite Ha, orb_true_r|].
    constructor; [reflexivity | constructor].
Qed.

Section Walk.

Variable convert : string -> string -> option string.
Variable heatshrink : list byte -> option (list byte).

(** Whatever its outcome, one turn of the walk only appends frame blocks,
    frame-pointer arrays and empty lines to the file. *)
Lemma process_dir_output (item : walk_item) (st st' : state) (r : result unit) :
  process_dir convert heatshrink item st = (r, st') ->
  exists written,
    icons_c st' = (icons_c st ++ written)%list
    /\ Forall (fun s => loop_output s = true) written.
Proof.
  destruct item as [[dirpath dirnames] listed].
  destruct (Py.contains "frame_rate" (map fst listed)) eqn:Hfr.
  - rewrite process_dir_animation by assumption.
    unfold process_animation.
    destruct (anim_loop _ _ _ _ _ _ _) as [[a|e] st1] eqn:Hloop.
    + destruct (anim_loop_writes _ _ _ _ _ _ _ _ _ Hloop) as (_ & blocks & Hc & Hf & _).
      assert (Hb : Forall (fun s => loop_output s = true) blocks).
      { eapply Forall_impl; [|exact Hf]. intros s Hs. unfold loop_output. now rewrite Hs. }
      destruct (negb (frame_rate a >? 0)%Z); [intros [= <- <-]; eauto|].
      destruct (negb (frame_count a >? 0)%Z); [intros [= <- <-]; eauto|].
      intros [= <- <-]. cbn [append_icon write icons_c].
      exists (blocks ++ [ICONS_TEMPLATE_C_DATA ("_" ++ anim_icon_name dirpath)
                           ("{" ++ Py.join "," (frame_names a) ++ "}"); NL])%list.
      split; [rewrite Hc, <- !app_assoc; reflexivity|].
      apply Forall_app. split; [exact Hb|].
      constructor; [|constructor; [reflexivity | constructor]].
      unfold loop_output. now rewrite data_template_is_pointer_array, orb_true_r.
    + destruct (anim_loop_writes _ _ _ _ _ _ _ _ _ Hloop) as (_ & blocks & Hc & Hf & _).
      intros [= <- <-]. exists blocks. split; [exact Hc|].
      eapply Forall_impl; [|exact Hf]. intros s Hs. unfold loop_output. now rewrite Hs.
  - rewrite process_dir_static by assumption. intros H.
    apply process_static_spec in H. destruct H as (groups & Hok & _ & Hc & _).
    exists (flat_map group_blocks groups). split; [exact Hc|].
    clear Hc. induction Hok as [|g groups Hg Hok IH]; cbn [flat_map]; [constructor|].
    apply Forall_app. split; [now apply group_blocks_loop_output | exact IH].
Qed.

Lemma walk_loop_output (items : list walk_item) :
  forall st st' r,
    walk_loop convert heatshrink items st = (r, st') ->
    exists written,
      icons_c st' = (icons_c st ++ written)%list
      /\ Forall (fun s => loop_output s = true) written.
Proof.
  induction items as [|item items IH]; intros st st' r H.
  - cbn in H. injection H as <- <-. exists []. rewrite app_nil_r. auto.
  - cbn [walk_loop] in H.
    destruct (process_dir convert heatshrink item st) as [[u|e] st1] eqn:Hd.
    + apply process_dir_output in Hd. destruct Hd as (w1 & Hc1 & Hf1).
      apply IH in H. destruct H as (w2 & Hc2 & Hf2).
      exists (w1 ++ w2)%list. split; [now rewrite Hc2, Hc1, app_assoc|].
      apply Forall_app. auto.
    + injection H as <- <-. now apply process_dir_output in Hd.
Qed.

(** X5. When the processing of a directory raises (an exception of
    [_icon2header], of [int] or of an assertion), [icons] stops there with
    that exception, the output directory being writable: [assets_icons.h]
    is not opened, and [assets_icons.c] holds the header followed by frame
    blocks, frame-pointer arrays and empty lines only, without any line of
    the descriptor table. *)
Theorem aborted_run_artifacts (input_directory : string) (root : dir)
  (e : exn) (st : state) :
  walk_loop convert heatshrink (os_walk input_directory root)
    (mk_state [ICONS_TEMPLATE_C_HEADER] []) = (Raise e, st) ->
  icons convert heatshrink input_directory root
  = (Raise e, mk_artifacts (icons_c st) None)
  /\ exists written,
       icons_c st = ICONS_TEMPLATE_C_HEADER :: written
       /\ Forall (fun s => loop_output s = true) written
       /\ Forall (fun s => is_descriptor s = false) (icons_c st).
Proof.
  intros Hw. unfold icons. rewrite Hw. split; [reflexivity|].
  apply walk_loop_output in Hw. destruct Hw as (written & Hc & Hf).
  cbn [icons_c app] in Hc. exists written. rewrite Hc.
  repeat split; [exact Hf|].
  constructor; [reflexivity|].
  eapply Forall_impl; [|exact Hf]. apply loop_output_not_descriptor.
Qed.

(** A turn of the walk on a directory that holds no [frame_rate] file and
    no supported image does nothing. *)
Lemma process_dir_quiet (item : walk_item) (st : state) :
  quiet_item item = true ->
  process_dir convert heatshrink item st = (Ok tt, st).
Proof.
  destruct item as [[dirpath dirnames] listed]. unfold quiet_item. cbn [snd].
  rewrite andb_true_iff, negb_true_iff. intros [Hfr Hnone].
  rewrite process_dir_static by assumption.
  assert (E : supported_files (sort_by_name listed) = []).
  { unfold supported_files.
    apply (filter_nil_perm _ listed); [symmetry; apply sort_by_name_perm|].
    clear - Hnone. induction listed as [|x l IH]; [reflexivity|].
    cbn [forallb filter] in *. apply andb_true_iff in Hnone.
    destruct Hnone as [Hx Hl]. apply negb_true_iff in Hx. rewrite Hx. auto. }
  rewrite (process_static_run convert heatshrink dirpath _ []);
    [|rewrite E; constructor].
  rewrite E. cbn. rewrite !app_nil_r. now destruct st.
Qed.

(** X6. On a tree in which no directory holds a [frame_rate] file or a
    supported image, [icons] returns 0 and writes the two fixed headers
    only (and the empty line that ends the descriptor table): directories
    without images, empty or not, are skipped without an error. *)
Theorem icons_without_images (input_directory : string) (root : dir) :
  forallb quiet_item (os_walk input_directory root) = true ->
  icons convert heatshrink input_directory root
  = (Ok 0%Z,
     mk_artifacts [ICONS_TEMPLATE_C_HEADER; NL] (Some [ICONS_TEMPLATE_H_HEADER])).
Proof.
  intros H. unfold icons.
  assert (E : forall items st,
             forallb quiet_item items = true ->
             walk_loop convert heatshrink items st = (Ok tt, st)).
  { induction items as [|i items IH]; intros st Hq; [reflexivity|].
    cbn [forallb] in Hq. apply andb_true_iff in Hq. destruct Hq as [Hi Hq].
    cbn [walk_loop]. rewrite (process_dir_quiet _ _ Hi). now apply IH. }
  rewrite (E _ _ H). reflexivity.
Qed.

(** The walk over two lists of items, one after the other. *)
Lemma walk_loop_app (l1 l2 : list walk_item) :
  forall st,
    walk_loop convert heatshrink (l1 ++ l2) st
    = match walk_loop convert heatshrink l1 st with
      | (Ok _, st1) => walk_loop convert heatshrink l2 st1
      | (Raise e, st1) => (Raise e, st1)
      end.
Proof.
  induction l1 as [|i l1 IH]; intros st; [reflexivity|].
  cbn [app walk_loop].
  destruct (process_dir convert heatshrink i st) as [[u|e] st1];
    [apply IH | reflexivity].
Qed.

(** X7. The walk stops at the first directory whose turn raises: the
    exception and the state are those of that turn, whatever directories
    come after it. *)
Theorem walk_aborts_at_first_failure (l1 l2 : list walk_item) (item : walk_item)
  (st st1 st2 : state) (u : unit) (e : exn) :
  walk_loop convert heatshrink l1 st = (Ok u, st1) ->
  process_dir convert heatshrink item st1 = (Raise e, st2) ->
  walk_loop convert heatshrink (l1 ++ item :: l2) st = (Raise e, st2).
Proof.
  intros H1 Hi. rewrite walk_loop_app, H1. cbn [walk_loop]. now rewrite Hi.
Qed.

End Walk.

(** ** Failures of the extractor *)

Section Failures.

Variable convert : string -> string -> option string.
Variable heatshrink : list byte -> option (list byte).

Lemma parse_xbm_blank (output : string) :
  Py.strip output = "" -> parse_xbm output = Raise IndexError.
Proof. intros H. unfold parse_xbm. rewrite H. reflexivity. Qed.

(** X8. [_icon2header] fails with [CalledProcessError] when [convert] or
    [heatshrink] exits with an error, and with [AssertionError] when one of
    them prints nothing; but an output of [convert] that is not empty and
    holds white space only passes the assertion and fails later, with
    [IndexError], on the first header line. *)
Theorem icon2header_failures (file content : string) :
  (convert file content = None ->
   icon2header convert heatshrink file content = Raise CalledProcessError)
  /\ (convert file content = Some "" ->
      icon2header convert heatshrink file content = Raise AssertionError)
  /\ (forall output,
        convert file content = Some output ->
        output <> "" -> Py.strip output = "" ->
        icon2header convert heatshrink file content = Raise IndexError)
  /\ (forall output w h data data_bin,
        convert file content = Some output ->
        output <> "" ->
        parse_xbm output = Ok (w, h, data, data_bin) ->
        (heatshrink data_bin = None ->
         icon2header convert heatshrink file content = Raise CalledProcessError)
        /\ (heatshrink data_bin = Some [] ->
            icon2header convert heatshrink file content = Raise AssertionError)).
Proof.
  unfold icon2header. split; [|split; [|split]].
  - intros ->. reflexivity.
  - intros ->. reflexivity.
  - intros output -> Hne Hblank. cbn [of_option bind].
    destruct (String.eqb_spec output ""); [contradiction|].
    now rewrite (parse_xbm_blank _ Hblank).
  - intros output w h data data_bin -> Hne Hp. cbn [of_option bind].
    destruct (String.eqb_spec output ""); [contradiction|].
    rewrite Hp. cbn [bind]. unfold encode_frame.
    split; intros ->; reflexivity.
Qed.

(** A frame kept COMPRESSED, taken apart. *)
Lemma compressed_frame_inv (data : string) (data_bin : list byte) (text : string) :
  encode_frame heatshrink data data_bin = Ok text ->
  frame_flag text = Some COMPRESSED ->
  exists lo hi payload,
    heatshrink data_bin = Some payload
    /\ payload <> []
    /\ Z.of_N (Byte.to_N lo) = (Py.len payload mod 256)%Z
    /\ Z.of_N (Byte.to_N hi) = (Py.len payload / 256)%Z
    /\ (Py.len (lo :: hi :: payload) < Py.len data_bin + 1)%Z
    /\ text = encoded_data (lo :: hi :: payload).
Proof.
  intros He Hflag.
  destruct (encode_frame_inv _ _ _ _ He) as (enc & lo & hi & Hs & Hne & _ & Hlo & Hhi & Ht).
  exists lo, hi, enc.
  destruct (Z.ltb_spec (Py.len (lo :: hi :: enc)) (Py.len data_bin + 1)) as [Hc|Hc].
  - repeat split; assumption.
  - subst text. rewrite frame_flag_raw in Hflag. discriminate Hflag.
Qed.

(** X9. The length written in a COMPRESSED frame can be read back: the
    frame is the bytes 0x01, 0x00, [lo], [hi] followed by the output of the
    compressor, and [lo + 256 * hi] is the number of bytes that follow. *)
Theorem compressed_frame_length_decodes (data : string) (data_bin : list byte)
  (text : string) :
  encode_frame heatshrink data data_bin = Ok text ->
  frame_flag text = Some COMPRESSED ->
  exists lo hi payload,
    heatshrink data_bin = Some payload
    /\ frame_bytes text = Some (x01 :: x00 :: lo :: hi :: payload)
    /\ (Z.of_N (Byte.to_N lo) + 256 * Z.of_N (Byte.to_N hi))%Z = Py.len payload.
Proof.
  intros He Hflag.
  destruct (compressed_frame_inv _ _ _ He Hflag)
    as (lo & hi & payload & Hs & _ & Hlo & Hhi & _ & ->).
  exists lo, hi, payload. split; [exact Hs|]. split; [apply frame_bytes_encoded|].
  rewrite Hlo, Hhi. symmetry. rewrite Z.add_comm. apply Z.div_mod. lia.
Qed.

(** X10. A COMPRESSED frame holds four bytes more than the output of the
    compressor, at least five bytes, and at most one byte more than the RAW
    frame of the same bitmap would hold (the bitmap length plus one); a
    bitmap of fewer than three bytes is never kept COMPRESSED. *)
Theorem compressed_frame_size (data : string) (data_bin : list byte)
  (text : string) :
  encode_frame heatshrink data data_bin = Ok text ->
  frame_flag text = Some COMPRESSED ->
  exists payload bytes,
    heatshrink data_bin = Some payload
    /\ frame_bytes text = Some bytes
    /\ Py.len bytes = (Py.len payload + 4)%Z
    /\ (5 <= Py.len bytes <= (Py.len data_bin + 1) + 1)%Z
    /\ (3 <= Py.len data_bin)%Z.
Proof.
  intros He Hflag.
  destruct (compressed_frame_inv _ _ _ He Hflag)
    as (lo & hi & payload & Hs & Hne & _ & _ & Hc & ->).
  exists payload, (x01 :: x00 :: lo :: hi :: payload).
  split; [exact Hs|]. split; [apply frame_bytes_encoded|].
  assert (Hp : (1 <= Py.len payload)%Z).
  { destruct payload; [congruence|]. unfold Py.len. cbn [List.length]. lia. }
  unfold Py.len in *. cbn [List.length] in *. lia.
Qed.

End Failures.

(** ** The characters of names *)

Lemma has_char_false (c : ascii) (s : string) :
  has_char c s = false <-> ~ In c (list_ascii_of_string s).
Proof.
  unfold has_char. split.
  - intros H Hin. assert (E : existsb (Ascii.eqb c) (list_ascii_of_string s) = true).
    { apply existsb_exists. exists c. split; [exact Hin | apply Ascii.eqb_refl]. }
    congruence.
  - intros H. destruct (existsb _ _) eqn:E; [|reflexivity].
    apply existsb_exists in E. destruct E as (x & Hx & Ex).
    apply Ascii.eqb_eq in Ex. now subst.
Qed.

Lemma chars_append (a b : string) :
  list_ascii_of_string (a ++ b)
  = (list_ascii_of_string a ++ list_ascii_of_string b)%list.
Proof. induction a as [|c a IH]; cbn; [reflexivity | now rewrite IH]. Qed.

(** What [replace] leaves of the replaced character: only what [new]
    brings. *)
Lemma chars_replace (old : ascii) (new s : string) (c : ascii) :
  In c (list_ascii_of_string (Py.replace old new s)) ->
  In c (list_ascii_of_string new)
  \/ (In c (list_ascii_of_string s) /\ c <> old).
Proof.
  induction s as [|d s IH]; cbn [Py.replace]; [intros []|].
  destruct (Ascii.eqb_spec d old) as [->|Hd].
  - rewrite chars_append, in_app_iff. intros [H|H]; [now left|].
    destruct (IH H) as [|[H1 H2]]; [now left | right].
    split; [now right | exact H2].
  - cbn [list_ascii_of_string]. intros [<-|H].
    + right. split; [now left | exact Hd].
    + destruct (IH H) as [|[H1 H2]]; [now left | right].
      split; [now right | exact H2].
Qed.

Lemma chars_join (sep : string) (l : list string) (c : ascii) :
  In c (list_ascii_of_string (Py.join sep l)) ->
  In c (list_ascii_of_string sep)
  \/ exists x, In x l /\ In c (list_ascii_of_string x).
Proof.
  induction l as [|x l IH]; [intros []|].
  destruct l as [|y l].
  - cbn [Py.join]. intros H. right. exists x. split; [now left | exact H].
  - change (Py.join sep (x :: y :: l)) with (x ++ sep ++ Py.join sep (y :: l)).
    rewrite !chars_append, !in_app_iff. intros [H|[H|H]].
    + right. exists x. split; [now left | exact H].
    + now left.
    + destruct (IH H) as [|(z & Hz & Hc)]; [now left | right].
      exists z. split; [now right | exact Hc].
Qed.

(** No field of a split holds the separator. *)
Lemma chars_split (sep : ascii) (s x : string) :
  In x (Py.split sep s) -> ~ In sep (list_ascii_of_string x).
Proof.
  revert x. induction s as [|c s IH]; intros x; cbn [Py.split].
  - intros [<-|[]] [].
  - destruct (Ascii.eqb_spec c sep) as [->|Hc].
    + intros [<-|H]; [intros [] | now apply IH].
    + destruct (Py.split sep s) as [|h t] eqn:E; [now apply split_not_nil in E|].
      intros [<-|H].
      * cbn [list_ascii_of_string]. intros [Heq|Hin]; [congruence|].
        revert Hin. apply IH. now left.
      * apply IH. now right.
Qed.

Lemma in_removelast {A : Type} (l : list A) (x : A) :
  In x (removelast l) -> In x l.
Proof.
  induction l as [|y l IH]; [intros []|].
  cbn [removelast]. destruct l as [|z l]; [intros []|].
  intros [<-|H]; [now left | right; now apply IH].
Qed.

Lemma in_last_field (l : list string) :
  l <> [] -> In (Py.last_field l) l.
Proof.
  unfold Py.last_field. induction l as [|x l IH]; [congruence|]. intros _.
  destruct l as [|y l]; [now left|]. right. apply IH. discriminate.
Qed.

(** X11. The name of a static icon holds no dot and no hyphen, whatever
    the file name; the name of an animation holds no hyphen and no slash,
    whatever the path of the directory (its dots are kept). *)
Theorem icon_name_characters :
  (forall filename,
     has_char "." (static_icon_name filename) = false
     /\ has_char "-" (static_icon_name filename) = false)
  /\ (forall dirpath,
        has_char "-" (anim_icon_name dirpath) = false
        /\ has_char "/" (anim_icon_name dirpath) = false).
Proof.
  split.
  - intros filename. unfold static_icon_name.
    assert (H : forall c,
               In c (list_ascii_of_string
                       ("I_" ++ Py.replace "-" "_"
                                  (Py.join "_" (removelast (Py.split "." filename))))) ->
               c <> "."%char /\ c <> "-"%char).
    { intros c. rewrite chars_append, in_app_iff. intros [H|H].
      - cbn in H. destruct H as [<-|[<-|[]]]; split; discriminate.
      - apply chars_replace in H. destruct H as [H|[H Hne]].
        + cbn in H. destruct H as [<-|[]]; split; discriminate.
        + split; [|exact Hne]. intros ->.
          apply chars_join in H. destruct H as [H|(x & Hx & Hc)].
          * cbn in H. destruct H as [H|[]]; discriminate H.
          * apply in_removelast in Hx. now apply chars_split in Hx. }
    split; apply has_char_false; intros Hin; apply H in Hin; tauto.
  - intros dirpath. unfold anim_icon_name, OsPath.basename.
    assert (H : forall c,
               In c (list_ascii_of_string
                       ("A_" ++ Py.replace "-" "_"
                                  (Py.last_field (Py.split "/" dirpath)))) ->
               c <> "-"%char /\ c <> "/"%char).
    { intros c. rewrite chars_append, in_app_iff. intros [H|H].
      - cbn in H. destruct H as [<-|[<-|[]]]; split; discriminate.
      - apply chars_replace in H. destruct H as [H|[H Hne]].
        + cbn in H. destruct H as [<-|[]]; split; discriminate.
        + split; [exact Hne|]. intros ->.
          revert H. apply (chars_split "/" dirpath).
          apply in_last_field, split_not_nil. }
    split; apply has_char_false; intros Hin; apply H in Hin; tauto.
Qed.

(** ** The extension of a file name *)

Lemma lower_append (a b : string) : Py.lower (a ++ b) = Py.lower a ++ Py.lower b.
Proof. induction a as [|c a IH]; cbn; [reflexivity | now rewrite IH]. Qed.

Lemma lower_char_dot (c : ascii) :
  Ascii.eqb (Py.lower_char c) "." = Ascii.eqb c ".".
Proof. destruct c as [[] [] [] [] [] [] [] []]; reflexivity. Qed.

Lemma has_char_lower_dot (s : string) :
  has_char "." (Py.lower s) = has_char "." s.
Proof.
  unfold has_char. induction s as [|c s IH]; [reflexivity|].
  cbn [Py.lower list_ascii_of_string existsb].
  now rewrite IH, (Ascii.eqb_sym "."), lower_char_dot, (Ascii.eqb_sym c).
Qed.

Lemma split_no_sep (sep : ascii) (s : string) :
  has_char sep s = false -> Py.split sep s = [s].
Proof.
  unfold has_char. induction s as [|c s IH]; [reflexivity|].
  cbn [list_ascii_of_string existsb Py.split]. rewrite orb_false_iff.
  intros [Hc Hs]. rewrite Ascii.eqb_sym, Hc. now rewrite (IH Hs).
Qed.

Lemma split_after_sep (sep : ascii) (s e : string) :
  exists h x t, Py.split sep (s ++ String sep e) = h :: x :: t.
Proof.
  induction s as [|c s (h & x & t & IH)]; cbn [append Py.split].
  - rewrite Ascii.eqb_refl.
    destruct (Py.split sep e) as [|x t] eqn:E; [now apply split_not_nil in E|].
    now exists "", x, t.
  - destruct (Ascii.eqb c sep); rewrite IH; eauto.
Qed.

(** The last field of a name that ends with the separator and a word
    without separator is that word. *)
Lemma last_field_split (sep : ascii) (s e : string) :
  has_char sep e = false ->
  Py.last_field (Py.split sep (s ++ String sep e)) = e.
Proof.
  intros He. induction s as [|c s IH]; cbn [append Py.split].
  - rewrite Ascii.eqb_refl, (split_no_sep _ _ He). reflexivity.
  - destruct (split_after_sep sep s e) as (h & x & t & E).
    rewrite E in IH |- *.
    destruct (Ascii.eqb c sep).
    + rewrite last_field_cons by discriminate. exact IH.
    + rewrite last_field_cons by discriminate.
      rewrite last_field_cons in IH by discriminate. exact IH.
Qed.

(** X12. Whether a file is a supported image depends on what follows its
    last dot only, compared without regard to case: a name [stem.ext],
    where [ext] holds no dot, is supported if and only if [ext] in lower
    case is [png], whatever [stem] is (empty, with dots, ...). *)
Theorem supported_extension (stem ext : string) :
  has_char "." ext = false ->
  (iconIsSupported (stem ++ "." ++ ext) = true <-> Py.lower ext = "png").
Proof.
  intros He. unfold iconIsSupported.
  rewrite lower_append. change (Py.lower ("." ++ ext)) with (String "." (Py.lower ext)).
  rewrite last_field_split by (now rewrite has_char_lower_dot).
  cbn [Py.contains ICONS_SUPPORTED_FORMATS]. rewrite orb_false_r.
  apply String.eqb_eq.
Qed.

(** ** Failures of the animation branch *)

Section AnimationFailures.

Variable convert : string -> string -> option string.
Variable heatshrink : list byte -> option (list byte).

(** The animation loop over two listings, one after the other. *)
Lemma anim_loop_app (dirpath name : string) (l1 l2 : list (string * string)) :
  forall a st,
    anim_loop convert heatshrink dirpath name (l1 ++ l2) a st
    = match anim_loop convert heatshrink dirpath name l1 a st with
      | (Ok a1, st1) => anim_loop convert heatshrink dirpath name l2 a1 st1
      | (Raise e, st1) => (Raise e, st1)
      end.
Proof.
  induction l1 as [|[filename content] l1 IH]; intros a st; [reflexivity|].
  cbn [app anim_loop].
  destruct (String.eqb filename "frame_rate").
  - destruct (Py.int (Py.strip content)); [apply IH | reflexivity].
  - destruct (negb (iconIsSupported filename)); [apply IH|].
    destruct (icon2header convert heatshrink (OsPath.join dirpath filename) content)
      as [[[tw th] data]|e]; [|reflexivity].
    destruct (negb (opt_Z_eqb _ (Some tw))); [reflexivity|].
    destruct (negb (opt_Z_eqb _ (Some th))); [reflexivity|].
    apply IH.
Qed.

Lemma qualifying_inv (f : string) :
  qualifying f = true ->
  String.eqb f "frame_rate" = false /\ iconIsSupported f = true.
Proof.
  unfold qualifying. rewrite andb_true_iff, negb_true_iff. tauto.
Qed.

(** X13. In an animation group the loop body aborts on the first
    qualifying frame, in the order of the sorted names, that
    [_icon2header] fails on, with the exception [_icon2header] raised: the
    frame blocks of the frames before it stay in the file, without a
    frame-pointer array, and no icon is appended. *)
Theorem animation_first_failure (dirpath : string) (dirnames : list string)
  (listed l1 l2 : list (string * string)) (f c : string) (e : exn)
  (w h r : Z) (datas : list string) (st : state) :
  Py.contains "frame_rate" (map fst listed) = true ->
  sort_by_name listed = (l1 ++ (f, c) :: l2)%list ->
  Forall2 (fun e d =>
             icon2header convert heatshrink (OsPath.join dirpath (fst e)) (snd e)
             = Ok (w, h, d))
    (qualifying_files l1) datas ->
  (forall c, In ("frame_rate", c) l1 -> Py.int (Py.strip c) = Ok r) ->
  qualifying f = true ->
  icon2header convert heatshrink (OsPath.join dirpath f) c = Raise e ->
  process_dir convert heatshrink (dirpath, dirnames, listed) st
  = (Raise e,
     mk_state
       (icons_c st
        ++ frame_blocks
             (frame_symbols (anim_icon_name dirpath) 0 (List.length datas)) datas)%list
       (icons_list st)).
Proof.
  intros Hfr Hs H1 Hr Hq Hf.
  rewrite process_dir_animation by assumption.
  unfold process_animation. rewrite sort_by_name_idem, Hs, anim_loop_app.
  rewrite (anim_loop_run convert heatshrink dirpath _ w h r l1 datas);
    cbn [width height]; auto.
  cbn [anim_loop]. destruct (qualifying_inv _ Hq) as [-> ->]. cbn [negb].
  now rewrite Hf.
Qed.

(** X14. In an animation group a frame whose width or height differs from
    that of the frames before it makes the loop body fail with
    [AssertionError]: the frame blocks of the frames before it stay in the
    file, the block of the offending frame is not written, and no icon is
    appended. *)
Theorem animation_size_mismatch (dirpath : string) (dirnames : list string)
  (listed l1 l2 : list (string * string)) (f c : string)
  (w h r w' h' : Z) (datas : list string) (d' : string) (st : state) :
  Py.contains "frame_rate" (map fst listed) = true ->
  sort_by_name listed = (l1 ++ (f, c) :: l2)%list ->
  Forall2 (fun e d =>
             icon2header convert heatshrink (OsPath.join dirpath (fst e)) (snd e)
             = Ok (w, h, d))
    (qualifying_files l1) datas ->
  datas <> [] ->
  (forall c, In ("frame_rate", c) l1 -> Py.int (Py.strip c) = Ok r) ->
  qualifying f = true ->
  icon2header convert heatshrink (OsPath.join dirpath f) c = Ok (w', h', d') ->
  w' <> w \/ h' <> h ->
  process_dir convert heatshrink (dirpath, dirnames, listed) st
  = (Raise AssertionError,
     mk_state
       (icons_c st
        ++ frame_blocks
             (frame_symbols (anim_icon_name dirpath) 0 (List.length datas)) datas)%list
       (icons_list st)).
Proof.
  intros Hfr Hs H1 Hne Hr Hq Hf Hdiff.
  rewrite process_dir_animation by assumption.
  unfold process_animation. rewrite sort_by_name_idem, Hs, anim_loop_app.
  rewrite (anim_loop_run convert heatshrink dirpath _ w h r l1 datas);
    cbn [width height]; auto.
  cbn [anim_loop]. destruct (qualifying_inv _ Hq) as [-> ->]. cbn [negb].
  rewrite Hf. destruct datas as [|d datas]; [congruence|].
  cbn [width height opt_Z_eqb].
  destruct (Z.eqb_spec w w') as [<-|Hw]; cbn [negb]; [|reflexivity].
  destruct (Z.eqb_spec h h') as [<-|Hh]; cbn [negb]; [|reflexivity].
  destruct Hdiff; congruence.
Qed.

(** X15. An animation group without a qualifying frame, whose [frame_rate]
    file can be read as a number, fails with [AssertionError] and leaves
    the file and the [icons] list as they were. *)
Theorem animation_without_frames (dirpath : string) (dirnames : list string)
  (listed : list (string * string)) (r : Z) (st : state) :
  Py.contains "frame_rate" (map fst listed) = true ->
  (forall c, In ("frame_rate", c) listed -> Py.int (Py.strip c) = Ok r) ->
  qualifying_files listed = [] ->
  process_dir convert heatshrink (dirpath, dirnames, listed) st
  = (Raise AssertionError, st).
Proof.
  intros Hfr Hr Hnone.
  rewrite process_dir_animation by assumption.
  unfold process_animation. rewrite sort_by_name_idem.
  assert (E : qualifying_files (sort_by_name listed) = []).
  { unfold qualifying_files in *.
    apply (filter_nil_perm _ listed);
      [symmetry; apply sort_by_name_perm | exact Hnone]. }
  rewrite (anim_loop_run convert heatshrink dirpath _ 0 0 r (sort_by_name listed) []);
    cbn [width height]; auto.
  - cbn [frame_count frame_rate List.length frame_symbols frame_blocks combine map].
    rewrite app_nil_r.
    destruct (negb (_ >? 0)%Z); [now destruct st|].
    cbn. now destruct st.
  - rewrite E. constructor.
  - intros c Hc. apply Hr. apply (proj1 (sort_by_name_in _ _)). exact Hc.
Qed.

End AnimationFailures.

(** ** The symbols of the generated file *)

Section Symbols.

Variable convert : string -> string -> option string.
Variable heatshrink : list byte -> option (list byte).

(** The animation loop numbers the frames it writes from the frame count
    it starts with. *)
Lemma anim_loop_symbols (dirpath name : string) (files : list (string * string)) :
  forall a st a' st',
    anim_loop convert heatshrink dirpath name files a st = (Ok a', st') ->
    exists datas,
      frame_count a' = (frame_count a + Z.of_nat (List.length datas))%Z
      /\ frame_names a'
         = (frame_names a
            ++ frame_symbols name (frame_count a) (List.length datas))%list
      /\ icons_c st'
         = (icons_c st
            ++ frame_blocks (frame_symbols name (frame_count a) (List.length datas))
                 datas)%list
      /\ icons_list st' = icons_list st.
Proof.
  induction files as [|[filename content] files IH]; intros a st a' st' H.
  - cbn in H. injection H as <- <-. exists []. cbn.
    rewrite Z.add_0_r, !app_nil_r. auto.
  - cbn [anim_loop] in H.
    destruct (String.eqb filename "frame_rate").
    + destruct (Py.int (Py.strip content)) as [r|e]; [|discriminate H].
      apply IH in H. exact H.
    + destruct (negb (iconIsSupported filename)); [now apply IH in H|].
      destruct (icon2header convert heatshrink (OsPath.join dirpath filename) content)
        as [[[tw th] data]|e]; [|discriminate H].
      destruct (negb (opt_Z_eqb _ (Some tw))); [discriminate H|].
      destruct (negb (opt_Z_eqb _ (Some th))); [discriminate H|].
      apply IH in H. destruct H as (datas & Hn & Hs & Hc & Hl).
      cbn [frame_count frame_names write icons_c icons_list] in Hn, Hs, Hc, Hl.
      exists (data :: datas).
      cbn [List.length frame_symbols frame_blocks combine map fst snd].
      repeat split.
      * rewrite Hn. lia.
      * rewrite Hs, <- app_assoc. reflexivity.
      * rewrite Hc, <- app_assoc. reflexivity.
      * exact Hl.
Qed.

Lemma process_dir_linked (item : walk_item) (st st' : state) (u : unit) :
  process_dir convert heatshrink item st = (Ok u, st') ->
  exists groups,
    Forall group_linked groups
    /\ icons_list st' = (icons_list st ++ map group_icon groups)%list
    /\ icons_c st' = (icons_c st ++ flat_map group_blocks groups)%list.
Proof.
  destruct item as [[dirpath dirnames] listed].
  destruct (Py.contains "frame_rate" (map fst listed)) eqn:Hfr.
  - rewrite process_dir_animation by assumption.
    unfold process_animation.
    destruct (anim_loop _ _ _ _ _ _ _) as [[a|e] st1] eqn:Hloop; [|discriminate].
    destruct (negb (frame_rate a >? 0)%Z); [discriminate|].
    destruct (negb (frame_count a >? 0)%Z); [discriminate|].
    destruct u. intros [= <-].
    destruct (anim_loop_symbols _ _ _ _ _ _ _ Hloop) as (datas & Hn & Hs & Hc & Hl).
    cbn [frame_count frame_names app] in Hn, Hs.
    set (symbols := frame_symbols (anim_icon_name dirpath) 0 (List.length datas)) in *.
    exists [mk_group
              (mk_icon (anim_icon_name dirpath) (width a) (height a)
                 (frame_rate a) (frame_count a))
              (frame_blocks symbols datas)
              (ICONS_TEMPLATE_C_DATA ("_" ++ anim_icon_name dirpath)
                 ("{" ++ Py.join "," symbols ++ "}"))].
    split; [|split].
    + constructor; [|constructor]. exists symbols, datas.
      cbn [group_frames group_array group_icon icon_name icon_frame_count].
      unfold symbols. rewrite length_frame_symbols. repeat split. lia.
    + cbn [append_icon write icons_list map group_icon]. now rewrite Hl.
    + cbn [append_icon write icons_c flat_map group_blocks group_frames group_array].
      rewrite Hc, Hs, app_nil_r, <- !app_assoc. reflexivity.
  - rewrite process_dir_static by assumption.
    generalize (sort_by_name listed). clear. intros files. revert st st' u.
    induction files as [|[filename content] files IH]; intros st st' u H.
    + cbn in H. destruct u. injection H as <-. exists []. cbn.
      rewrite !app_nil_r. auto.
    + cbn [process_static] in H.
      destruct (negb (iconIsSupported filename)); [now apply IH in H|].
      destruct (icon2header convert heatshrink (OsPath.join dirpath filename) content)
        as [[[w h] data]|e]; [|discriminate H].
      apply IH in H. destruct H as (groups & Hok & Hl & Hc).
      set (name := static_icon_name filename) in *.
      exists (mk_group (mk_icon name (Some w) (Some h) 0 1)
                [ICONS_TEMPLATE_C_FRAME ("_" ++ name ++ "_0") data]
                (ICONS_TEMPLATE_C_DATA ("_" ++ name)
                   ("{" ++ ("_" ++ name ++ "_0") ++ "}"))
              :: groups).
      split; [|split].
      * constructor; [|exact Hok].
        exists ["_" ++ name ++ "_0"], [data]. repeat split.
      * rewrite Hl. cbn [append_icon icons_list write map group_icon].
        rewrite <- app_assoc. reflexivity.
      * rewrite Hc. cbn [append_icon icons_c write flat_map group_blocks
                           group_frames group_array].
        rewrite <- !app_assoc. reflexivity.
Qed.

Lemma walk_loop_linked (items : list walk_item) :
  forall st st' u,
    walk_loop convert heatshrink items st = (Ok u, st') ->
    exists groups,
      Forall group_linked groups
      /\ icons_list st' = (icons_list st ++ map group_icon groups)%list
      /\ icons_c st' = (icons_c st ++ flat_map group_blocks groups)%list.
Proof.
  induction items as [|item items IH]; intros st st' u H.
  - cbn in H. destruct u. injection H as <-. exists []. cbn.
    rewrite !app_nil_r. auto.
  - cbn [walk_loop] in H.
    destruct (process_dir convert heatshrink item st) as [[v|e] st1] eqn:Hd;
      [|discriminate H].
    apply process_dir_linked in Hd. destruct Hd as (g1 & Hok1 & Hl1 & Hc1).
    apply IH in H. destruct H as (g2 & Hok2 & Hl2 & Hc2).
    exists (g1 ++ g2)%list. split; [|split].
    + apply Forall_app. auto.
    + rewrite Hl2, Hl1, map_app, app_assoc. reflexivity.
    + rewrite Hc2, Hc1, flat_map_app, app_assoc. reflexivity.
Qed.

(** X16. In the file of a run that completes no reference dangles: each
    line of the descriptor table refers to [_<icon>], the frame-pointer
    array written for that icon; this array lists exactly the symbols of
    the frame blocks written just before it, in their order; and the frame
    count of the descriptor is the number of these blocks. *)
Theorem artifacts_linked (input_directory : string) (root : dir) (r : Z)
  (out : artifacts) :
  icons convert heatshrink input_directory root = (Ok r, out) ->
  exists groups,
    Forall group_linked groups
    /\ assets_icons_c out
       = ([ICONS_TEMPLATE_C_HEADER]
          ++ flat_map group_blocks groups
          ++ map (fun g =>
                    ICONS_TEMPLATE_C_ICONS (icon_name (group_icon g))
                      (icon_width (group_icon g)) (icon_height (group_icon g))
                      (Z.of_nat (List.length (group_frames g)))
                      (icon_frame_rate (group_icon g)))
               groups
          ++ [NL])%list.
Proof.
  unfold icons. intros H.
  destruct (walk_loop convert heatshrink (os_walk input_directory root)
              (mk_state [ICONS_TEMPLATE_C_HEADER] []))
    as [[u|e] st] eqn:Hw; [|discriminate H].
  injection H as <- <-.
  apply walk_loop_linked in Hw. destruct Hw as (groups & Hok & Hl & Hc).
  cbn [icons_list icons_c app] in Hl, Hc.
  exists groups. cbn [assets_icons_c]. rewrite Hl, Hc.
  split; [exact Hok|]. cbn [app]. do 2 f_equal. f_equal.
  rewrite map_map. apply map_ext_in. intros g Hg.
  rewrite Forall_forall in Hok. destruct (Hok g Hg) as (symbols & datas & Hlen & Hf & _ & Hn).
  unfold icon_line. f_equal. rewrite Hn, Hf. unfold frame_blocks.
  now rewrite length_map, length_combine, <- Hlen, Nat.min_id.
Qed.

End Symbols.

(** ** The groups of a completed run *)

Lemma static_group_ok (filename : string) (r : Z * Z * string) :
  group_ok (static_group filename r).
Proof.
  unfold group_ok, static_group.
  cbn [group_frames group_array group_icon static_icon icon_frame_count List.length].
  repeat split; try apply data_template_is_pointer_array.
  constructor; [apply frame_template_is_frame_block | constructor].
Qed.

Lemma frame_blocks_are_frame_blocks (symbols datas : list string) :
  Forall (fun s => is_frame_block s = true) (frame_blocks symbols datas).
Proof.
  unfold frame_blocks. apply Forall_forall. intros s Hs.
  apply in_map_iff in Hs. destruct Hs as (p & <- & _).
  apply frame_template_is_frame_block.
Qed.

Lemma animation_group_ok (dirpath : string) (w h r : Z) (datas : list string) :
  group_ok (animation_group dirpath w h r datas).
Proof.
  unfold group_ok, animation_group.
  cbn [group_frames group_array group_icon icon_frame_count].
  split; [apply frame_blocks_are_frame_blocks|].
  split; [apply data_template_is_pointer_array|].
  unfold frame_blocks.
  now rewrite length_map, length_combine, length_frame_symbols, Nat.min_id.
Qed.

Section Groups.

Variable convert : string -> string -> option string.
Variable heatshrink : list byte -> option (list byte).

(** A static branch that ends normally has converted every supported
    file. *)
Lemma process_static_converted (dirpath : string) (files : list (string * string)) :
  forall st st' u,
    process_static convert heatshrink dirpath files st = (Ok u, st') ->
    exists results,
      Forall2 (fun e r =>
                 icon2header convert heatshrink (OsPath.join dirpath (fst e)) (snd e)
                 = Ok r)
        (supported_files files) results.
Proof.
  unfold supported_files.
  induction files as [|[filename content] files IH]; intros st st' u H.
  - exists []. constructor.
  - cbn [process_static filter fst] in *.
    destruct (iconIsSupported filename); cbn [negb] in H; [|now apply IH in H].
    destruct (icon2header convert heatshrink (OsPath.join dirpath filename) content)
      as [[[w h] data]|e] eqn:Hc; [|discriminate H].
    apply IH in H. destruct H as (results & Hr).
    exists ((w, h, data) :: results). constructor; [exact Hc | exact Hr].
Qed.

(** An animation loop that ends normally has converted every qualifying
    frame; it read its frame rate from a [frame_rate] file, unless it met
    none. *)
Lemma anim_loop_converted (dirpath name : string) (files : list (string * string)) :
  forall a st a' st',
    anim_loop convert heatshrink dirpath name files a st = (Ok a', st') ->
    (exists datas,
       Forall2 (fun e d =>
                  exists w h,
                    icon2header convert heatshrink (OsPath.join dirpath (fst e)) (snd e)
                    = Ok (w, h, d))
         (qualifying_files files) datas
       /\ frame_count a' = (frame_count a + Z.of_nat (List.length datas))%Z
       /\ frame_names a'
          = (frame_names a
             ++ frame_symbols name (frame_count a) (List.length datas))%list
       /\ icons_c st'
          = (icons_c st
             ++ frame_blocks (frame_symbols name (frame_count a) (List.length datas))
                  datas)%list
       /\ icons_list st' = icons_list st)
    /\ (frame_rate a' = frame_rate a
        \/ exists content,
             In ("frame_rate", content) files
             /\ Py.int (Py.strip content) = Ok (frame_rate a')).
Proof.
  unfold qualifying_files.
  induction files as [|[filename content] files IH]; intros a st a' st' H.
  - cbn in H. injection H as <- <-. split; [|now left].
    exists []. cbn. rewrite Z.add_0_r, !app_nil_r. repeat split. constructor.
  - cbn [anim_loop filter fst] in *. unfold qualifying at 1.
    destruct (String.eqb_spec filename "frame_rate") as [->|Hne]; cbn [negb andb].
    + destruct (Py.int (Py.strip content)) as [r|e] eqn:Hint; [|discriminate H].
      apply IH in H. destruct H as (Hd & Hr). cbn [frame_count frame_names frame_rate] in *.
      split; [exact Hd|]. right.
      destruct Hr as [Hr|(c & Hin & Hc)].
      * exists content. split; [now left | now rewrite Hr].
      * exists c. split; [now right | exact Hc].
    + destruct (iconIsSupported filename); cbn [negb] in H.
      * destruct (icon2header convert heatshrink (OsPath.join dirpath filename) content)
          as [[[tw th] data]|e] eqn:Hc; [|discriminate H].
        destruct (negb (opt_Z_eqb _ (Some tw))); [discriminate H|].
        destruct (negb (opt_Z_eqb _ (Some th))); [discriminate H|].
        apply IH in H. destruct H as ((datas & Hf & Hn & Hs & Hw & Hl) & Hr).
        cbn [frame_count frame_names frame_rate write icons_c icons_list] in *.
        split.
        -- exists (data :: datas).
           cbn [List.length frame_symbols frame_blocks combine map fst snd].
           repeat split.
           ++ constructor; [now exists tw, th | exact Hf].
           ++ rewrite Hn. lia.
           ++ rewrite Hs, <- app_assoc. reflexivity.
           ++ rewrite Hw, <- app_assoc. reflexivity.
           ++ exact Hl.
        -- destruct Hr as [Hr|(c & Hin & Hcc)]; [now left | right].
           exists c. split; [now right | exact Hcc].
      * apply IH in H. destruct H as (Hd & Hr). split; [exact Hd|].
        destruct Hr as [Hr|(c & Hin & Hcc)]; [now left | right].
        exists c. split; [now right | exact Hcc].
Qed.

Lemma Forall2_in_l {A B : Type} (R : A -> B -> Prop) (P : A -> Prop)
  (l : list A) (l' : list B) :
  Forall2 R l l' -> (forall x, In x l -> P x) ->
  Forall2 (fun x y => R x y /\ P x) l l'.
Proof.
  induction 1 as [|x y l l' Hxy Hl IH]; intros HP; constructor.
  - split; [exact Hxy | apply HP; now left].
  - apply IH. intros z Hz. apply HP. now right.
Qed.

(** What a turn of the walk that ends normally has built. *)
Lemma process_dir_groups (item : walk_item) (st st' : state) (u : unit) :
  process_dir convert heatshrink item st = (Ok u, st') ->
  exists gs,
    item_groups convert heatshrink item gs
    /\ Forall group_ok gs
    /\ icons_list st' = (icons_list st ++ map group_icon gs)%list
    /\ icons_c st' = (icons_c st ++ flat_map group_blocks gs)%list.
Proof.
  destruct item as [[dirpath dirnames] listed]. unfold item_groups. cbn [fst snd].
  rewrite contains_sorted.
  destruct (Py.contains "frame_rate" (map fst listed)) eqn:Hfr.
  - rewrite process_dir_animation by assumption.
    unfold process_animation. rewrite sort_by_name_idem.
    destruct (anim_loop _ _ _ _ _ _ _) as [[a|e] st1] eqn:Hloop; [|discriminate].
    destruct (Z.gtb_spec (frame_rate a) 0) as [Hrate|]; [|discriminate].
    destruct (Z.gtb_spec (frame_count a) 0) as [Hcount|]; [|discriminate].
    cbn [negb]. destruct u. intros [= <-].
    destruct (anim_loop_converted _ _ _ _ _ _ _ Hloop)
      as ((datas & Hf & Hn & Hs & Hc & Hl) & Hr).
    destruct (anim_loop_sizes _ _ _ _ _ _ _ _ _ Hloop) as (_ & _ & Hall).
    cbn [frame_count frame_names frame_rate app] in Hn, Hs, Hr.
    assert (Hne : datas <> []) by (intros ->; cbn in Hn; lia).
    (* the width and height the loop ends with *)
    assert (Hwh : exists w h, width a = Some w /\ height a = Some h).
    { destruct (qualifying_files (sort_by_name listed)) as [|[f0 c0] rest] eqn:Eq.
      - inversion Hf; subst; congruence.
      - assert (Hin : In (f0, c0) (qualifying_files (sort_by_name listed)))
          by (rewrite Eq; now left).
        apply filter_In in Hin.
        destruct (Hall f0 c0 (proj1 Hin) (proj2 Hin)) as (w & h & _ & _ & Hw & Hh).
        eauto. }
    destruct Hwh as (w & h & Hw & Hh).
    assert (Hf' : Forall2 (fun e d =>
                     icon2header convert heatshrink (OsPath.join dirpath (fst e)) (snd e)
                     = Ok (w, h, d))
                    (qualifying_files (sort_by_name listed)) datas).
    { apply (Forall2_in_l _ (fun e => In e (qualifying_files (sort_by_name listed)))) in Hf;
        [|auto].
      eapply Forall2_impl; [|exact Hf].
      intros [f c] d ((w1 & h1 & E1) & Hin). cbn [fst snd] in *.
      apply filter_In in Hin.
      destruct (Hall f c (proj1 Hin) (proj2 Hin)) as (w2 & h2 & d2 & E2 & Hw2 & Hh2).
      rewrite E1 in E2. injection E2 as <- <- <-. congruence. }
    destruct Hr as [Hr|(content & Hin & Hint)]; [lia|].
    exists [animation_group dirpath w h (frame_rate a) datas].
    split; [|split; [|split]].
    + exists w, h, (frame_rate a), datas, content. repeat split; auto.
    + constructor; [apply animation_group_ok | constructor].
    + cbn [append_icon write icons_list map group_icon animation_group].
      rewrite Hl, Hw, Hh, Hn, Z.add_0_l. reflexivity.
    + cbn [append_icon write icons_c flat_map group_blocks group_frames
             group_array animation_group].
      rewrite Hc, Hs, app_nil_r, <- !app_assoc. reflexivity.
  - rewrite process_dir_static by assumption. intros H.
    destruct (process_static_converted _ _ _ _ _ H) as (results & Hr).
    rewrite (process_static_run _ _ _ _ _ _ Hr) in H. destruct u.
    injection H as <-.
    exists (map (fun p => static_group (fst (fst p)) (snd p))
              (combine (supported_files (sort_by_name listed)) results)).
    split; [|split; [|split]].
    + exists results. auto.
    + apply Forall_forall. intros g Hg. apply in_map_iff in Hg.
      destruct Hg as (p & <- & _). apply static_group_ok.
    + cbn [icons_list]. now rewrite map_map.
    + cbn [icons_c]. f_equal.
      induction (combine (supported_files (sort_by_name listed)) results)
        as [|p l IH]; [reflexivity|].
      cbn [map flat_map]. now rewrite IH.
Qed.

Lemma walk_loop_groups (items : list walk_item) :
  forall st st' u,
    walk_loop convert heatshrink items st = (Ok u, st') ->
    exists gss,
      Forall2 (item_groups convert heatshrink) items gss
      /\ Forall group_ok (List.concat gss)
      /\ icons_list st' = (icons_list st ++ map group_icon (List.concat gss))%list
      /\ icons_c st' = (icons_c st ++ flat_map group_blocks (List.concat gss))%list.
Proof.
  induction items as [|item items IH]; intros st st' u H.
  - cbn in H. destruct u. injection H as <-. exists []. cbn.
    rewrite !app_nil_r. repeat split; constructor.
  - cbn [walk_loop] in H.
    destruct (process_dir convert heatshrink item st) as [[v|e] st1] eqn:Hd;
      [|discriminate H].
    apply process_dir_groups in Hd. destruct Hd as (gs & Hg & Hok1 & Hl1 & Hc1).
    apply IH in H. destruct H as (gss & Hgs & Hok2 & Hl2 & Hc2).
    exists (gs :: gss). cbn [List.concat]. split; [|split; [|split]].
    + now constructor.
    + apply Forall_app. auto.
    + rewrite Hl2, Hl1, map_app, app_assoc. reflexivity.
    + rewrite Hc2, Hc1, flat_map_app, app_assoc. reflexivity.
Qed.

(** C4, amended. The implementation artifact is written append-in-order
    as: the fixed header; then, for each icon in registry (discovery) order,
    that icon's frame blocks followed by its frame-pointer array and an
    empty line; then the descriptor table, one line per icon in registry
    order, and an empty line. The declarations artifact holds the fixed
    header and one declaration line per icon in registry order. The
    registry is the sequence of the icons discovered: directory after
    directory in the order of the walk and, in a directory, one animation,
    or one static icon per supported file in the order of the sorted file
    names; nothing is reordered or deduplicated. *)
Theorem artifacts_layout (input_directory : string) (root : dir) (r : Z)
  (out : artifacts) :
  icons convert heatshrink input_directory root = (Ok r, out) ->
  exists gss,
    Forall2 (item_groups convert heatshrink) (os_walk input_directory root) gss
    /\ Forall group_ok (List.concat gss)
    /\ assets_icons_c out
       = ([ICONS_TEMPLATE_C_HEADER]
          ++ flat_map group_blocks (List.concat gss)
          ++ map icon_line (map group_icon (List.concat gss))
          ++ [NL])%list
    /\ assets_icons_h out
       = Some (ICONS_TEMPLATE_H_HEADER
                 :: map decl_line (map group_icon (List.concat gss)))
    /\ Forall (fun s => is_descriptor s = true)
         (map icon_line (map group_icon (List.concat gss))).
Proof.
  unfold icons. intros H.
  destruct (walk_loop convert heatshrink (os_walk input_directory root)
              (mk_state [ICONS_TEMPLATE_C_HEADER] []))
    as [[u|e] st] eqn:Hw; [|discriminate H].
  injection H as <- <-.
  apply walk_loop_groups in Hw. destruct Hw as (gss & Hg & Hok & Hl & Hc).
  cbn [icons_list icons_c app] in Hl, Hc.
  exists gss. cbn [assets_icons_c assets_icons_h].
  rewrite Hl, Hc. repeat split; auto.
  apply Forall_forall. intros s Hs.
  apply in_map_iff in Hs. destruct Hs as (i & <- & _).
  cbn. apply prefix_empty.
Qed.

End Groups.

(** * Worked examples *)

Local Open Scope Z_scope.

(** The layout of C1 on a frame kept COMPRESSED. *)
Lemma frame_initialiser_layout_witness :
  icon2header Sample.convert Sample.heatshrink_short "a.png" Sample.xbm_10x8
  = Ok (10, 8, "{0x01,0x00,0x03,0x00,0xaa,0xbb,0x0c,}")
  /\ exists output data data_bin enc,
       Sample.convert "a.png" Sample.xbm_10x8 = Some output
       /\ parse_xbm output = Ok (10, 8, data, data_bin)
       /\ Sample.heatshrink_short data_bin = Some enc.
Proof.
  assert (H : icon2header Sample.convert Sample.heatshrink_short "a.png"
                Sample.xbm_10x8
              = Ok (10, 8, "{0x01,0x00,0x03,0x00,0xaa,0xbb,0x0c,}"))
    by reflexivity.
  split; [exact H|].
  destruct (frame_initialiser_layout _ _ _ _ _ _ _ H)
    as (output & data & data_bin & enc & H1 & H2 & H3 & _).
  exists output, data, data_bin, enc. auto.
Defined.

(** C1 as stated fails: in a COMPRESSED frame the two length bytes do not
    follow the flag byte immediately, a 0x00 byte stands between them. *)
Lemma compressed_layout_counterexample :
  exists text,
    icon2header Sample.convert Sample.heatshrink_short "a.png" Sample.xbm_10x8
    = Ok (10, 8, text)
    /\ frame_flag text = Some COMPRESSED
    /\ length_header (Py.len [xaa; xbb; x0c]) = Ok [x03; x00]
    /\ frame_bytes text = Some [x01; x00; x03; x00; xaa; xbb; x0c]
    /\ frame_bytes text <> Some (x01 :: [x03; x00] ++ [xaa; xbb; x0c])%list.
Proof.
  exists "{0x01,0x00,0x03,0x00,0xaa,0xbb,0x0c,}".
  repeat split; try reflexivity. discriminate.
Qed.

(** The boundary case of C2: five bytes with the header against four raw
    bytes plus one, the frame stays RAW. *)
Lemma encoder_choice_witness :
  Sample.heatshrink_short [x00; x01; x02; x03] = Some [xaa; xbb; x0c]
  /\ exists (compressed_with_header : list byte) text,
       Py.len compressed_with_header = Py.len [x00; x01; x02; x03] + 1
       /\ encode_frame Sample.heatshrink_short "{0x00,0x01,0x02,0x03,}"
            [x00; x01; x02; x03] = Ok text
       /\ frame_flag text = Some RAW.
Proof.
  split; [reflexivity|].
  destruct (encoder_choice Sample.heatshrink_short "{0x00,0x01,0x02,0x03,}"
              [x00; x01; x02; x03] [xaa; xbb; x0c])
    as (cwh & text & _ & Hlen & Henc & _ & _ & Htie);
    [reflexivity | discriminate | reflexivity |].
  exists cwh, text. split; [exact Hlen|]. split; [exact Henc|].
  apply Htie. exact Hlen.
Defined.

(** The length prefix of C9 on a blob of three bytes. *)
Lemma length_prefix_little_endian_witness :
  Sample.heatshrink_short [x00; x01; x02; x03] = Some [xaa; xbb; x0c]
  /\ ((0 <= Z.shiftr (Py.len [xaa; xbb; x0c]) 8 < 256)
      <-> Py.len [xaa; xbb; x0c] < 65536).
Proof.
  split; [reflexivity|].
  apply (length_prefix_little_endian Sample.heatshrink_short ""
           [x00; x01; x02; x03] [xaa; xbb; x0c]);
    [reflexivity | discriminate].
Defined.

(** A frame kept RAW: the compressed data would be longer than the
    bitmap. *)
Example raw_frame :
  icon2header Sample.convert Sample.heatshrink_long "a.png" Sample.xbm_10x8
  = Ok (10, 8,
        "{0x00,0xFF,0x03,0x01,0x02,0x01,0x02,0x01,0x02,0x01,0x02,0x01,0x02,0x01,0x02,0xFF,0x03,}")
  /\ frame_bytes
       "{0x00,0xFF,0x03,0x01,0x02,0x01,0x02,0x01,0x02,0x01,0x02,0x01,0x02,0x01,0x02,0xFF,0x03,}"
     = Some [x00; xff; x03; x01; x02; x01; x02; x01; x02; x01; x02; x01; x02;
             x01; x02; xff; x03].
Proof. split; reflexivity. Qed.

(** C9 on a blob of 65536 bytes: the encoding aborts. *)
Example length_prefix_overflow :
  encode_frame (Sample.heatshrink_zeros 65536) "" [] = Raise ValueError.
Proof. vm_compute. reflexivity. Qed.

(** C3 on the text printed for a 10x8 image. *)
Lemma header_last_tokens_witness :
  icon2header Sample.convert Sample.heatshrink_short "a.png" Sample.xbm_10x8
  = Ok (10, 8, "{0x01,0x00,0x03,0x00,0xaa,0xbb,0x0c,}")
  /\ define_line (fst (Py.readline (Py.strip Sample.xbm_10x8))) = true
  /\ Py.int (last_token (fst (Py.readline (Py.strip Sample.xbm_10x8)))) = Ok 10
  /\ Py.int (last_token
               (fst (Py.readline (snd (Py.readline (Py.strip Sample.xbm_10x8))))))
     = Ok 8.
Proof.
  split; [reflexivity|]. split; [reflexivity|].
  apply (header_last_tokens Sample.convert Sample.heatshrink_short
           "a.png" Sample.xbm_10x8 Sample.xbm_10x8 10 8
           "{0x01,0x00,0x03,0x00,0xaa,0xbb,0x0c,}");
    reflexivity.
Defined.

(** Outside the form [convert] prints: on a first header line with a fourth
    field, the width is the third field, 10, not the last token, 7. *)
Example fourth_field_ignored :
  let line1 := fst (Py.readline (Py.strip Sample.xbm_extra_field)) in
  define_line line1 = false
  /\ icon2header Sample.convert Sample.heatshrink_short "a.png" Sample.xbm_extra_field
     = Ok (10, 8, "{0x01,0x00,0x03,0x00,0xaa,0xbb,0x0c,}")
  /\ Py.int (last_token line1) = Ok 7.
Proof. repeat split; reflexivity. Qed.

(** The layout of C4 on a directory of two static icons, discovered in
    the order of their sorted names. *)
Lemma artifacts_layout_witness :
  fst (icons Sample.convert Sample.heatshrink_short "in" Sample.two_icons) = Ok 0
  /\ exists gss,
       Forall2 (item_groups Sample.convert Sample.heatshrink_short)
         (os_walk "in" Sample.two_icons) gss
       /\ assets_icons_h
            (snd (icons Sample.convert Sample.heatshrink_short "in" Sample.two_icons))
          = Some (ICONS_TEMPLATE_H_HEADER
                    :: map decl_line (map group_icon (List.concat gss))).
Proof.
  split; [reflexivity|].
  destruct (artifacts_layout Sample.convert Sample.heatshrink_short "in"
              Sample.two_icons 0
              (snd (icons Sample.convert Sample.heatshrink_short "in" Sample.two_icons)))
    as (gss & Hg & _ & _ & Hh & _); [reflexivity|].
  exists gss. split; [exact Hg | exact Hh].
Defined.

(** C4 as stated fails: with two icons the frame-pointer array of the
    first is written before the frame block of the second. *)
Lemma frames_then_arrays_counterexample :
  exists out,
    icons Sample.convert Sample.heatshrink_short "in" Sample.two_icons = (Ok 0, out)
    /\ frames_then_arrays false (assets_icons_c out) = false
    /\ (exists name1 data1 name2 data2,
          nth_error (assets_icons_c out) 2 = Some (ICONS_TEMPLATE_C_DATA name1 data1)
          /\ nth_error (assets_icons_c out) 4 = Some (ICONS_TEMPLATE_C_FRAME name2 data2)).
Proof.
  eexists. split; [reflexivity|]. split; [reflexivity|].
  exists "_I_a", "{_I_a_0}", "_I_b_0", "{0x01,0x00,0x03,0x00,0xaa,0xbb,0x0c,}".
  split; reflexivity.
Qed.



(** C6 on an animation whose two frames differ in width. *)
Lemma animation_frames_same_size_witness :
  Py.contains "frame_rate" (map fst Sample.mixed_frames) = true
  /\ exists e st',
       process_dir Sample.convert Sample.heatshrink_short
         ("in/anim", [], Sample.mixed_frames) Sample.st0 = (Raise e, st')
       /\ icons_list st' = icons_list Sample.st0.
Proof.
  split; [reflexivity|].
  apply (animation_frames_same_size Sample.convert Sample.heatshrink_short
           "in/anim" [] Sample.mixed_frames Sample.st0
           "f1.png" Sample.xbm_10x8 [("f2.png", Sample.xbm_16x8)]
           10 8 "{0x01,0x00,0x03,0x00,0xaa,0xbb,0x0c,}"
           "f2.png" Sample.xbm_16x8
           16 8 "{0x01,0x00,0x03,0x00,0xaa,0xbb,0x0c,}").
  - reflexivity.
  - reflexivity.
  - reflexivity.
  - left. reflexivity.
  - reflexivity.
  - left. discriminate.
Defined.

(** C7 on an animation whose frame rate is zero. *)
Lemma animation_needs_frames_and_rate_witness :
  Py.contains "frame_rate" (map fst Sample.zero_rate) = true
  /\ exists e st',
       process_dir Sample.convert Sample.heatshrink_short
         ("in/anim", [], Sample.zero_rate) Sample.st0 = (Raise e, st')
       /\ icons_list st' = icons_list Sample.st0.
Proof.
  split; [reflexivity|].
  apply (animation_needs_frames_and_rate Sample.convert Sample.heatshrink_short
           "in/anim" [] Sample.zero_rate Sample.st0).
  - reflexivity.
  - right. intros content [H|[H|[]]]; [discriminate H|].
    injection H as <-. exists 0. split; [reflexivity | lia].
Defined.

(** C8 on two enumerations of one tree. *)
Lemma icons_deterministic_witness :
  same_tree Sample.tree1 Sample.tree2
  /\ wf_dir Sample.tree1 = true
  /\ icons Sample.convert Sample.heatshrink_short "in" Sample.tree1
     = icons Sample.convert Sample.heatshrink_short "in" Sample.tree2.
Proof.
  assert (Hsame : same_tree Sample.tree1 Sample.tree2).
  { unfold Sample.tree1, Sample.tree2.
    eapply same_tree_dir; [apply perm_nil | | apply perm_swap].
    constructor; [|constructor; [|constructor]]; (split; [reflexivity|]); cbn [snd].
    - eapply same_tree_dir; [apply perm_swap | constructor | apply perm_nil].
    - eapply same_tree_dir; [ | constructor | apply perm_nil].
      apply (Permutation_cons_app [_] [_]).
      apply (Permutation_cons_app [_] []).
      apply Permutation_refl. }
  split; [exact Hsame|]. split; [reflexivity|].
  apply icons_deterministic; [exact Hsame | reflexivity].
Defined.

(** C10 on a file named [png]. *)
Lemma supported_by_last_component_witness :
  iconIsSupported "png" = true
  /\ exists st',
       process_dir Sample.convert Sample.heatshrink_short
         ("in", [], [("png", Sample.xbm_10x8)]) Sample.st0 = (Ok tt, st')
       /\ icons_list st'
          = (icons_list Sample.st0 ++ [mk_icon "I_" (Some 10) (Some 8) 0 1])%list.
Proof.
  destruct (supported_by_last_component Sample.convert Sample.heatshrink_short)
    as (_ & _ & Hpng & _ & Hicon).
  split; [exact Hpng|].
  apply (Hicon "in" [] Sample.xbm_10x8 Sample.st0 10 8
           "{0x01,0x00,0x03,0x00,0xaa,0xbb,0x0c,}").
  reflexivity.
Defined.

(** A static-icon directory with one 10x8 image: one icon of one frame. *)
Example static_directory :
  snd (process_dir Sample.convert Sample.heatshrink_short
         ("in/icons", [], [("my-icon.png", Sample.xbm_10x8)]) Sample.st0)
  = mk_state
      [ICONS_TEMPLATE_C_HEADER;
       "const uint8_t _I_my_icon_0[] = {0x01,0x00,0x03,0x00,0xaa,0xbb,0x0c,};" ++ NL;
       "const uint8_t* const _I_my_icon[] = {_I_my_icon_0};" ++ NL;
       NL]
      [mk_icon "I_my_icon" (Some 10) (Some 8) 0 1].
Proof. reflexivity. Qed.

(** An animation directory [foo-bar] with a frame rate of 4 and three
    frames of the same size: one icon of three frames, in the order of the
    sorted file names. *)
Example animation_directory :
  snd (process_dir Sample.convert Sample.heatshrink_short
         ("in/foo-bar", [],
          [("frame_rate", "4" ++ NL); ("c.png", Sample.xbm_16x8);
           ("a.png", Sample.xbm_16x8); ("b.png", Sample.xbm_16x8)])
         Sample.st0)
  = mk_state
      [ICONS_TEMPLATE_C_HEADER;
       "const uint8_t _A_foo_bar_0[] = {0x01,0x00,0x03,0x00,0xaa,0xbb,0x0c,};" ++ NL;
       "const uint8_t _A_foo_bar_1[] = {0x01,0x00,0x03,0x00,0xaa,0xbb,0x0c,};" ++ NL;
       "const uint8_t _A_foo_bar_2[] = {0x01,0x00,0x03,0x00,0xaa,0xbb,0x0c,};" ++ NL;
       "const uint8_t* const _A_foo_bar[] = {_A_foo_bar_0,_A_foo_bar_1,_A_foo_bar_2};"
       ++ NL;
       NL]
      [mk_icon "A_foo_bar" (Some 16) (Some 8) 4 3].
Proof. reflexivity. Qed.

(** * Worked examples of the further properties *)

(** X1 on a directory of two images and a text file. *)
Lemma static_directory_icons_witness :
  exists st',
    process_dir Sample.convert Sample.heatshrink_short
      ("in", [], [("b.png", Sample.xbm_10x8); ("notes.txt", "hello");
                  ("a.png", Sample.xbm_10x8)]) Sample.st0 = (Ok tt, st')
    /\ icons_list st'
       = [mk_icon "I_a" (Some 10) (Some 8) 0 1; mk_icon "I_b" (Some 10) (Some 8) 0 1].
Proof.
  destruct (static_directory_icons Sample.convert Sample.heatshrink_short
              "in" [] [("b.png", Sample.xbm_10x8); ("notes.txt", "hello");
                       ("a.png", Sample.xbm_10x8)]
              [Sample.frame_10x8; Sample.frame_10x8] Sample.st0)
    as (st' & Hp & Hl & _).
  - reflexivity.
  - repeat constructor.
  - exists st'. split; [exact Hp | exact Hl].
Defined.

(** X2 on a directory whose second image cannot be converted. *)
Lemma static_first_failure_witness :
  exists st',
    process_dir Sample.convert Sample.heatshrink_short
      ("in", [], Sample.broken_second) Sample.st0 = (Raise ValueError, st')
    /\ icons_list st' = [mk_icon "I_a" (Some 10) (Some 8) 0 1].
Proof.
  destruct (static_first_failure Sample.convert Sample.heatshrink_short
              "in" [] Sample.broken_second
              [("a.png", Sample.xbm_10x8)]
              [("c.png", Sample.xbm_10x8); ("notes.txt", "hello")]
              "b.png" Sample.not_xbm ValueError
              [Sample.frame_10x8] Sample.st0)
    as (st' & Hp & Hl & _).
  - reflexivity.
  - reflexivity.
  - repeat constructor.
  - reflexivity.
  - reflexivity.
  - exists st'. split; [exact Hp | exact Hl].
Defined.

(** X3 on an animation of three frames. *)
Lemma animation_icon_witness :
  exists st',
    process_dir Sample.convert Sample.heatshrink_short
      ("in/foo-bar", [], Sample.three_frames) Sample.st0 = (Ok tt, st')
    /\ icons_list st' = [mk_icon "A_foo_bar" (Some 16) (Some 8) 4 3].
Proof.
  destruct (animation_icon Sample.convert Sample.heatshrink_short
              "in/foo-bar" [] Sample.three_frames 16 8 4
              [Sample.frame_data; Sample.frame_data; Sample.frame_data] Sample.st0)
    as (st' & Hp & Hl).
  - reflexivity.
  - intros c [H|[H|[H|[H|[H|[]]]]]]; try discriminate H.
    injection H as <-. reflexivity.
  - lia.
  - repeat constructor.
  - discriminate.
  - exists st'. split; [exact Hp | exact Hl].
Defined.

(** X4 on the same animation. *)
Lemma animation_symbols_witness :
  exists st',
    process_dir Sample.convert Sample.heatshrink_short
      ("in/foo-bar", [], Sample.three_frames) Sample.st0 = (Ok tt, st')
    /\ nth_error (icons_c st') 4
       = Some ("const uint8_t* const _A_foo_bar[] = {_A_foo_bar_0,_A_foo_bar_1,_A_foo_bar_2};"
               ++ NL)%string.
Proof.
  destruct (animation_symbols Sample.convert Sample.heatshrink_short
              "in/foo-bar" [] Sample.three_frames 16 8 4
              [Sample.frame_data; Sample.frame_data; Sample.frame_data] Sample.st0)
    as (st' & Hp & Hc & _).
  - reflexivity.
  - intros c [H|[H|[H|[H|[H|[]]]]]]; try discriminate H.
    injection H as <-. reflexivity.
  - lia.
  - repeat constructor.
  - discriminate.
  - exists st'. split; [exact Hp|]. rewrite Hc. reflexivity.
Defined.

(** X5 on a tree whose only directory holds an image that cannot be
    converted. *)
Lemma aborted_run_artifacts_witness :
  exists st,
    walk_loop Sample.convert Sample.heatshrink_short
      (os_walk "in" (Dir Sample.broken_second [])) Sample.st0 = (Raise ValueError, st)
    /\ icons Sample.convert Sample.heatshrink_short "in" (Dir Sample.broken_second [])
       = (Raise ValueError, mk_artifacts (icons_c st) None).
Proof.
  eexists. split; [reflexivity|].
  apply (aborted_run_artifacts Sample.convert Sample.heatshrink_short "in"
           (Dir Sample.broken_second []) ValueError).
  reflexivity.
Defined.

(** X6 on a tree of text files and an empty directory. *)
Lemma icons_without_images_witness :
  forallb quiet_item (os_walk "in" Sample.no_images) = true
  /\ icons Sample.convert Sample.heatshrink_short "in" Sample.no_images
     = (Ok 0, mk_artifacts [ICONS_TEMPLATE_C_HEADER; NL] (Some [ICONS_TEMPLATE_H_HEADER])).
Proof.
  split; [reflexivity|].
  apply icons_without_images. reflexivity.
Defined.

(** X7: after a directory without images, a directory whose image cannot
    be converted stops the walk before a third one. *)
Lemma walk_aborts_at_first_failure_witness :
  exists st2,
    walk_loop Sample.convert Sample.heatshrink_short
      ([("in", ["a"; "b"], [("README", "x")])]
       ++ ("in/a", [], Sample.broken_second)
       :: [("in/b", [], [("z.png", Sample.xbm_10x8)])])%list Sample.st0
    = (Raise ValueError, st2).
Proof.
  eexists.
  apply (walk_aborts_at_first_failure Sample.convert Sample.heatshrink_short
           [("in", ["a"; "b"], [("README", "x")])]
           [("in/b", [], [("z.png", Sample.xbm_10x8)])]
           ("in/a", [], Sample.broken_second)
           Sample.st0 Sample.st0 _ tt ValueError).
  - reflexivity.
  - reflexivity.
Defined.

(** X8 on an output of [convert] that is a blank line. *)
Lemma icon2header_failures_witness :
  Sample.convert "a.png" (" " ++ NL) = Some (" " ++ NL)%string
  /\ icon2header Sample.convert Sample.heatshrink_short "a.png" (" " ++ NL)
     = Raise IndexError.
Proof.
  split; [reflexivity|].
  destruct (icon2header_failures Sample.convert Sample.heatshrink_short
              "a.png" (" " ++ NL)) as (_ & _ & H & _).
  apply (H (" " ++ NL)%string); [reflexivity | discriminate | reflexivity].
Defined.

(** X9 on a bitmap of eight bytes compressed to three. *)
Lemma compressed_frame_length_decodes_witness :
  encode_frame Sample.heatshrink_short ""
    [x00; x01; x02; x03; x04; x05; x06; x07] = Ok Sample.frame_data
  /\ exists lo hi payload,
       frame_bytes Sample.frame_data = Some (x01 :: x00 :: lo :: hi :: payload)
       /\ Z.of_N (Byte.to_N lo) + 256 * Z.of_N (Byte.to_N hi) = Py.len payload.
Proof.
  split; [reflexivity|].
  destruct (compressed_frame_length_decodes Sample.heatshrink_short ""
              [x00; x01; x02; x03; x04; x05; x06; x07] Sample.frame_data)
    as (lo & hi & payload & _ & Hb & Hl); [reflexivity | reflexivity |].
  exists lo, hi, payload. split; [exact Hb | exact Hl].
Defined.

(** X10 on a bitmap of three bytes compressed to one: the COMPRESSED frame
    holds five bytes, one more than the RAW frame would. *)
Lemma compressed_frame_size_witness :
  encode_frame (fun _ => Some [xaa]) "" [x00; x01; x02]
  = Ok "{0x01,0x00,0x01,0x00,0xaa,}"%string
  /\ exists bytes,
       frame_bytes "{0x01,0x00,0x01,0x00,0xaa,}" = Some bytes
       /\ Py.len bytes = Py.len [x00; x01; x02] + 1 + 1.
Proof.
  split; [reflexivity|].
  destruct (compressed_frame_size (fun _ => Some [xaa]) "" [x00; x01; x02]
              "{0x01,0x00,0x01,0x00,0xaa,}")
    as (payload & bytes & Hs & Hb & Hl & _); [reflexivity | reflexivity |].
  exists bytes. split; [exact Hb|].
  injection Hs as <-. rewrite Hl. reflexivity.
Defined.

(** X12 on a name with two dots and an extension in mixed case. *)
Lemma supported_extension_witness :
  has_char "." "PnG" = false
  /\ iconIsSupported "my.icon.PnG" = true.
Proof.
  split; [reflexivity|].
  apply (supported_extension "my.icon" "PnG"); reflexivity.
Defined.

(** X13 on an animation whose second frame cannot be converted. *)
Lemma animation_first_failure_witness :
  process_dir Sample.convert Sample.heatshrink_short
    ("in/anim", [],
     [("frame_rate", "4" ++ NL); ("b.png", Sample.not_xbm); ("a.png", Sample.xbm_10x8)])
    Sample.st0
  = (Raise ValueError,
     mk_state
       [ICONS_TEMPLATE_C_HEADER;
        ICONS_TEMPLATE_C_FRAME "_A_anim_0" Sample.frame_data]
       []).
Proof.
  apply (animation_first_failure Sample.convert Sample.heatshrink_short
           "in/anim" []
           [("frame_rate", "4" ++ NL); ("b.png", Sample.not_xbm);
            ("a.png", Sample.xbm_10x8)]
           [("a.png", Sample.xbm_10x8)] [("frame_rate", "4" ++ NL)]
           "b.png" Sample.not_xbm ValueError 10 8 4 [Sample.frame_data] Sample.st0).
  - reflexivity.
  - reflexivity.
  - repeat constructor.
  - intros c [H|[]]. discriminate H.
  - reflexivity.
  - reflexivity.
Defined.

(** X14 on an animation whose second frame is wider than the first. *)
Lemma animation_size_mismatch_witness :
  process_dir Sample.convert Sample.heatshrink_short
    ("in/anim", [], Sample.mixed_frames) Sample.st0
  = (Raise AssertionError,
     mk_state
       [ICONS_TEMPLATE_C_HEADER;
        ICONS_TEMPLATE_C_FRAME "_A_anim_0" Sample.frame_data]
       []).
Proof.
  apply (animation_size_mismatch Sample.convert Sample.heatshrink_short
           "in/anim" [] Sample.mixed_frames
           [("f1.png", Sample.xbm_10x8)] [("frame_rate", "4" ++ NL)]
           "f2.png" Sample.xbm_16x8 10 8 4 16 8 [Sample.frame_data]
           Sample.frame_data Sample.st0).
  - reflexivity.
  - reflexivity.
  - repeat constructor.
  - discriminate.
  - intros c [H|[]]. discriminate H.
  - reflexivity.
  - reflexivity.
  - left. discriminate.
Defined.

(** X15 on an animation directory that holds no image. *)
Lemma animation_without_frames_witness :
  process_dir Sample.convert Sample.heatshrink_short
    ("in/anim", [], [("notes.txt", "x"); ("frame_rate", "4" ++ NL)]) Sample.st0
  = (Raise AssertionError, Sample.st0).
Proof.
  apply (animation_without_frames Sample.convert Sample.heatshrink_short
           "in/anim" [] [("notes.txt", "x"); ("frame_rate", "4" ++ NL)] 4 Sample.st0).
  - reflexivity.
  - intros c [H|[H|[]]]; [discriminate H|]. injection H as <-. reflexivity.
  - reflexivity.
Defined.

(** X16 on a directory of two static icons. *)
Lemma artifacts_linked_witness :
  fst (icons Sample.convert Sample.heatshrink_short "in" Sample.two_icons) = Ok 0
  /\ exists groups,
       Forall group_linked groups
       /\ List.length (assets_icons_c
                         (snd (icons Sample.convert Sample.heatshrink_short "in"
                                 Sample.two_icons)))
          = (1 + List.length (flat_map group_blocks groups)
             + List.length groups + 1)%nat.
Proof.
  split; [reflexivity|].
  destruct (artifacts_linked Sample.convert Sample.heatshrink_short "in"
              Sample.two_icons 0
              (snd (icons Sample.convert Sample.heatshrink_short "in" Sample.two_icons)))
    as (groups & Hok & Hc); [reflexivity|].
  exists groups. split; [exact Hok|].
  rewrite Hc, !length_app, length_map. cbn [List.length]. lia.
Defined.
